(** * Vehicle Parking App: booking / spot lifecycle and account recovery

    A shallow embedding of the request handlers of [app.py],
    [api_admin.py], [api_auth.py] and [auth.py] together with the row
    types of [core/models.py].

    Conventions of the embedding.
    - Python [int] is [Z]; [str] is [string] (one [ascii] per character, so
      the model covers ASCII text); [float] is an IEEE 754 binary64 number,
      the [spec_float] of the Standard Library with a precision of 53 bits
      and exponents up to 1024, and the operations on it are the correctly
      rounded ones of [SpecFloat].
    - A table is the list of its rows in insertion (rowid) order.
    - A handler receives the database and returns a transaction outcome:
      the working copy it built and whether [db.session.commit()] was
      reached.  A request that ends without a commit leaves the database
      as it was: Flask-SQLAlchemy removes the scoped session when the
      request ends, which rolls back whatever was only flushed. *)

From Stdlib Require Import ZArith QArith Qround List String Ascii Bool Lia.
From Stdlib Require Import DecimalString Sorted Permutation Lqa.
From Stdlib Require Import Floats.SpecFloat.
Import ListNotations.

Local Open Scope Z_scope.

(* ================================================================== *)
(** ** Python string and list primitives used by the handlers *)
(* ================================================================== *)

Module PyStr.

Local Open Scope string_scope.
Local Open Scope Z_scope.

(** [s.split(sep)] for a one-character separator. *)
Fixpoint split (sep : ascii) (s : string) : list string :=
  match s with
  | EmptyString => [EmptyString]
  | String c rest =>
      if Ascii.eqb c sep then EmptyString :: split sep rest
      else match split sep rest with
           | [] => [String c EmptyString]
           | seg :: segs => String c seg :: segs
           end
  end.

(** [sep.join(l)]. *)
Definition join (sep : string) (l : list string) : string :=
  String.concat sep l.

(** Index normalisation of a slice bound against a sequence of length
    [len]: negative bounds count from the end, everything is clamped. *)
Definition clamp (len i : Z) : Z :=
  if i <? 0 then Z.max 0 (i + len) else Z.min i len.

(** [l[lo:hi]]: never raises, whatever the bounds. *)
Definition slice {A : Type} (lo hi : Z) (l : list A) : list A :=
  let len := Z.of_nat (List.length l) in
  let lo' := clamp len lo in
  let hi' := clamp len hi in
  firstn (Z.to_nat (hi' - lo')) (skipn (Z.to_nat lo') l).

(** [l[i]] for a non-negative index: [None] stands for [IndexError]. *)
Definition index0 {A : Type} (l : list A) : option A := hd_error l.

Definition is_upper (c : ascii) : bool :=
  let n := N_of_ascii c in (65 <=? n)%N && (n <=? 90)%N.

Definition is_lower (c : ascii) : bool :=
  let n := N_of_ascii c in (97 <=? n)%N && (n <=? 122)%N.

Definition is_digit (c : ascii) : bool :=
  let n := N_of_ascii c in (48 <=? n)%N && (n <=? 57)%N.

(** [str.isspace] on the ASCII range. *)
Definition is_space (c : ascii) : bool :=
  let n := N_of_ascii c in
  ((9 <=? n)%N && (n <=? 13)%N) || ((28 <=? n)%N && (n <=? 32)%N).

Definition lower_char (c : ascii) : ascii :=
  if is_upper c then ascii_of_N (N_of_ascii c + 32) else c.

Definition upper_char (c : ascii) : ascii :=
  if is_lower c then ascii_of_N (N_of_ascii c - 32) else c.

Fixpoint map_string (f : ascii -> ascii) (s : string) : string :=
  match s with
  | EmptyString => EmptyString
  | String c rest => String (f c) (map_string f rest)
  end.

Definition lower : string -> string := map_string lower_char.
Definition upper : string -> string := map_string upper_char.

Fixpoint lstrip (s : string) : string :=
  match s with
  | EmptyString => EmptyString
  | String c rest => if is_space c then lstrip rest else s
  end.

Fixpoint rstrip (s : string) : string :=
  match s with
  | EmptyString => EmptyString
  | String c rest =>
      match rstrip rest with
      | EmptyString => if is_space c then EmptyString else String c EmptyString
      | r => String c r
      end
  end.

Definition strip (s : string) : string := rstrip (lstrip s).

(** Truthiness of a string: [not s] holds for the empty string only. *)
Definition truthy (s : string) : bool := negb (s =? EmptyString)%string.

Fixpoint contains (c : ascii) (s : string) : bool :=
  match s with
  | EmptyString => false
  | String d rest => Ascii.eqb d c || contains c rest
  end.

Fixpoint exists_char (p : ascii -> bool) (s : string) : bool :=
  match s with
  | EmptyString => false
  | String d rest => p d || exists_char p rest
  end.

Fixpoint forall_char (p : ascii -> bool) (s : string) : bool :=
  match s with
  | EmptyString => true
  | String d rest => p d && forall_char p rest
  end.

(** [s.isascii()]: the text the model's functions read as Python does. *)
Definition is_ascii_char (c : ascii) : bool := (N_of_ascii c <? 128)%N.

Definition isascii (s : string) : bool := forall_char is_ascii_char s.

(** [int(t)] on a run of decimal digits. *)
Fixpoint int_of_digits_acc (acc : Z) (s : string) : Z :=
  match s with
  | EmptyString => acc
  | String c rest =>
      int_of_digits_acc (10 * acc + Z.of_N (N_of_ascii c - 48)) rest
  end.

Definition int_of_digits (s : string) : Z := int_of_digits_acc 0 s.

(** [t.isdigit()]: a non-empty run of digits. *)
Definition isdigit (s : string) : bool :=
  truthy s && forall_char is_digit s.

(** [re.split(r'([0-9]+)', s)]: the text runs and the digit runs of [s]
    in order, alternating, starting and ending with a (possibly empty)
    text run.  [cur] is the run being read, reversed; [in_num] tells of
    which kind it is. *)
Fixpoint rev_string_acc (s acc : string) : string :=
  match s with
  | EmptyString => acc
  | String c rest => rev_string_acc rest (String c acc)
  end.

Definition rev_string (s : string) : string := rev_string_acc s EmptyString.

Fixpoint re_split_digits_aux (in_num : bool) (cur : string) (s : string)
  : list string :=
  match s with
  | EmptyString =>
      if in_num then [rev_string cur; EmptyString] else [rev_string cur]
  | String c rest =>
      if is_digit c then
        if in_num then re_split_digits_aux true (String c cur) rest
        else rev_string cur :: re_split_digits_aux true (String c EmptyString) rest
      else
        if in_num then rev_string cur :: re_split_digits_aux false (String c EmptyString) rest
        else re_split_digits_aux false (String c cur) rest
  end.

Definition re_split_digits (s : string) : list string :=
  re_split_digits_aux false EmptyString s.

(** Number of occurrences of a character. *)
Fixpoint count (c : ascii) (s : string) : nat :=
  match s with
  | EmptyString => O
  | String d rest => (if Ascii.eqb d c then 1 else 0) + count c rest
  end.

End PyStr.

(* ================================================================== *)
(** ** Rows of [core/models.py] *)
(* ================================================================== *)

(** A [datetime]: the wall-clock reading in microseconds and, for an aware
    value, the UTC offset of its [tzinfo] in microseconds.  [tzinfo = None]
    is a naive value. *)
Record datetime : Type := mk_datetime {
  wall_us : Z;
  tzinfo : option Z
}.

(** [timezone.utc]. *)
Definition utc : Z := 0.

(** [d.replace(tzinfo=tz)]. *)
Definition replace_tzinfo (d : datetime) (tz : Z) : datetime :=
  {| wall_us := wall_us d; tzinfo := Some tz |}.

(** [a - b] in microseconds.  Two aware values are compared as instants,
    two naive ones as wall-clock readings; mixing them is a [TypeError],
    here [None]. *)
Definition dt_sub (a b : datetime) : option Z :=
  match tzinfo a, tzinfo b with
  | Some oa, Some ob => Some ((wall_us a - oa) - (wall_us b - ob))
  | None, None => Some (wall_us a - wall_us b)
  | _, _ => None
  end.

(** The integer nearest to a rational, ties to even. *)
Definition round_half_even (x : Q) : Z :=
  let f := Qfloor x in
  match Qcompare (x - inject_Z f) (1 # 2) with
  | Lt => f
  | Gt => f + 1
  | Eq => if Z.even f then f else f + 1
  end.

(* ================================================================== *)
(** ** Python floats *)
(* ================================================================== *)

Module PyFloat.

(** binary64. *)
Definition prec : Z := 53.
Definition emax : Z := 1024.

Definition float : Type := spec_float.

(** [float(n)] for an [int] that a float can hold. *)
Definition of_int (n : Z) : float := binary_normalize prec emax n 0 false.

(** [a / b] on two [int]s: the float nearest to the quotient.  [None] is
    the [ZeroDivisionError] of a zero divisor, or the [OverflowError] of a
    quotient too large for a float. *)
Definition int_truediv (a b : Z) : option float :=
  match b with
  | Z0 => None
  | _ =>
      let q :=
        match a with
        | Z0 => S754_zero (b <? 0)
        | _ => SFdiv prec emax
                 (S754_finite (a <? 0) (Z.to_pos (Z.abs a)) 0)
                 (S754_finite (b <? 0) (Z.to_pos (Z.abs b)) 0)
        end in
      match q with
      | S754_infinity _ => None
      | _ => Some q
      end
  end.

(** [x * y] and [x / y] on floats, the divisor not being zero (the one
    float division of the handlers divides by the constant 3600). *)
Definition mul (x y : float) : float := SFmul prec emax x y.
Definition div (x y : float) : float := SFdiv prec emax x y.

(** The number [m * 2 ^ e]. *)
Definition magnitude (m : positive) (e : Z) : Q :=
  match e with
  | Zneg p => Qmake (Zpos m) (Pos.pow 2 p)
  | _ => inject_Z (Zpos m * 2 ^ e)
  end.

(** The number a finite float stands for. *)
Definition value (x : float) : option Q :=
  match x with
  | S754_zero _ => Some (0 # 1)
  | S754_finite s m e => Some (if s then Qopp (magnitude m e) else magnitude m e)
  | S754_infinity _ | S754_nan => None
  end.

(** [math.ceil(x)]; [None] is the [OverflowError] or [ValueError] that an
    infinity or a NaN raises. *)
Definition ceil (x : float) : option Z := option_map Qceiling (value x).

(** [round(x, 2)]: the float nearest to the decimal number with two
    places that is nearest to [x], ties between two such decimals going to
    the even one; the sign is kept, and an infinity or a NaN is returned
    as it is. *)
Definition round2 (x : float) : float :=
  match x with
  | S754_finite s m e =>
      match round_half_even (magnitude m e * inject_Z 100) with
      | Zpos n => SFdiv prec emax (S754_finite s n 0) (S754_finite false 100 0)
      | _ => S754_zero s
      end
  | _ => x
  end.

Definition is_nan (x : float) : bool :=
  match x with S754_nan => true | _ => false end.

(** [bool(x)]: every float but the two zeros. *)
Definition truthy (x : float) : bool :=
  match x with S754_zero _ => false | _ => true end.

(** [x < y]; a comparison with a NaN is false. *)
Definition ltb (x y : float) : bool := SFltb x y.

(** What a [Float] column holds once a float has been written to it:
    SQLite stores a NaN as [NULL] and a negative zero as zero. *)
Definition stored (x : float) : option float :=
  match x with
  | S754_nan => None
  | S754_zero _ => Some (S754_zero false)
  | _ => Some x
  end.

End PyFloat.

(** [timedelta.total_seconds()]: the microseconds divided by [10**6]. *)
Definition total_seconds (us : Z) : option PyFloat.float :=
  PyFloat.int_truediv us 1000000.

Module User.
Record t : Type := mk {
  id : Z;
  username : string;
  email : string;
  password_hash : string;
  fs_uniquifier : string;
  roles : list string;
  secret_answer_hash : string
}.

(** [has_role]: any role of the user carries that name. *)
Definition has_role (u : t) (role_name : string) : bool :=
  existsb (fun r => String.eqb r role_name) (roles u).

Definition with_password_hash (u : t) (h : string) : t :=
  {| id := id u; username := username u; email := email u;
     password_hash := h; fs_uniquifier := fs_uniquifier u;
     roles := roles u; secret_answer_hash := secret_answer_hash u |}.
End User.

Module ParkingArea.
Record t : Type := mk {
  id : Z;
  name : string;
  location_description : string;
  price_per_hour : PyFloat.float
}.
End ParkingArea.

Module ParkingSpot.
Record t : Type := mk {
  id : Z;
  spot_identifier : string;
  status : string;
  parking_area_id : Z
}.

Definition with_status (s : t) (st : string) : t :=
  {| id := id s; spot_identifier := spot_identifier s;
     status := st; parking_area_id := parking_area_id s |}.
End ParkingSpot.

Module Car.
Record t : Type := mk {
  id : Z;
  license_plate : string;
  user_id : Z
}.
End Car.

Module Booking.
Record t : Type := mk {
  id : Z;
  user_id : Z;
  car_id : Z;
  spot_id : Z;
  start_time : option datetime;
  end_time : option datetime;
  status : string;
  total_cost : option PyFloat.float
}.

Definition with_status (b : t) (st : string) : t :=
  {| id := id b; user_id := user_id b; car_id := car_id b;
     spot_id := spot_id b; start_time := start_time b;
     end_time := end_time b; status := st; total_cost := total_cost b |}.

Definition with_start_time (b : t) (d : option datetime) : t :=
  {| id := id b; user_id := user_id b; car_id := car_id b;
     spot_id := spot_id b; start_time := d;
     end_time := end_time b; status := status b; total_cost := total_cost b |}.

Definition with_end_time (b : t) (d : option datetime) : t :=
  {| id := id b; user_id := user_id b; car_id := car_id b;
     spot_id := spot_id b; start_time := start_time b;
     end_time := d; status := status b; total_cost := total_cost b |}.

Definition with_total_cost (b : t) (c : option PyFloat.float) : t :=
  {| id := id b; user_id := user_id b; car_id := car_id b;
     spot_id := spot_id b; start_time := start_time b;
     end_time := end_time b; status := status b; total_cost := c |}.
End Booking.

(** The database: one list of rows per table (columns that no handler
    below reads, such as [created_at] or a car's colour, are left out). *)
Record DB : Type := mk_DB {
  users : list User.t;
  areas : list ParkingArea.t;
  spots : list ParkingSpot.t;
  cars : list Car.t;
  bookings : list Booking.t
}.

Definition empty_db : DB :=
  {| users := []; areas := []; spots := []; cars := []; bookings := [] |}.

Definition with_areas (db : DB) (l : list ParkingArea.t) : DB :=
  {| users := users db; areas := l; spots := spots db;
     cars := cars db; bookings := bookings db |}.

Definition with_spots (db : DB) (l : list ParkingSpot.t) : DB :=
  {| users := users db; areas := areas db; spots := l;
     cars := cars db; bookings := bookings db |}.

Definition with_cars (db : DB) (l : list Car.t) : DB :=
  {| users := users db; areas := areas db; spots := spots db;
     cars := l; bookings := bookings db |}.

Definition with_bookings (db : DB) (l : list Booking.t) : DB :=
  {| users := users db; areas := areas db; spots := spots db;
     cars := cars db; bookings := l |}.

Definition with_users (db : DB) (l : list User.t) : DB :=
  {| users := l; areas := areas db; spots := spots db;
     cars := cars db; bookings := bookings db |}.

(* ================================================================== *)
(** ** Queries and row updates *)
(* ================================================================== *)

Module Query.

Section Table.
Context {A : Type}.

(** [Model.query.get(k)]: the row whose primary key is [k]. *)
Definition get (id_of : A -> Z) (tbl : list A) (k : Z) : option A :=
  find (fun r => id_of r =? k) tbl.

(** [query.filter(p).first()]. *)
Definition first (p : A -> bool) (tbl : list A) : option A :=
  find p tbl.

(** The primary key the next inserted row receives. *)
Definition next_id (id_of : A -> Z) (tbl : list A) : Z :=
  1 + fold_right Z.max 0 (map id_of tbl).

(** [UPDATE tbl SET ... WHERE id = k]: the flush of a mutated row. *)
Definition update (id_of : A -> Z) (k : Z) (f : A -> A) (tbl : list A)
  : list A :=
  map (fun r => if id_of r =? k then f r else r) tbl.

(** [ORDER BY] a key, ascending: a stable insertion sort. *)
Fixpoint insert_sorted (leb : A -> A -> bool) (x : A) (l : list A)
  : list A :=
  match l with
  | [] => [x]
  | y :: l' => if leb x y then x :: l else y :: insert_sorted leb x l'
  end.

Definition order_by (leb : A -> A -> bool) (l : list A) : list A :=
  fold_right (insert_sorted leb) [] l.
End Table.

End Query.

(** The status strings of the two state machines. *)
Definition st_available : string := "available".
Definition st_reserved : string := "reserved".
Definition st_occupied : string := "occupied".
Definition st_pending : string := "pending".
Definition st_active : string := "active".
Definition st_completed : string := "completed".
Definition st_rejected : string := "rejected".

(** [Booking.status.in_(('active', 'pending'))]. *)
Definition active_or_pending (s : string) : bool :=
  existsb (String.eqb s) [st_active; st_pending].

(* ================================================================== *)
(** ** Responses and transactions *)
(* ================================================================== *)

(** What a handler answers: a redirect carrying a flashed message of some
    category, a rendered page (with the category of the flashed message,
    empty when there is none), an [abort(code)] or unhandled exception
    (code 500), or a JSON body with its status code. *)
Inductive Response : Type :=
| Redirect (flash_category : string)
| Render (flash_category : string)
| Abort (code : Z)
| Json (ok : bool) (code : Z).

(** The outcome of a handler on the session: [Commit] when
    [db.session.commit()] was reached with that working copy, [NoCommit]
    when the handler returned (or raised) before it. *)
Inductive Txn : Type :=
| Commit (db : DB) (r : Response)
| NoCommit (working : DB) (r : Response).

(** The database after the request and the response sent. *)
Definition run (h : DB -> Txn) (db : DB) : DB * Response :=
  match h db with
  | Commit db' r => (db', r)
  | NoCommit _ r => (db, r)
  end.

(** A response that refuses the request. *)
Definition is_rejection (r : Response) : bool :=
  match r with
  | Redirect c | Render c => String.eqb c "warning" || String.eqb c "danger"
  | Abort _ => true
  | Json ok _ => negb ok
  end.

(* ================================================================== *)
(** ** [app.py] *)
(* ================================================================== *)

Module App.

Definition find_booking (db : DB) (k : Z) : option Booking.t :=
  Query.get Booking.id (bookings db) k.

Definition find_spot (db : DB) (k : Z) : option ParkingSpot.t :=
  Query.get ParkingSpot.id (spots db) k.

Definition find_area (db : DB) (k : Z) : option ParkingArea.t :=
  Query.get ParkingArea.id (areas db) k.

Definition find_car (db : DB) (k : Z) : option Car.t :=
  Query.get Car.id (cars db) k.

Definition find_user (db : DB) (k : Z) : option User.t :=
  Query.get User.id (users db) k.

Definition update_booking (db : DB) (k : Z) (f : Booking.t -> Booking.t) : DB :=
  with_bookings db (Query.update Booking.id k f (bookings db)).

Definition set_spot_status (db : DB) (k : Z) (st : string) : DB :=
  with_spots db
    (Query.update ParkingSpot.id k (fun s => ParkingSpot.with_status s st) (spots db)).

(** [db.session.add(Booking(...))]: the row is appended with the next
    primary key; a missing [start_time] takes the column default, the
    time of the insert. *)
Definition add_booking (db : DB) (user_id car_id spot_id : Z)
           (start_time end_time : option datetime) (status : string)
           (total_cost : option PyFloat.float) (insert_time : datetime) : DB :=
  let row :=
    {| Booking.id := Query.next_id Booking.id (bookings db);
       Booking.user_id := user_id;
       Booking.car_id := car_id;
       Booking.spot_id := spot_id;
       Booking.start_time :=
         match start_time with Some d => Some d | None => Some insert_time end;
       Booking.end_time := end_time;
       Booking.status := status;
       Booking.total_cost := total_cost |} in
  with_bookings db (bookings db ++ [row]).

Definition _now_utc (now : Z) : datetime :=
  {| wall_us := now; tzinfo := Some utc |}.

(** [start.replace(tzinfo=timezone.utc)] when [start] is naive. *)
Definition as_aware (start : datetime) : datetime :=
  match tzinfo start with
  | None => replace_tzinfo start utc
  | Some _ => start
  end.

(** [max(1, ceil(hours))]; [None] when [ceil] raises. *)
Definition billed_hours (hours : PyFloat.float) : option Z :=
  option_map (Z.max 1) (PyFloat.ceil hours).

(** [round(billed_hours * price, 2)] for a stay of [us] microseconds at
    [price] per hour, with [hours = total_seconds / 3600]; [None] when one
    of the steps raises. *)
Definition cost (us : Z) (price : PyFloat.float) : option PyFloat.float :=
  match total_seconds us with
  | None => None
  | Some seconds =>
      let hours := PyFloat.div seconds (PyFloat.of_int 3600) in
      match billed_hours hours with
      | None => None
      | Some billed =>
          Some (PyFloat.round2 (PyFloat.mul (PyFloat.of_int billed) price))
      end
  end.

(** [Booking.query.filter(car_id == c, status.in_(('active','pending'))).first()]. *)
Definition existing_for_car (db : DB) (car_id : Z) : option Booking.t :=
  Query.first
    (fun b => (Booking.car_id b =? car_id) && active_or_pending (Booking.status b))
    (bookings db).

(** [ParkingSpot.query.filter_by(parking_area_id=a, status='available')
      .order_by(ParkingSpot.spot_identifier.asc()).first()]: the order is
    the database's order on strings, character by character. *)
Definition first_available_spot (db : DB) (area_id : Z) : option ParkingSpot.t :=
  hd_error
    (Query.order_by
       (fun a b => String.leb (ParkingSpot.spot_identifier a)
                              (ParkingSpot.spot_identifier b))
       (filter (fun s => (ParkingSpot.parking_area_id s =? area_id)
                         && String.eqb (ParkingSpot.status s) st_available)
               (spots db))).

(** The working copy [_complete_booking] leaves, and whether it returned
    or raised. *)
Inductive Completion : Type :=
| Returned (db : DB)
| Raised (db : DB).

Definition _complete_booking (now : Z) (booking : Booking.t) (db : DB)
  : Completion :=
  if String.eqb (Booking.status booking) st_completed then Returned db
  else
    let end_time := _now_utc now in
    let db1 := update_booking db (Booking.id booking)
                 (fun b => Booking.with_end_time
                             (Booking.with_status b st_completed) (Some end_time)) in
    let start := option_map as_aware (Booking.start_time booking) in
    match find_spot db (Booking.spot_id booking) with
    | None => Returned db1
    | Some spot =>
        let db2 := set_spot_status db1 (ParkingSpot.id spot) st_available in
        match start with
        | None => Returned db2
        | Some start =>
            match find_area db (ParkingSpot.parking_area_id spot) with
            | None => Raised db2
            | Some area =>
                match dt_sub end_time start with
                | None => Raised db2
                | Some us =>
                    match cost us (ParkingArea.price_per_hour area) with
                    | None => Raised db2
                    | Some c =>
                        Returned (update_booking db2 (Booking.id booking)
                                    (fun b => Booking.with_total_cost b
                                                (PyFloat.stored c)))
                    end
                end
            end
        end
    end.

(** [POST /user/book]. *)
Definition user_book (current_user : User.t) (area_id car_id : option Z)
           (now : Z) (db : DB) : Txn :=
  if User.has_role current_user "admin" then NoCommit db (Abort 403)
  else
    match area_id, car_id with
    | Some area_id, Some car_id =>
        if (area_id =? 0) || (car_id =? 0) then NoCommit db (Redirect "danger")
        else
          match find_car db car_id with
          | None => NoCommit db (Abort 404)
          | Some car =>
              if negb (Car.user_id car =? User.id current_user)
              then NoCommit db (Abort 403)
              else
                match existing_for_car db car_id with
                | Some _ => NoCommit db (Redirect "warning")
                | None =>
                    match first_available_spot db area_id with
                    | None => NoCommit db (Redirect "danger")
                    | Some spot =>
                        let db1 := set_spot_status db (ParkingSpot.id spot) st_reserved in
                        let db2 := add_booking db1 (User.id current_user) car_id
                                     (ParkingSpot.id spot) None None st_pending None
                                     (_now_utc now) in
                        Commit db2 (Redirect "info")
                    end
                end
          end
    | _, _ => NoCommit db (Redirect "danger")
    end.

(** [POST /admin/offline-book] (the body; [admin_required] has passed). *)
Definition admin_offline_book (license_plate : option string)
           (area_id : option Z) (now : Z) (db : DB) : Txn :=
  let plate :=
    PyStr.upper (PyStr.strip (match license_plate with Some p => p | None => EmptyString end)) in
  match area_id with
  | None => NoCommit db (Json false 400)
  | Some area_id =>
      if negb (PyStr.truthy plate) || (area_id =? 0) then NoCommit db (Json false 400)
      else
        match find_area db area_id with
        | None => NoCommit db (Abort 404)
        | Some area =>
            (* find or create the car; a new car is added and flushed *)
            let found :=
              match Query.first (fun c => String.eqb (Car.license_plate c) plate) (cars db) with
              | Some car => Some (car, db)
              | None =>
                  match Query.first (fun u => String.eqb (User.username u) "offline_user")
                                    (users db) with
                  | None => None
                  | Some offline_user =>
                      let car := {| Car.id := Query.next_id Car.id (cars db);
                                    Car.license_plate := plate;
                                    Car.user_id := User.id offline_user |} in
                      Some (car, with_cars db (cars db ++ [car]))
                  end
              end in
            match found with
            | None => NoCommit db (Json false 500)
            | Some (car, db1) =>
                match existing_for_car db1 (Car.id car) with
                | Some _ => NoCommit db1 (Json false 400)
                | None =>
                    match first_available_spot db1 (ParkingArea.id area) with
                    | None => NoCommit db1 (Json false 400)
                    | Some spot =>
                        let db2 := set_spot_status db1 (ParkingSpot.id spot) st_occupied in
                        let db3 := add_booking db2 (Car.user_id car) (Car.id car)
                                     (ParkingSpot.id spot) (Some (_now_utc now)) None
                                     st_active None (_now_utc now) in
                        Commit db3 (Json true 200)
                    end
                end
            end
        end
  end.

(** [POST /admin/offline/release/<booking_id>]. *)
Definition admin_offline_release (booking_id : Z) (now : Z) (db : DB) : Txn :=
  match find_booking db booking_id with
  | None => NoCommit db (Abort 404)
  | Some b =>
      if negb (String.eqb (Booking.status b) st_active)
      then NoCommit db (Redirect "warning")
      else
        match _complete_booking now b db with
        | Raised w => NoCommit w (Abort 500)
        | Returned db' => Commit db' (Redirect "success")
        end
  end.

(** [POST /admin/requests/<booking_id>/approve].  After the commit the
    flashed message reads [b.user.username] and [b.spot.spot_identifier]. *)
Definition admin_request_approve (booking_id : Z) (now : Z) (db : DB) : Txn :=
  match find_booking db booking_id with
  | None => NoCommit db (Abort 404)
  | Some b =>
      if negb (String.eqb (Booking.status b) st_pending)
      then NoCommit db (Redirect "warning")
      else
        let db1 := update_booking db booking_id
                     (fun r => Booking.with_start_time
                                 (Booking.with_status r st_active)
                                 (Some (_now_utc now))) in
        let spot := find_spot db (Booking.spot_id b) in
        let db2 := match spot with
                   | Some s => set_spot_status db1 (ParkingSpot.id s) st_occupied
                   | None => db1
                   end in
        match find_user db (Booking.user_id b), spot with
        | Some _, Some _ => Commit db2 (Redirect "success")
        | _, _ => Commit db2 (Abort 500)
        end
  end.

(** [POST /admin/requests/<booking_id>/reject]. *)
Definition admin_request_reject (booking_id : Z) (db : DB) : Txn :=
  match find_booking db booking_id with
  | None => NoCommit db (Abort 404)
  | Some b =>
      if negb (String.eqb (Booking.status b) st_pending)
      then NoCommit db (Redirect "warning")
      else
        let db1 := match find_spot db (Booking.spot_id b) with
                   | Some s => set_spot_status db (ParkingSpot.id s) st_available
                   | None => db
                   end in
        let db2 := update_booking db1 booking_id
                     (fun r => Booking.with_status r st_rejected) in
        Commit db2 (Redirect "info")
  end.

(** [POST /user/pending/<booking_id>/cancel]. *)
Definition user_cancel_pending (current_user : User.t) (booking_id : Z)
           (db : DB) : Txn :=
  match find_booking db booking_id with
  | None => NoCommit db (Abort 404)
  | Some b =>
      if negb (Booking.user_id b =? User.id current_user)
         || negb (String.eqb (Booking.status b) st_pending)
      then NoCommit db (Abort 403)
      else
        let db1 := match find_spot db (Booking.spot_id b) with
                   | Some s => set_spot_status db (ParkingSpot.id s) st_available
                   | None => db
                   end in
        let db2 := update_booking db1 booking_id
                     (fun r => Booking.with_status r st_rejected) in
        Commit db2 (Redirect "info")
  end.

(** [POST /user/release/<booking_id>].  After the commit the flashed
    message formats [booking.total_cost] as a number, which raises when it
    is still [None]. *)
Definition user_release (current_user : User.t) (booking_id : Z)
           (now : Z) (db : DB) : Txn :=
  match find_booking db booking_id with
  | None => NoCommit db (Abort 404)
  | Some booking =>
      if negb (Booking.user_id booking =? User.id current_user)
      then NoCommit db (Abort 403)
      else if String.eqb (Booking.status booking) st_completed
      then NoCommit db (Redirect "warning")
      else
        let end_time := _now_utc now in
        let db1 := update_booking db booking_id
                     (fun b => Booking.with_end_time
                                 (Booking.with_status b st_completed)
                                 (Some end_time)) in
        let start := option_map as_aware (Booking.start_time booking) in
        match find_spot db (Booking.spot_id booking), start with
        | Some spot, Some start =>
            let db2 := set_spot_status db1 (ParkingSpot.id spot) st_available in
            match find_area db (ParkingSpot.parking_area_id spot) with
            | None => NoCommit db2 (Abort 500)
            | Some area =>
                match dt_sub end_time start with
                | None => NoCommit db2 (Abort 500)
                | Some us =>
                    match cost us (ParkingArea.price_per_hour area) with
                    | None => NoCommit db2 (Abort 500)
                    | Some c =>
                        Commit (update_booking db2 booking_id
                                  (fun b => Booking.with_total_cost b
                                              (PyFloat.stored c)))
                               (match PyFloat.stored c with
                                | Some _ => Redirect "success"
                                | None => Abort 500
                                end)
                    end
                end
            end
        | _, _ =>
            Commit db1 (match Booking.total_cost booking with
                        | Some _ => Redirect "success"
                        | None => Abort 500
                        end)
        end
  end.

(** The sort key of [api_admin_area_spot_status]:
    [[int(t) if t.isdigit() else t.lower() for t in re.split(r'([0-9]+)', s)]]. *)
Inductive key_item : Type :=
| KInt (n : Z)
| KStr (s : string).

Definition natural_key (s : string) : list key_item :=
  map (fun t => if PyStr.isdigit t then KInt (PyStr.int_of_digits t)
                else KStr (PyStr.lower t))
      (PyStr.re_split_digits s).

Definition item_eqb (x y : key_item) : bool :=
  match x, y with
  | KInt a, KInt b => a =? b
  | KStr a, KStr b => String.eqb a b
  | _, _ => false
  end.

(** [x < y]: comparing an [int] with a [str] is a [TypeError] ([None]). *)
Definition item_ltb (x y : key_item) : option bool :=
  match x, y with
  | KInt a, KInt b => Some (a <? b)
  | KStr a, KStr b => Some (String.ltb a b)
  | _, _ => None
  end.

(** [a < b] on lists: decided at the first position where they differ,
    by length when one is a prefix of the other. *)
Fixpoint key_ltb (a b : list key_item) : option bool :=
  match a, b with
  | [], [] => Some false
  | [], _ :: _ => Some true
  | _ :: _, [] => Some false
  | x :: a', y :: b' => if item_eqb x y then key_ltb a' b' else item_ltb x y
  end.

(** [sorted(l, key=natural_key)]: stable; [None] when a comparison raises. *)
Fixpoint insert_natural (x : ParkingSpot.t) (l : list ParkingSpot.t)
  : option (list ParkingSpot.t) :=
  match l with
  | [] => Some [x]
  | y :: l' =>
      match key_ltb (natural_key (ParkingSpot.spot_identifier y))
                    (natural_key (ParkingSpot.spot_identifier x)) with
      | None => None
      | Some true => option_map (cons y) (insert_natural x l')
      | Some false => Some (x :: l)
      end
  end.

Fixpoint sorted_natural (l : list ParkingSpot.t) : option (list ParkingSpot.t) :=
  match l with
  | [] => Some []
  | x :: l' =>
      match sorted_natural l' with
      | None => None
      | Some s => insert_natural x s
      end
  end.

(** [area.spots]: the spots of an area, in table order. *)
Definition area_spots (db : DB) (area_id : Z) : list ParkingSpot.t :=
  filter (fun s => ParkingSpot.parking_area_id s =? area_id) (spots db).

(** [first_spot.spot_identifier.split(sep)[0] if first_spot else empty] with [sep] the dash;
    [None] stands for the [IndexError] of [[0]] on an empty list. *)
Definition area_code (db : DB) (area_id : Z) : option string :=
  match hd_error (area_spots db area_id) with
  | Some first_spot =>
      PyStr.index0 (PyStr.split "-" (ParkingSpot.spot_identifier first_spot))
  | None => Some EmptyString
  end.

(** The JSON body of [GET /api/admin/areas/<area_id>/spot-status]. *)
Record SpotStatus : Type := mk_SpotStatus {
  ss_area_name : string;
  ss_area_code : string;
  occupied_identifiers : list string;
  available_identifiers : list string
}.

(** [None] when the area does not exist (404) or the body raises. *)
Definition api_admin_area_spot_status (area_id : Z) (db : DB)
  : option SpotStatus :=
  match find_area db area_id with
  | None => None
  | Some area =>
      match area_code db (ParkingArea.id area),
            sorted_natural (area_spots db (ParkingArea.id area)) with
      | Some code, Some sorted_spots =>
          let avail := filter (fun s => String.eqb (ParkingSpot.status s) st_available)
                              sorted_spots in
          let occ := filter (fun s => negb (String.eqb (ParkingSpot.status s) st_available))
                            sorted_spots in
          Some {| ss_area_name := ParkingArea.name area;
                  ss_area_code := code;
                  occupied_identifiers := map ParkingSpot.spot_identifier occ;
                  available_identifiers := map ParkingSpot.spot_identifier avail |}
      | _, _ => None
      end
  end.

End App.

(* ================================================================== *)
(** ** [api_admin.py] *)
(* ================================================================== *)

Module ApiAdmin.

(** [str(i)] for the spot numbers [1..n]. *)
Definition str_int (i : Z) : string :=
  DecimalString.NilZero.string_of_int (Z.to_int i).

Module ParkingAreaListAPI.

(** The JSON fields of [POST /api/admin/parking-areas], once the
    required-field check has passed and [float(...)], [int(...)] have
    been applied. *)
Record payload : Type := mk_payload {
  name : string;
  location_description : string;
  price_per_hour : PyFloat.float;
  num_spots : Z;
  area_code : string
}.

(** One entry of [GET /api/admin/parking-areas]. *)
Record entry : Type := mk_entry {
  e_id : Z;
  e_name : string;
  e_code : string
}.

(** [get]: every area with its derived code; [None] when the
    comprehension raises. *)
Fixpoint entries (db : DB) (l : list ParkingArea.t) : option (list entry) :=
  match l with
  | [] => Some []
  | a :: rest =>
      match App.area_code db (ParkingArea.id a), entries db rest with
      | Some code, Some es =>
          Some ({| e_id := ParkingArea.id a;
                   e_name := ParkingArea.name a;
                   e_code := code |} :: es)
      | _, _ => None
      end
  end.

Definition get (db : DB) : option (list entry) := entries db (areas db).

(** The spots [<CODE>-1 .. <CODE>-n] of a new area, with consecutive
    primary keys from [first_id]. *)
Definition new_spots (code : string) (area_id first_id : Z) (n : Z)
  : list ParkingSpot.t :=
  map (fun k =>
         {| ParkingSpot.id := first_id + Z.of_nat k;
            ParkingSpot.spot_identifier :=
              (code ++ "-" ++ str_int (1 + Z.of_nat k))%string;
            ParkingSpot.status := st_available;
            ParkingSpot.parking_area_id := area_id |})
      (seq 0 (Z.to_nat n)).

(** The check that the code is in use, [spot_identifier.startswith(code +
    "-")], is read as a literal prefix test.  A price that is a NaN
    reaches the column as [NULL] and fails the flush of the area. *)
Definition post (data : payload) (db : DB) : Txn :=
  let code := PyStr.upper (area_code data) in
  match Query.first (fun a => String.eqb (ParkingArea.name a) (name data)) (areas db) with
  | Some _ => NoCommit db (Json false 409)
  | None =>
      match Query.first
              (fun s => String.prefix (code ++ "-")%string (ParkingSpot.spot_identifier s))
              (spots db) with
      | Some _ => NoCommit db (Json false 409)
      | None =>
          match PyFloat.stored (price_per_hour data) with
          | None => NoCommit db (Abort 500)
          | Some price =>
              let new_area :=
                {| ParkingArea.id := Query.next_id ParkingArea.id (areas db);
                   ParkingArea.name := name data;
                   ParkingArea.location_description := location_description data;
                   ParkingArea.price_per_hour := price |} in
              let db1 := with_areas db (areas db ++ [new_area]) in
              let db2 := with_spots db1
                           (spots db1 ++
                            new_spots code (ParkingArea.id new_area)
                                      (Query.next_id ParkingSpot.id (spots db1))
                                      (num_spots data)) in
              Commit db2 (Json true 201)
          end
      end
  end.

End ParkingAreaListAPI.

Module BookingListAPI.

(** The JSON fields of [POST /api/admin/bookings], once the
    required-field check has passed and the two timestamps have been
    parsed by [datetime.fromisoformat]. *)
Record payload : Type := mk_payload {
  user_id : Z;
  car_id : Z;
  spot_id : Z;
  start_time : datetime;
  end_time : option datetime;
  status : string;
  total_cost : option PyFloat.float
}.

(** [float(data['total_cost']) if data.get('total_cost') else None], as
    the column holds it. *)
Definition cost_field (c : option PyFloat.float) : option PyFloat.float :=
  match c with
  | Some q => if PyFloat.truthy q then PyFloat.stored q else None
  | None => None
  end.

(** The row is stored as given: the references are not looked up (the
    default SQLite database does not enforce foreign keys), except that an
    existing spot is marked occupied for an active booking. *)
Definition post (data : payload) (now : Z) (db : DB) : Txn :=
  let db1 :=
    match App.find_spot db (spot_id data) with
    | Some spot =>
        if String.eqb (status data) st_active
        then App.set_spot_status db (ParkingSpot.id spot) st_occupied
        else db
    | None => db
    end in
  let db2 := App.add_booking db1 (user_id data) (car_id data) (spot_id data)
               (Some (start_time data)) (end_time data) (status data)
               (cost_field (total_cost data)) (App._now_utc now) in
  Commit db2 (Json true 201).

End BookingListAPI.

End ApiAdmin.

(* ================================================================== *)
(** ** Password recovery: [core/models.py], [api_auth.py], [auth.py] *)
(* ================================================================== *)

Module Recovery.

(** The value of an expression evaluated under [try: ... except
    IndexError:]. *)
Inductive Try (A : Type) : Type :=
| Value (a : A)
| IndexError.
Arguments Value {A} a.
Arguments IndexError {A}.

(** ['-'.join(uniq.split('-')[1:-1])]: a split, a slice and a join, none
    of which raises. *)
Definition partial_key (fs_uniquifier : string) : Try string :=
  Value (PyStr.join "-" (PyStr.slice 1 (-1) (PyStr.split "-" fs_uniquifier))).

(** [is_password_strong] of [api_auth.py]. *)
Definition special_chars : string :=
  ("!@#$%^&*(),.?" ++ String (ascii_of_nat 34) ":{}|<>")%string.

Definition is_password_strong (password : string) : bool :=
  if (Z.of_nat (String.length password) <? 6) then false
  else if negb (PyStr.exists_char PyStr.is_upper password) then false
  else if negb (PyStr.exists_char PyStr.is_digit password) then false
  else if negb (PyStr.exists_char (fun c => PyStr.contains c special_chars) password)
  then false
  else true.

Section Hashing.

(** werkzeug's salted one-way hash and its check. *)
Variable generate_password_hash : string -> string.
Variable check_password_hash : string -> string -> bool.

Definition set_password (u : User.t) (password : string) : User.t :=
  User.with_password_hash u (generate_password_hash password).

(** [User.check_secret_answer]. *)
Definition check_secret_answer (u : User.t) (secret_answer : string) : bool :=
  if negb (PyStr.truthy (User.secret_answer_hash u)) then false
  else check_password_hash (User.secret_answer_hash u)
                           (PyStr.strip (PyStr.lower secret_answer)).

Definition update_user (db : DB) (u : User.t) : DB :=
  with_users db (Query.update User.id (User.id u) (fun _ => u) (users db)).

(** [ForgotPasswordResetAPI.post] of [api_auth.py]. *)
Definition api_reset (email secret_answer secret_key new_password : string)
           (db : DB) : Txn :=
  match Query.first (fun u => String.eqb (User.email u) email) (users db) with
  | None => NoCommit db (Json false 400)
  | Some user =>
      match partial_key (User.fs_uniquifier user) with
      | IndexError => NoCommit db (Json false 500)
      | Value expected_partial_key =>
          if negb (check_secret_answer user secret_answer)
             || negb (String.eqb expected_partial_key secret_key)
          then NoCommit db (Json false 400)
          else if negb (is_password_strong new_password)
          then NoCommit db (Json false 400)
          else Commit (update_user db (set_password user new_password))
                      (Json true 200)
      end
  end.

(** The fields of [ResetPasswordForm]. *)
Record ResetPasswordForm : Type := mk_form {
  f_secret_answer : string;
  f_secret_key : string;
  f_password : string;
  f_confirm_password : string
}.

(** [DataRequired]: the field holds something besides white space. *)
Definition data_required (s : string) : bool :=
  PyStr.truthy s && PyStr.truthy (PyStr.strip s).

Definition validate_on_submit (f : ResetPasswordForm) : bool :=
  data_required (f_secret_answer f)
  && data_required (f_secret_key f)
  && data_required (f_password f)
  && (6 <=? Z.of_nat (String.length (f_password f)))
  && data_required (f_confirm_password f)
  && String.eqb (f_confirm_password f) (f_password f).

(** The second factor as [reset_password_verify] computes it. *)
Definition is_key_correct (user : User.t) (secret_key : string) : bool :=
  match partial_key (User.fs_uniquifier user) with
  | Value expected_partial_key => String.eqb expected_partial_key secret_key
  | IndexError => String.eqb (User.fs_uniquifier user) secret_key
  end.

(** [reset_password_verify] of [auth.py] on a submitted form;
    [session_email] is [session.get('password_reset_email')]. *)
Definition reset_password_verify (session_email : option string)
           (form : ResetPasswordForm) (db : DB) : Txn :=
  match session_email with
  | None => NoCommit db (Redirect "warning")
  | Some email =>
      if negb (PyStr.truthy email) then NoCommit db (Redirect "warning")
      else
        match Query.first (fun u => String.eqb (User.email u) email) (users db) with
        | None => NoCommit db (Redirect "danger")
        | Some user =>
            if validate_on_submit form then
              let is_answer_correct := check_secret_answer user (f_secret_answer form) in
              if is_answer_correct && is_key_correct user (f_secret_key form)
              then Commit (update_user db (set_password user (f_password form)))
                          (Redirect "success")
              else NoCommit db (Render "danger")
            else NoCommit db (Render EmptyString)
        end
  end.

End Hashing.

End Recovery.


(* ================================================================== *)
(** ** The lifecycle as a transition system *)
(* ================================================================== *)

Module Lifecycle.

(** The requests that create a booking or move it through its states: the
    seven routes of [app.py] and the admin API's [POST /bookings]. *)
Inductive Request : Type :=
| UserBook (current_user : User.t) (area_id car_id : option Z)
| AdminOfflineBook (license_plate : option string) (area_id : option Z)
| AdminApprove (booking_id : Z)
| AdminReject (booking_id : Z)
| UserCancel (current_user : User.t) (booking_id : Z)
| UserRelease (current_user : User.t) (booking_id : Z)
| AdminOfflineRelease (booking_id : Z)
| ApiBookingPost (data : ApiAdmin.BookingListAPI.payload).

Definition handle (req : Request) (now : Z) (db : DB) : Txn :=
  match req with
  | UserBook u a c => App.user_book u a c now db
  | AdminOfflineBook p a => App.admin_offline_book p a now db
  | AdminApprove k => App.admin_request_approve k now db
  | AdminReject k => App.admin_request_reject k db
  | UserCancel u k => App.user_cancel_pending u k db
  | UserRelease u k => App.user_release u k now db
  | AdminOfflineRelease k => App.admin_offline_release k now db
  | ApiBookingPost d => ApiAdmin.BookingListAPI.post d now db
  end.

(** The database after a request served at time [now]. *)
Definition step (req : Request) (now : Z) (db : DB) : DB :=
  fst (run (handle req now) db).

Definition response (req : Request) (now : Z) (db : DB) : Response :=
  snd (run (handle req now) db).

(** The states reached from a database without bookings by requests that
    [allowed] admits in the state they arrive in. *)
Inductive reachable (allowed : DB -> Request -> Prop) : DB -> Prop :=
| reach_init (db : DB) :
    bookings db = [] -> reachable allowed db
| reach_step (db : DB) (req : Request) (now : Z) :
    reachable allowed db -> allowed db req ->
    reachable allowed (step req now db).

(** Every request. *)
Definition any_request (db : DB) (req : Request) : Prop := True.

(** The routes of [app.py]: everything but the admin API's raw insert. *)
Definition web_request (db : DB) (req : Request) : Prop :=
  match req with
  | ApiBookingPost _ => False
  | _ => True
  end.

(** The routes of [app.py], a user's release being asked for an active
    booking only. *)
Definition guarded_request (db : DB) (req : Request) : Prop :=
  match req with
  | ApiBookingPost _ => False
  | UserRelease _ k =>
      forall b, App.find_booking db k = Some b -> Booking.status b = st_active
  | _ => True
  end.

(** The bookings of a car that are active or pending. *)
Definition live_for_car (db : DB) (car_id : Z) : list Booking.t :=
  filter (fun b => (Booking.car_id b =? car_id)
                   && active_or_pending (Booking.status b))
         (bookings db).

Definition one_live_booking_per_car (db : DB) : Prop :=
  forall car_id, (List.length (live_for_car db car_id) <= 1)%nat.

(** The active bookings on a spot. *)
Definition active_on_spot (db : DB) (spot_id : Z) : list Booking.t :=
  filter (fun b => (Booking.spot_id b =? spot_id)
                   && String.eqb (Booking.status b) st_active)
         (bookings db).

Definition one_active_booking_per_spot (db : DB) : Prop :=
  forall spot_id, (List.length (active_on_spot db spot_id) <= 1)%nat.

(** The active or pending bookings on a spot. *)
Definition live_on_spot (db : DB) (spot_id : Z) : list Booking.t :=
  filter (fun b => (Booking.spot_id b =? spot_id)
                   && active_or_pending (Booking.status b))
         (bookings db).

(** Foreign keys and the [start_time] default: every booking has a start
    time, and its spot and its user exist. *)
Definition well_formed (db : DB) : bool :=
  forallb (fun b =>
             match Booking.start_time b,
                   App.find_spot db (Booking.spot_id b),
                   App.find_user db (Booking.user_id b) with
             | Some _, Some _, Some _ => true
             | _, _, _ => false
             end)
          (bookings db).

(** Primary keys of bookings are unique. *)
Definition unique_ids (db : DB) : Prop :=
  NoDup (map Booking.id (bookings db)).

Definition one_live_booking_per_spot (db : DB) : Prop :=
  forall spot_id, (List.length (live_on_spot db spot_id) <= 1)%nat.

(** No spot that an active or pending booking refers to is available. *)
Definition live_spots_taken (db : DB) : Prop :=
  forall b sp,
    In b (bookings db) ->
    active_or_pending (Booking.status b) = true ->
    In sp (spots db) ->
    ParkingSpot.id sp = Booking.spot_id b ->
    ParkingSpot.status sp <> st_available.

(** A function on booking rows that keeps the key and the references. *)
Definition keeps_refs (g : Booking.t -> Booking.t) : Prop :=
  forall r,
    Booking.id (g r) = Booking.id r
    /\ Booking.car_id (g r) = Booking.car_id r
    /\ Booking.spot_id (g r) = Booking.spot_id r.

(** What one request does to the two tables of the lifecycle: nothing; a
    new booking on a spot that was available; the activation of a pending
    booking; or the closing (rejection, completion) of a booking, with or
    without freeing its spot.  With [strict], a closed booking was active
    or pending. *)
Inductive effect (strict : bool) (db db' : DB) : Prop :=
| eff_none :
    db' = db -> effect strict db db'
| eff_book (s : ParkingSpot.t) (row : Booking.t) (spot_status : string) :
    In s (spots db) ->
    ParkingSpot.status s = st_available ->
    App.existing_for_car db (Booking.car_id row) = None ->
    Booking.id row = Query.next_id Booking.id (bookings db) ->
    Booking.spot_id row = ParkingSpot.id s ->
    spot_status <> st_available ->
    bookings db' = bookings db ++ [row] ->
    spots db' = Query.update ParkingSpot.id (ParkingSpot.id s)
                  (fun x => ParkingSpot.with_status x spot_status) (spots db) ->
    effect strict db db'
| eff_approve (k : Z) (b : Booking.t) (g : Booking.t -> Booking.t) :
    App.find_booking db k = Some b ->
    Booking.status b = st_pending ->
    keeps_refs g ->
    (forall r, Booking.status (g r) = st_active) ->
    bookings db' = Query.update Booking.id k g (bookings db) ->
    spots db' = match App.find_spot db (Booking.spot_id b) with
                | Some s => Query.update ParkingSpot.id (ParkingSpot.id s)
                              (fun x => ParkingSpot.with_status x st_occupied)
                              (spots db)
                | None => spots db
                end ->
    effect strict db db'
| eff_close (k : Z) (b : Booking.t) (g : Booking.t -> Booking.t) :
    App.find_booking db k = Some b ->
    keeps_refs g ->
    (forall r, active_or_pending (Booking.status (g r)) = false) ->
    bookings db' = Query.update Booking.id k g (bookings db) ->
    (spots db' = spots db
     \/ exists s,
         App.find_spot db (Booking.spot_id b) = Some s
         /\ spots db' = Query.update ParkingSpot.id (ParkingSpot.id s)
                          (fun x => ParkingSpot.with_status x st_available)
                          (spots db)) ->
    (strict = true -> active_or_pending (Booking.status b) = true) ->
    effect strict db db'.

(** The spot in which numeric-aware order would put a new booking: an
    available spot of the area whose key no other available spot of the area
    precedes. *)
Definition natural_first (db : DB) (area_id : Z) (s : ParkingSpot.t) : Prop :=
  In s (spots db)
  /\ ParkingSpot.parking_area_id s = area_id
  /\ ParkingSpot.status s = st_available
  /\ forall s',
       In s' (spots db) ->
       ParkingSpot.parking_area_id s' = area_id ->
       ParkingSpot.status s' = st_available ->
       App.key_ltb (App.natural_key (ParkingSpot.spot_identifier s'))
                   (App.natural_key (ParkingSpot.spot_identifier s))
       <> Some true.

End Lifecycle.

(* ================================================================== *)
(** ** Concrete accounts, areas and requests *)
(* ================================================================== *)

Module Demo.

(** A toy hash for running the recovery handlers on concrete accounts. *)
Definition hash (s : string) : string := ("h:" ++ s)%string.
Definition check (h candidate : string) : bool :=
  String.eqb h (hash candidate).

Definition user : User.t :=
  {| User.id := 5; User.username := "bob"; User.email := "bob@example.com";
     User.password_hash := hash "Old1!pw";
     User.fs_uniquifier := "123e4567-e89b-12d3-a456-426614174000";
     User.roles := ["user"%string];
     User.secret_answer_hash := hash "rex" |}.

(** An account whose identifier is not UUID-shaped. *)
Definition short_user : User.t :=
  {| User.id := 6; User.username := "eve"; User.email := "eve@example.com";
     User.password_hash := hash "Old1!pw";
     User.fs_uniquifier := "legacy-id";
     User.roles := ["user"%string];
     User.secret_answer_hash := hash "rex" |}.

Definition accounts : DB := with_users empty_db [user; short_user].

(** The account that owns walk-in cars. *)
Definition offline : User.t :=
  {| User.id := 2; User.username := "offline_user";
     User.email := "offline@example.com";
     User.password_hash := hash "offline";
     User.fs_uniquifier := "0b0e7a3c-1111-4222-8333-444455556666";
     User.roles := ["user"%string];
     User.secret_answer_hash := hash "offline" |}.

Definition before_areas : DB :=
  with_cars (with_users empty_db [offline; user; short_user])
    [Car.mk 1 "KA01AB1234" 5; Car.mk 2 "KA02CD5678" 5; Car.mk 3 "KA03EF9012" 6].

(** Area "Lot1" at 20 per hour with the spots [A-1 .. A-10]. *)
Definition lot1 : ApiAdmin.ParkingAreaListAPI.payload :=
  {| ApiAdmin.ParkingAreaListAPI.name := "Lot1";
     ApiAdmin.ParkingAreaListAPI.location_description := "Main street";
     ApiAdmin.ParkingAreaListAPI.price_per_hour := PyFloat.of_int 20;
     ApiAdmin.ParkingAreaListAPI.num_spots := 10;
     ApiAdmin.ParkingAreaListAPI.area_code := "a" |}.

Definition garage : DB :=
  Eval vm_compute in fst (run (ApiAdmin.ParkingAreaListAPI.post lot1) before_areas).

(** Car 1 requests a spot at time 0 ... *)
Definition booked : DB :=
  Eval vm_compute in fst (run (App.user_book user (Some 1) (Some 1) 0) garage).

(** ... and the request is approved at time 0. *)
Definition parked : DB :=
  Eval vm_compute in fst (run (App.admin_request_approve 1 0) booked).

(** Ten walk-in cars, one after the other, into area 1. *)
Definition plates : list string :=
  ["P0"; "P1"; "P2"; "P3"; "P4"; "P5"; "P6"; "P7"; "P8"; "P9"]%string.

Definition walk_in (db : DB) (plate : string) : DB :=
  fst (run (App.admin_offline_book (Some plate) (Some 1) 0) db).

(** The identifiers of the spots the bookings of [db] hold, in the order
    in which the bookings were made. *)
Definition spots_taken (db : DB) : list (option string) :=
  map (fun b => option_map ParkingSpot.spot_identifier
                           (App.find_spot db (Booking.spot_id b)))
      (bookings db).

(** Area 1 with every spot taken by a walk-in car. *)
Definition full : DB :=
  Eval vm_compute in fold_left walk_in plates garage.

(** Booking 1 is rejected, its spot [A-1] goes to car 2, whose booking is
    approved: booking 1 is rejected, booking 2 is active on [A-1]. *)
Definition reassigned : DB :=
  Eval vm_compute in
    Lifecycle.step (Lifecycle.AdminApprove 2) 20
      (Lifecycle.step (Lifecycle.UserBook user (Some 1) (Some 2)) 10
         (Lifecycle.step (Lifecycle.AdminReject 1) 5 booked)).

(** Two raw inserts through the admin API: car 1 active on spot 1, twice. *)
Definition raw_active : ApiAdmin.BookingListAPI.payload :=
  {| ApiAdmin.BookingListAPI.user_id := 5;
     ApiAdmin.BookingListAPI.car_id := 1;
     ApiAdmin.BookingListAPI.spot_id := 1;
     ApiAdmin.BookingListAPI.start_time := App._now_utc 0;
     ApiAdmin.BookingListAPI.end_time := None;
     ApiAdmin.BookingListAPI.status := st_active;
     ApiAdmin.BookingListAPI.total_cost := None |}.

Definition inserted_twice : DB :=
  Lifecycle.step (Lifecycle.ApiBookingPost raw_active) 2
    (Lifecycle.step (Lifecycle.ApiBookingPost raw_active) 1 garage).

(** From [reassigned]: the user releases the rejected booking 1, which
    frees [A-1] under booking 2; car 3 then books and is approved. *)
Definition double_parked : DB :=
  Lifecycle.step (Lifecycle.AdminApprove 3) 50
    (Lifecycle.step (Lifecycle.UserBook short_user (Some 1) (Some 3)) 40
       (Lifecycle.step (Lifecycle.UserRelease user 1) 30
          (Lifecycle.step (Lifecycle.AdminApprove 2) 20
             (Lifecycle.step (Lifecycle.UserBook user (Some 1) (Some 2)) 10
                (Lifecycle.step (Lifecycle.AdminReject 1) 5
                   (Lifecycle.step (Lifecycle.UserBook user (Some 1) (Some 1)) 0
                      garage)))))).

End Demo.


(* ================================================================== *)
(** ** The shape of the sort key *)
(* ================================================================== *)

Module NaturalKey.




End NaturalKey.

(* ================================================================== *)
(** ** Further routes of [app.py]: areas, cars, occupancy *)
(* ================================================================== *)

Module Forms.

(** [DataRequired] on a text field: something besides white space. *)
Definition data_required (s : string) : bool :=
  PyStr.truthy s && PyStr.truthy (PyStr.strip s).

(** [Length(min, max)] on a text field. *)
Definition length_between (lo hi : Z) (s : string) : bool :=
  let n := Z.of_nat (String.length s) in (lo <=? n) && (n <=? hi).

Definition is_alpha (c : ascii) : bool := PyStr.is_upper c || PyStr.is_lower c.

(** [s.isalpha()]: a non-empty run of letters. *)
Definition isalpha (s : string) : bool :=
  PyStr.truthy s && PyStr.forall_char is_alpha s.

(** [ParkingLotForm]; a number field holds [None] when its input did not
    parse. *)
Record ParkingLotForm : Type := mk_lot {
  prime_location_name : string;
  area_code : string;
  address : string;
  price_per_hour : option PyFloat.float;
  max_spots : option Z
}.

(** [form.validate_on_submit()] on a submitted [ParkingLotForm]:
    [DataRequired] on a number refuses [None] and zero, [NumberRange] a
    NaN and a number below its minimum. *)
Definition validate_lot (f : ParkingLotForm) : bool :=
  data_required (prime_location_name f)
  && length_between 0 100 (prime_location_name f)
  && data_required (area_code f)
  && length_between 3 3 (area_code f)
  && isalpha (area_code f)
  && data_required (address f)
  && length_between 0 255 (address f)
  && match price_per_hour f with
     | Some p => PyFloat.truthy p && negb (PyFloat.is_nan p)
                 && negb (PyFloat.ltb p (PyFloat.of_int 0))
     | None => false
     end
  && match max_spots f with
     | Some n => negb (n =? 0) && (1 <=? n) && (n <=? 1000)
     | None => false
     end.

(** [CarForm]. *)
Record CarForm : Type := mk_car {
  license_plate : string;
  make : string;
  model : string;
  color : string
}.

Definition validate_car (f : CarForm) : bool :=
  data_required (license_plate f) && length_between 3 20 (license_plate f)
  && data_required (make f) && length_between 0 50 (make f)
  && data_required (model f) && length_between 0 50 (model f)
  && data_required (color f) && length_between 0 30 (color f).

End Forms.

Module AdminViews.

(** One row of the dashboard and of [/api/admin/occupancy]. *)
Record Occupancy : Type := mk_occupancy {
  area : ParkingArea.t;
  total : Z;
  occupied : Z;
  available : Z
}.

(** [admin_dashboard]: per area, in the order of the names, the number of
    spots, the number of occupied ones, and their difference. *)
Definition admin_dashboard (db : DB) : list Occupancy :=
  map (fun a =>
         let total_spots :=
           Z.of_nat (List.length (App.area_spots db (ParkingArea.id a))) in
         let occupied_spots :=
           Z.of_nat (List.length
                       (filter (fun s => String.eqb (ParkingSpot.status s) st_occupied)
                               (App.area_spots db (ParkingArea.id a)))) in
         {| area := a;
            total := total_spots;
            occupied := occupied_spots;
            available := total_spots - occupied_spots |})
      (Query.order_by
         (fun a b => String.leb (ParkingArea.name a) (ParkingArea.name b))
         (areas db)).

(** [Model.query.filter_by(...).count()]. *)
Definition count_where {A : Type} (p : A -> bool) (rows : list A) : Z :=
  Z.of_nat (List.length (filter p rows)).

(** The figures [admin_summary] hands to its template (but for the total
    revenue, a sum of floats that the database computes). *)
Record Summary : Type := mk_summary {
  total_areas : Z;
  total_spots : Z;
  occupied_spots : Z;
  reserved_spots : Z;
  available_spots : Z;
  active_bookings : Z;
  pending_bookings : Z;
  completed_bookings : Z;
  summary_areas : list ParkingArea.t
}.

Definition admin_summary (db : DB) : Summary :=
  {| total_areas := Z.of_nat (List.length (areas db));
     total_spots := Z.of_nat (List.length (spots db));
     occupied_spots :=
       count_where (fun s => String.eqb (ParkingSpot.status s) st_occupied) (spots db);
     reserved_spots :=
       count_where (fun s => String.eqb (ParkingSpot.status s) st_reserved) (spots db);
     available_spots :=
       count_where (fun s => String.eqb (ParkingSpot.status s) st_available) (spots db);
     active_bookings :=
       count_where (fun b => String.eqb (Booking.status b) st_active) (bookings db);
     pending_bookings :=
       count_where (fun b => String.eqb (Booking.status b) st_pending) (bookings db);
     completed_bookings :=
       count_where (fun b => String.eqb (Booking.status b) st_completed) (bookings db);
     summary_areas :=
       Query.order_by
         (fun a b => String.leb (ParkingArea.name a) (ParkingArea.name b))
         (areas db) |}.

(** Every spot is in one of the three states the handlers write. *)
Definition spot_statuses_known (db : DB) : Prop :=
  Forall (fun s => ParkingSpot.status s = st_available
                   \/ ParkingSpot.status s = st_reserved
                   \/ ParkingSpot.status s = st_occupied)
         (spots db).

(** The database with a new area and its spots [<CODE>-1 .. <CODE>-n]
    added, as both creation paths build it. *)
Definition with_new_area (db : DB) (name location : string)
           (price : PyFloat.float)
           (code : string) (n : Z) : DB :=
  let new_area :=
    {| ParkingArea.id := Query.next_id ParkingArea.id (areas db);
       ParkingArea.name := name;
       ParkingArea.location_description := location;
       ParkingArea.price_per_hour := price |} in
  let db1 := with_areas db (areas db ++ [new_area]) in
  with_spots db1
    (spots db1 ++
     ApiAdmin.ParkingAreaListAPI.new_spots code (ParkingArea.id new_area)
       (Query.next_id ParkingSpot.id (spots db1)) n).

(** [POST /admin/areas/new].  The name is not looked up: a name that
    exists violates the unique constraint when the area is flushed, and
    the request ends in an error without a commit. *)
Definition admin_area_new (form : Forms.ParkingLotForm) (db : DB) : Txn :=
  if Forms.validate_lot form then
    match Forms.price_per_hour form, Forms.max_spots form with
    | Some price, Some num_spots =>
        match Query.first
                (fun a => String.eqb (ParkingArea.name a)
                                     (Forms.prime_location_name form))
                (areas db) with
        | Some _ => NoCommit db (Abort 500)
        | None =>
            Commit (with_new_area db (Forms.prime_location_name form)
                      (Forms.address form) price
                      (PyStr.upper (Forms.area_code form)) num_spots)
                   (Redirect "success")
        end
    | _, _ => NoCommit db (Render EmptyString)
    end
  else NoCommit db (Render EmptyString).

(** [POST /admin/areas/<area_id>/edit] with a submitted form: the name,
    the description and the price are written; the code and the number of
    spots of the form are validated and not used.  A name that another
    area holds violates the unique constraint at the commit. *)
Definition admin_area_edit (area_id : Z) (form : Forms.ParkingLotForm)
           (db : DB) : Txn :=
  match App.find_area db area_id with
  | None => NoCommit db (Abort 404)
  | Some a =>
      if Forms.validate_lot form then
        match Forms.price_per_hour form with
        | Some price =>
            let edited :=
              {| ParkingArea.id := ParkingArea.id a;
                 ParkingArea.name := Forms.prime_location_name form;
                 ParkingArea.location_description := Forms.address form;
                 ParkingArea.price_per_hour := price |} in
            let db1 := with_areas db
                         (Query.update ParkingArea.id (ParkingArea.id a)
                            (fun _ => edited) (areas db)) in
            if existsb (fun x => negb (ParkingArea.id x =? ParkingArea.id a)
                                 && String.eqb (ParkingArea.name x)
                                               (Forms.prime_location_name form))
                       (areas db)
            then NoCommit db1 (Abort 500)
            else Commit db1 (Redirect "success")
        | None => NoCommit db (Render EmptyString)
        end
      else NoCommit db (Render EmptyString)
  end.

(** Whether a key is among the keys of some rows. *)
Definition key_in {A : Type} (id_of : A -> Z) (k : Z) (rows : list A) : bool :=
  existsb (fun r => id_of r =? k) rows.

(** [POST /admin/areas/<area_id>/delete]: refused while a spot of the area
    is occupied; otherwise the area row goes, and by the cascades the spots
    loaded from [area.spots] and the bookings loaded from their
    [spot.bookings], each deleted under its primary key. *)
Definition admin_area_delete (area_id : Z) (db : DB) : Txn :=
  match App.find_area db area_id with
  | None => NoCommit db (Abort 404)
  | Some a =>
      let its_spots := App.area_spots db (ParkingArea.id a) in
      if 0 <? Z.of_nat (List.length
                          (filter (fun s => String.eqb (ParkingSpot.status s) st_occupied)
                                  its_spots))
      then NoCommit db (Redirect "danger")
      else
        let its_bookings :=
          filter (fun b => key_in ParkingSpot.id (Booking.spot_id b) its_spots)
                 (bookings db) in
        let db1 := with_bookings db
                     (filter (fun b => negb (key_in Booking.id (Booking.id b) its_bookings))
                             (bookings db)) in
        let db2 := with_spots db1
                     (filter (fun s => negb (key_in ParkingSpot.id (ParkingSpot.id s) its_spots))
                             (spots db1)) in
        let db3 := with_areas db2
                     (filter (fun x => negb (ParkingArea.id x =? ParkingArea.id a))
                             (areas db2)) in
        Commit db3 (Redirect "success")
  end.

End AdminViews.

Module UserViews.

(** [POST /user/cars] with a submitted form. *)
Definition user_cars (current_user : User.t) (form : Forms.CarForm) (db : DB)
  : Txn :=
  if Forms.validate_car form then
    match Query.first
            (fun c => String.eqb (Car.license_plate c) (Forms.license_plate form))
            (cars db) with
    | Some _ => NoCommit db (Render "warning")
    | None =>
        let new_car := {| Car.id := Query.next_id Car.id (cars db);
                          Car.license_plate := Forms.license_plate form;
                          Car.user_id := User.id current_user |} in
        Commit (with_cars db (cars db ++ [new_car])) (Redirect "success")
    end
  else NoCommit db (Render EmptyString).

(** [POST /user/cars/<car_id>/delete]: refused while the car has an active
    booking; otherwise the car goes, and by the cascade the bookings loaded
    from [car.bookings]. *)
Definition user_car_delete (current_user : User.t) (car_id : Z) (db : DB)
  : Txn :=
  match App.find_car db car_id with
  | None => NoCommit db (Abort 404)
  | Some car =>
      if negb (Car.user_id car =? User.id current_user)
      then NoCommit db (Abort 403)
      else
        let its_bookings :=
          filter (fun b => Booking.car_id b =? Car.id car) (bookings db) in
        if 0 <? Z.of_nat (List.length
                            (filter (fun b => String.eqb (Booking.status b) st_active)
                                    its_bookings))
        then NoCommit db (Redirect "danger")
        else
          let db1 := with_bookings db
                       (filter (fun b => negb (AdminViews.key_in Booking.id
                                                 (Booking.id b) its_bookings))
                               (bookings db)) in
          let db2 := with_cars db1
                       (filter (fun c => negb (Car.id c =? Car.id car)) (cars db1)) in
          Commit db2 (Redirect "success")
  end.

End UserViews.

Module CarListAPI.

(** The JSON fields of [POST /api/admin/cars] that reach the row. *)
Record payload : Type := mk_payload {
  license_plate : string;
  user_id : Z
}.

Definition post (data : payload) (db : DB) : Txn :=
  match Query.first
          (fun c => String.eqb (Car.license_plate c) (license_plate data))
          (cars db) with
  | Some _ => NoCommit db (Json false 409)
  | None =>
      match App.find_user db (user_id data) with
      | None => NoCommit db (Json false 404)
      | Some _ =>
          let new_car := {| Car.id := Query.next_id Car.id (cars db);
                            Car.license_plate := license_plate data;
                            Car.user_id := user_id data |} in
          Commit (with_cars db (cars db ++ [new_car])) (Json true 201)
      end
  end.

End CarListAPI.

(* ================================================================== *)
(** ** Accounts: [core/models.py] and [api_auth.py] *)
(* ================================================================== *)

Module Accounts.

Definition with_secret_answer_hash (u : User.t) (h : string) : User.t :=
  {| User.id := User.id u; User.username := User.username u;
     User.email := User.email u; User.password_hash := User.password_hash u;
     User.fs_uniquifier := User.fs_uniquifier u; User.roles := User.roles u;
     User.secret_answer_hash := h |}.

(** [User.set_secret_answer]: an empty answer leaves the hash as it is. *)
Definition set_secret_answer (generate_password_hash : string -> string)
           (u : User.t) (secret_answer : string) : User.t :=
  if PyStr.truthy secret_answer
  then with_secret_answer_hash u
         (generate_password_hash (PyStr.strip (PyStr.lower secret_answer)))
  else u.

(** [User.check_password]. *)
Definition check_password (check_password_hash : string -> string -> bool)
           (u : User.t) (password : string) : bool :=
  check_password_hash (User.password_hash u) password.

Module RegisterAPI.

(** [RegisterAPI.post].  [role_names] and [question_ids] are the rows of
    the role and secret-question tables, [uuid] the fresh [uuid4] the new
    row takes as [fs_uniquifier].  The result carries the [secret_key] of
    the JSON body.  A column left unset (the answer hash, when the answer
    is empty) or a unique constraint violated (the uniquifier) fails the
    commit: the request ends in an error. *)
Definition post (generate_password_hash : string -> string)
           (role_names : list string) (question_ids : list Z) (uuid : string)
           (username email password : string) (secret_question_id : Z)
           (secret_answer : string) (db : DB) : Txn * option string :=
  match Query.first
          (fun u => String.eqb (User.username u) username
                    || String.eqb (User.email u) email)
          (users db) with
  | Some _ => (NoCommit db (Json false 409), None)
  | None =>
      if negb (Recovery.is_password_strong password)
      then (NoCommit db (Json false 400), None)
      else if negb (existsb (Z.eqb secret_question_id) question_ids)
      then (NoCommit db (Json false 400), None)
      else if negb (existsb (String.eqb "user") role_names)
      then (NoCommit db (Json false 500), None)
      else
        let new_user :=
          {| User.id := Query.next_id User.id (users db);
             User.username := username;
             User.email := email;
             User.password_hash := EmptyString;
             User.fs_uniquifier := uuid;
             User.roles := [];
             User.secret_answer_hash := EmptyString |} in
        let new_user := Recovery.set_password generate_password_hash new_user password in
        let new_user := set_secret_answer generate_password_hash new_user secret_answer in
        let new_user :=
          {| User.id := User.id new_user; User.username := User.username new_user;
             User.email := User.email new_user;
             User.password_hash := User.password_hash new_user;
             User.fs_uniquifier := User.fs_uniquifier new_user;
             User.roles := User.roles new_user ++ ["user"%string];
             User.secret_answer_hash := User.secret_answer_hash new_user |} in
        let db1 := with_users db (users db ++ [new_user]) in
        if negb (PyStr.truthy secret_answer)
           || existsb (fun u => String.eqb (User.fs_uniquifier u) uuid) (users db)
        then (NoCommit db1 (Abort 500), None)
        else (Commit db1 (Json true 201), Some (User.fs_uniquifier new_user))
  end.

End RegisterAPI.

Module LoginAPI.

(** [LoginAPI.post]: the response and, on success, the identity the token
    is issued for.  Every account is created active and no handler
    deactivates one, so the [user.active] test is always passed. *)
Definition post (check_password_hash : string -> string -> bool)
           (username_or_email password : string) (db : DB)
  : Response * option string :=
  match Query.first
          (fun u => String.eqb (User.username u) username_or_email
                    || String.eqb (User.email u) username_or_email)
          (users db) with
  | Some user =>
      if check_password check_password_hash user password
      then (Json true 200, Some (User.fs_uniquifier user))
      else (Json false 401, None)
  | None => (Json false 401, None)
  end.

End LoginAPI.

End Accounts.

(* ================================================================== *)
(** ** More concrete requests *)
(* ================================================================== *)

Module Samples.

(** A second area, created through the admin form. *)
Definition lot2 : Forms.ParkingLotForm :=
  {| Forms.prime_location_name := "Lot2";
     Forms.area_code := "pmc";
     Forms.address := "Station road";
     Forms.price_per_hour := Some (PyFloat.of_int 25);
     Forms.max_spots := Some 3 |}.

Definition two_areas : DB :=
  Eval vm_compute in fst (run (AdminViews.admin_area_new lot2) Demo.garage).

(** A registration through the API. *)
Definition carol_uuid : string := "9f8e7d6c-5b4a-4c3d-8e2f-1a0b9c8d7e6f".

Definition register_carol (db : DB) : Txn * option string :=
  Accounts.RegisterAPI.post Demo.hash ["admin"; "user"]%string [1; 2]
    carol_uuid "carol" "carol@example.com" "Str0ng!pw" 1 "Rex" db.

(** The form of [lot2] sent to the edit of area 1: another name, another
    price, and a code and a number of spots that differ from the area's. *)
Definition lot1_edit : Forms.ParkingLotForm :=
  {| Forms.prime_location_name := "Lot1 East";
     Forms.area_code := "xyz";
     Forms.address := "Main street, east gate";
     Forms.price_per_hour := Some (PyFloat.of_int 30);
     Forms.max_spots := Some 500 |}.

(** A reset through the web form with a six-letter password. *)
Definition weak_reset : Recovery.ResetPasswordForm :=
  {| Recovery.f_secret_answer := " REX ";
     Recovery.f_secret_key := "e89b-12d3-a456";
     Recovery.f_password := "aaaaaa";
     Recovery.f_confirm_password := "aaaaaa" |}.

Definition with_carol : DB :=
  Eval vm_compute in fst (run (fun db => fst (register_carol db)) Demo.accounts).

End Samples.

(* ================================================================== *)
(** * Properties *)
(* ================================================================== *)

(** ** Splitting, slicing and joining *)

Module PyStrFacts.
Import PyStr.

Lemma split_nonempty (sep : ascii) (s : string) : split sep s <> [].
Proof.
  destruct s as [|c rest]; simpl; [discriminate|].
  destruct (Ascii.eqb c sep); [discriminate|].
  destruct (split sep rest); discriminate.
Qed.

Lemma split_length (sep : ascii) (s : string) :
  List.length (split sep s) = S (count sep s).
Proof.
  induction s as [|c rest IH]; simpl; [reflexivity|].
  destruct (Ascii.eqb c sep); simpl.
  - now rewrite IH.
  - destruct (split sep rest) as [|seg segs] eqn:E; simpl in *; lia.
Qed.

Lemma split_no_sep (sep : ascii) (s : string) :
  contains sep s = false -> split sep s = [s].
Proof.
  induction s as [|c rest IH]; simpl; [reflexivity|].
  intros H. apply orb_false_iff in H as [Hc Hr].
  rewrite Hc, (IH Hr). reflexivity.
Qed.

Lemma split_app_sep (sep : ascii) (a b : string) :
  contains sep a = false ->
  split sep (a ++ String sep b)%string = a :: split sep b.
Proof.
  induction a as [|c rest IH]; simpl; intros H.
  - now rewrite Ascii.eqb_refl.
  - apply orb_false_iff in H as [Hc Hr].
    rewrite Hc, (IH Hr). reflexivity.
Qed.

Lemma split_snoc (sep : ascii) (m last : string) :
  contains sep last = false ->
  split sep (m ++ String sep last)%string = split sep m ++ [last].
Proof.
  intros Hl. induction m as [|c rest IH]; simpl.
  - now rewrite Ascii.eqb_refl, (split_no_sep _ _ Hl).
  - destruct (Ascii.eqb c sep); rewrite IH; [reflexivity|].
    pose proof (split_nonempty sep rest) as Hne.
    destruct (split sep rest) as [|seg segs]; [congruence|reflexivity].
Qed.

(** Every segment is free of the separator. *)
Lemma split_segments_clean (sep : ascii) (s : string) :
  Forall (fun seg => contains sep seg = false) (split sep s).
Proof.
  induction s as [|c rest IH]; simpl.
  - constructor; [reflexivity|constructor].
  - destruct (Ascii.eqb c sep) eqn:E.
    + constructor; [reflexivity|exact IH].
    + destruct (split sep rest) as [|seg segs]; inversion IH; subst;
        constructor; simpl; try rewrite E; auto.
Qed.

(** The first segment is the text before the first separator. *)
Lemma split_head (sep : ascii) (s : string) :
  exists code segs,
    split sep s = code :: segs
    /\ contains sep code = false
    /\ ((segs = [] /\ s = code)
        \/ exists tail, s = (code ++ String sep tail)%string).
Proof.
  induction s as [|c rest IH]; simpl.
  - exists EmptyString, []. auto.
  - destruct (Ascii.eqb c sep) eqn:E.
    + apply Ascii.eqb_eq in E. subst c.
      exists EmptyString, (split sep rest). repeat split; auto.
      right. exists rest. reflexivity.
    + destruct IH as (code & segs & Hs & Hc & Hd). rewrite Hs.
      exists (String c code), segs. repeat split; auto.
      * simpl. now rewrite E, Hc.
      * destruct Hd as [[-> ->]|[tail ->]]; [left; auto|right].
        exists tail. reflexivity.
Qed.

(** Joining the segments with the separator gives the string back. *)
Lemma join_split (sep : ascii) (s : string) :
  join (String sep EmptyString) (split sep s) = s.
Proof.
  unfold join. induction s as [|c rest IH]; simpl; [reflexivity|].
  pose proof (split_nonempty sep rest) as Hne.
  destruct (Ascii.eqb c sep) eqn:E.
  - apply Ascii.eqb_eq in E. subst c.
    destruct (split sep rest) as [|seg segs] eqn:Es; [congruence|].
    simpl. simpl in IH. now rewrite IH.
  - destruct (split sep rest) as [|seg segs] eqn:Es; [congruence|].
    simpl in *. destruct segs; simpl in *; now rewrite <- IH.
Qed.

Lemma slice_inner {A : Type} (x y : A) (l : list A) :
  slice 1 (-1) (x :: l ++ [y]) = l.
Proof.
  unfold slice, clamp.
  replace (Z.of_nat (List.length (x :: l ++ [y])))
    with (Z.of_nat (List.length l) + 2)
    by (simpl; rewrite length_app; simpl; lia).
  change (1 <? 0) with false. change (-1 <? 0) with true. cbv iota.
  replace (Z.to_nat (Z.min 1 (Z.of_nat (List.length l) + 2))) with 1%nat by lia.
  replace (Z.to_nat (Z.max 0 (-1 + (Z.of_nat (List.length l) + 2))
                     - Z.min 1 (Z.of_nat (List.length l) + 2)))
    with (List.length l) by lia.
  cbn [skipn]. rewrite firstn_app, firstn_all, Nat.sub_diag. simpl.
  apply app_nil_r.
Qed.

(** Fewer than three elements: nothing lies strictly between the first
    and the last. *)
Lemma slice_short {A : Type} (l : list A) :
  (List.length l < 3)%nat -> slice 1 (-1) l = [].
Proof.
  intros H. unfold slice, clamp.
  destruct l as [|a [|b [|c l]]]; simpl in H; try lia; reflexivity.
Qed.

End PyStrFacts.

(** ** The derived area code *)

Lemma get_id {A : Type} (id_of : A -> Z) (tbl : list A) (k : Z) (r : A) :
  Query.get id_of tbl k = Some r -> In r tbl /\ id_of r = k.
Proof.
  unfold Query.get. intros H. apply find_some in H as [Hin Hk].
  split; [exact Hin|now apply Z.eqb_eq].
Qed.

Lemma area_code_defined (db : DB) (area_id : Z) :
  exists code, App.area_code db area_id = Some code.
Proof.
  unfold App.area_code.
  destruct (hd_error (App.area_spots db area_id)) as [s|]; [|eauto].
  destruct (PyStrFacts.split_head "-" (ParkingSpot.spot_identifier s))
    as (code & segs & Hs & _). rewrite Hs. simpl. eauto.
Qed.

Lemma entries_defined (db : DB) (l : list ParkingArea.t) :
  exists es,
    ApiAdmin.ParkingAreaListAPI.entries db l = Some es
    /\ Forall2 (fun a e =>
                  ApiAdmin.ParkingAreaListAPI.e_id e = ParkingArea.id a
                  /\ ApiAdmin.ParkingAreaListAPI.e_name e = ParkingArea.name a
                  /\ Some (ApiAdmin.ParkingAreaListAPI.e_code e)
                     = App.area_code db (ParkingArea.id a)) l es.
Proof.
  induction l as [|a rest (es & He & Hf)]; simpl.
  - exists []. split; [reflexivity|constructor].
  - destruct (area_code_defined db (ParkingArea.id a)) as [code Hc].
    rewrite Hc, He. eexists. split; [reflexivity|].
    constructor; [simpl; auto|exact Hf].
Qed.

Lemma area_spots_none (db : DB) (area_id : Z) :
  (forall s, In s (spots db) -> ParkingSpot.parking_area_id s <> area_id) ->
  App.area_spots db area_id = [].
Proof.
  unfold App.area_spots. induction (spots db) as [|x l IH]; intros H;
    simpl; [reflexivity|].
  destruct (ParkingSpot.parking_area_id x =? area_id) eqn:E.
  - apply Z.eqb_eq in E. exfalso. exact (H x (or_introl eq_refl) E).
  - apply IH. intros s Hs. apply H. now right.
Qed.

(** The first spot of an area is the first row of the spot table that
    refers to the area. *)
Lemma area_spots_first (db : DB) (area_id : Z)
      (before after : list ParkingSpot.t) (first_spot : ParkingSpot.t) :
  spots db = before ++ first_spot :: after ->
  (forall s, In s before -> ParkingSpot.parking_area_id s <> area_id) ->
  ParkingSpot.parking_area_id first_spot = area_id ->
  hd_error (App.area_spots db area_id) = Some first_spot.
Proof.
  unfold App.area_spots. intros -> Hbefore Hfirst.
  induction before as [|x l IH]; simpl.
  - rewrite Hfirst, Z.eqb_refl. reflexivity.
  - destruct (ParkingSpot.parking_area_id x =? area_id) eqn:E.
    + apply Z.eqb_eq in E. exfalso. exact (Hbefore x (or_introl eq_refl) E).
    + apply IH. intros s Hs. apply Hbefore. now right.
Qed.

Lemma area_spots_member (db : DB) (area_id : Z) (s : ParkingSpot.t) :
  hd_error (App.area_spots db area_id) = Some s ->
  In s (spots db) /\ ParkingSpot.parking_area_id s = area_id.
Proof.
  intros H. assert (Hin : In s (App.area_spots db area_id)).
  { destruct (App.area_spots db area_id); [discriminate|].
    inversion H. now left. }
  apply filter_In in Hin as [Hin Ha]. apply Z.eqb_eq in Ha. auto.
Qed.

(** C8. An area's code is not stored but read off the spot table: it is
    the text up to the first dash of the identifier of the first spot in
    the table that refers to the area (free of dashes, and followed in the
    identifier by nothing or by a dash), and it is the empty string when no
    spot in the table refers to the area.  When the identifiers of all the
    spots of an area start with one dash-free text followed by a dash, as
    the spots of a created area do, that text is the code whichever spot
    comes first.  Both endpoints that report a code, the spot-status view
    and the area list, report this value, and deriving it never raises. *)
Theorem area_code_is_dash_prefix (db : DB) (area_id : Z) :
  ((forall s, In s (spots db) -> ParkingSpot.parking_area_id s <> area_id) ->
   App.area_code db area_id = Some EmptyString)
  /\ (forall before first_spot after,
         spots db = before ++ first_spot :: after ->
         (forall s, In s before -> ParkingSpot.parking_area_id s <> area_id) ->
         ParkingSpot.parking_area_id first_spot = area_id ->
         exists code tail,
           App.area_code db area_id = Some code
           /\ PyStr.contains "-" code = false
           /\ (ParkingSpot.spot_identifier first_spot = code
               \/ ParkingSpot.spot_identifier first_spot
                  = (code ++ String "-" tail)%string))
  /\ (forall code,
         PyStr.contains "-" code = false ->
         (exists s, In s (spots db) /\ ParkingSpot.parking_area_id s = area_id) ->
         (forall s, In s (spots db) -> ParkingSpot.parking_area_id s = area_id ->
                    exists tail,
                      ParkingSpot.spot_identifier s
                      = (code ++ String "-" tail)%string) ->
         App.area_code db area_id = Some code)
  /\ (forall r,
         App.api_admin_area_spot_status area_id db = Some r ->
         Some (App.ss_area_code r) = App.area_code db area_id)
  /\ (exists es,
         ApiAdmin.ParkingAreaListAPI.get db = Some es
         /\ Forall2 (fun a e =>
                       ApiAdmin.ParkingAreaListAPI.e_id e = ParkingArea.id a
                       /\ ApiAdmin.ParkingAreaListAPI.e_name e = ParkingArea.name a
                       /\ Some (ApiAdmin.ParkingAreaListAPI.e_code e)
                          = App.area_code db (ParkingArea.id a))
                    (areas db) es).
Proof.
  split; [|split; [|split; [|split]]].
  - intros H. unfold App.area_code. now rewrite (area_spots_none db area_id H).
  - intros before first_spot after Hsplit Hbefore Hfirst.
    unfold App.area_code.
    rewrite (area_spots_first db area_id before after first_spot
               Hsplit Hbefore Hfirst).
    destruct (PyStrFacts.split_head "-" (ParkingSpot.spot_identifier first_spot))
      as (code & segs & Hs & Hc & Hd).
    rewrite Hs. simpl.
    destruct Hd as [[_ Hd]|[tail Hd]].
    + exists code, EmptyString. auto.
    + exists code, tail. auto.
  - intros code Hcode (s & Hin & Ha) Hall. unfold App.area_code.
    destruct (hd_error (App.area_spots db area_id)) as [x|] eqn:Ex.
    + destruct (area_spots_member db area_id x Ex) as [Hx Hax].
      destruct (Hall x Hx Hax) as [tail ->].
      now rewrite (PyStrFacts.split_app_sep "-" code tail Hcode).
    + exfalso. assert (Hs : In s (App.area_spots db area_id)).
      { apply filter_In. split; [exact Hin|]. now apply Z.eqb_eq. }
      destruct (App.area_spots db area_id); [destruct Hs|discriminate].
  - intros r H. unfold App.api_admin_area_spot_status in H.
    destruct (App.find_area db area_id) as [area|] eqn:Ea; [|discriminate].
    apply get_id in Ea as [_ Hid]. rewrite Hid in H.
    destruct (App.area_code db area_id) as [code|]; [|discriminate].
    destruct (App.sorted_natural _); [|discriminate].
    now inversion H.
  - apply entries_defined.
Qed.

Lemma area_code_is_dash_prefix_witness :
  exists code tail,
    App.area_code
      (with_spots empty_db
         [ParkingSpot.mk 1 "LOT-7" st_available 4;
          ParkingSpot.mk 2 "PMC-1" st_available 7;
          ParkingSpot.mk 3 "PMC-2" st_occupied 7]) 7
    = Some code
    /\ PyStr.contains "-" code = false
    /\ ("PMC-1"%string = code \/ "PMC-1"%string = (code ++ String "-" tail)%string).
Proof.
  apply (proj1 (proj2 (area_code_is_dash_prefix
                         (with_spots empty_db
                            [ParkingSpot.mk 1 "LOT-7" st_available 4;
                             ParkingSpot.mk 2 "PMC-1" st_available 7;
                             ParkingSpot.mk 3 "PMC-2" st_occupied 7]) 7))
           [ParkingSpot.mk 1 "LOT-7" st_available 4]
           (ParkingSpot.mk 2 "PMC-1" st_available 7)
           [ParkingSpot.mk 3 "PMC-2" st_occupied 7]).
  - reflexivity.
  - intros s [<-|[]]. discriminate.
  - reflexivity.
Defined.

(** The spots above give area 7 the code ["PMC"], and an area without
    spots the empty code. *)
Example area_code_of_three_spots :
  App.area_code
    (with_spots empty_db
       [ParkingSpot.mk 1 "LOT-7" st_available 4;
        ParkingSpot.mk 2 "PMC-1" st_available 7;
        ParkingSpot.mk 3 "PMC-2" st_occupied 7]) 7
  = Some "PMC"%string
  /\ App.area_code
       (with_spots empty_db
          [ParkingSpot.mk 1 "LOT-7" st_available 4;
           ParkingSpot.mk 2 "PMC-1" st_available 7;
           ParkingSpot.mk 3 "PMC-2" st_occupied 7]) 9
     = Some EmptyString.
Proof. split; reflexivity. Qed.

(** ** The partial secret key *)

Lemma partial_key_value (u : string) :
  Recovery.partial_key u
  = Recovery.Value
      (PyStr.join "-" (PyStr.slice 1 (-1) (PyStr.split "-" u))).
Proof. reflexivity. Qed.

Lemma partial_key_middle (first middle last : string) :
  PyStr.contains "-" first = false ->
  PyStr.contains "-" last = false ->
  Recovery.partial_key
    (first ++ String "-" (middle ++ String "-" last))%string
  = Recovery.Value middle.
Proof.
  intros Hf Hl. unfold Recovery.partial_key.
  rewrite (PyStrFacts.split_app_sep _ _ _ Hf), (PyStrFacts.split_snoc _ _ _ Hl).
  rewrite PyStrFacts.slice_inner.
  f_equal. apply (PyStrFacts.join_split "-").
Qed.

Lemma partial_key_short (u : string) :
  (PyStr.count "-" u < 2)%nat ->
  Recovery.partial_key u = Recovery.Value EmptyString.
Proof.
  intros H. unfold Recovery.partial_key.
  rewrite PyStrFacts.slice_short; [reflexivity|].
  rewrite PyStrFacts.split_length. lia.
Qed.

Section RecoveryFacts.

Variable generate_password_hash : string -> string.
Variable check_password_hash : string -> string -> bool.

(** C9. The partial secret key is the account's unique identifier without
    its first and its last dash-separated segment, the segments between
    them joined by dashes again; and either reset path changes the password
    only when the submitted key equals that partial key and the submitted
    answer, lowercased and stripped, checks against the stored hash. *)
Theorem reset_requires_key_and_answer :
  (forall first middle last,
      PyStr.contains "-" first = false ->
      PyStr.contains "-" last = false ->
      Recovery.partial_key
        (first ++ String "-" (middle ++ String "-" last))%string
      = Recovery.Value middle)
  /\ (forall email secret_answer secret_key new_password db db' r,
         Recovery.api_reset generate_password_hash check_password_hash
           email secret_answer secret_key new_password db = Commit db' r ->
         exists user,
           Query.first (fun u => String.eqb (User.email u) email) (users db) = Some user
           /\ Recovery.partial_key (User.fs_uniquifier user) = Recovery.Value secret_key
           /\ check_password_hash (User.secret_answer_hash user)
                (PyStr.strip (PyStr.lower secret_answer)) = true
           /\ db' = Recovery.update_user db
                      (Recovery.set_password generate_password_hash user new_password))
  /\ (forall session_email form db db' r,
         Recovery.reset_password_verify generate_password_hash check_password_hash
           session_email form db = Commit db' r ->
         exists email user,
           session_email = Some email
           /\ Query.first (fun u => String.eqb (User.email u) email) (users db) = Some user
           /\ Recovery.partial_key (User.fs_uniquifier user)
              = Recovery.Value (Recovery.f_secret_key form)
           /\ check_password_hash (User.secret_answer_hash user)
                (PyStr.strip (PyStr.lower (Recovery.f_secret_answer form))) = true
           /\ db' = Recovery.update_user db
                      (Recovery.set_password generate_password_hash user
                         (Recovery.f_password form))).
Proof.
  split; [exact partial_key_middle|]. split.
  - intros email ans key pw db db' r H.
    unfold Recovery.api_reset in H.
    destruct (Query.first _ (users db)) as [user|] eqn:Eu; [|discriminate].
    rewrite partial_key_value in H.
    destruct (Recovery.check_secret_answer _ user ans) eqn:Ea; [|discriminate].
    destruct (String.eqb _ key) eqn:Ek; [|discriminate].
    simpl in H.
    destruct (Recovery.is_password_strong pw); [|discriminate].
    simpl in H. inversion H; subst. exists user.
    apply String.eqb_eq in Ek.
    unfold Recovery.check_secret_answer in Ea.
    destruct (PyStr.truthy (User.secret_answer_hash user)); [|discriminate].
    simpl in Ea. rewrite partial_key_value, Ek. auto.
  - intros se form db db' r H.
    unfold Recovery.reset_password_verify in H.
    destruct se as [email|]; [|discriminate].
    destruct (PyStr.truthy email); [|discriminate]. simpl in H.
    destruct (Query.first _ (users db)) as [user|] eqn:Eu; [|discriminate].
    destruct (Recovery.validate_on_submit form); [|discriminate].
    destruct (Recovery.check_secret_answer _ user _) eqn:Ea; [|discriminate].
    destruct (Recovery.is_key_correct user _) eqn:Ek; [|discriminate].
    simpl in H. inversion H; subst. exists email, user.
    unfold Recovery.is_key_correct in Ek. rewrite partial_key_value in Ek.
    apply String.eqb_eq in Ek.
    unfold Recovery.check_secret_answer in Ea.
    destruct (PyStr.truthy (User.secret_answer_hash user)); [|discriminate].
    simpl in Ea. rewrite partial_key_value, Ek. auto 6.
Qed.

End RecoveryFacts.

Lemma reset_requires_key_and_answer_witness :
  Recovery.partial_key "123e4567-e89b-12d3-a456-426614174000"
  = Recovery.Value "e89b-12d3-a456"%string.
Proof.
  apply (proj1 (reset_requires_key_and_answer Demo.hash Demo.check)
               "123e4567"%string "e89b-12d3-a456"%string "426614174000"%string);
    reflexivity.
Defined.

(** C10. Deriving the partial key never raises: it always yields a string,
    the empty one when the identifier has fewer than three dash-separated
    segments (fewer than two dashes).  So neither reset path ever takes its
    [IndexError] branch, and for such an account the empty string is the
    expected key: the form check accepts it as the second factor, and the
    API resets the password on an empty [secret_key] as soon as the answer
    and the new password pass. *)
Theorem partial_key_never_raises
        (generate_password_hash : string -> string)
        (check_password_hash : string -> string -> bool) :
  (forall u, exists k, Recovery.partial_key u = Recovery.Value k)
  /\ (forall u,
         (List.length (PyStr.split "-" u) < 3)%nat <-> (PyStr.count "-" u < 2)%nat)
  /\ (forall u,
         (List.length (PyStr.split "-" u) < 3)%nat ->
         Recovery.partial_key u = Recovery.Value EmptyString)
  /\ (forall user secret_key,
         Recovery.is_key_correct user secret_key
         = String.eqb
             (PyStr.join "-" (PyStr.slice 1 (-1)
                                (PyStr.split "-" (User.fs_uniquifier user))))
             secret_key)
  /\ (forall email secret_answer secret_key new_password db w,
         Recovery.api_reset generate_password_hash check_password_hash
           email secret_answer secret_key new_password db
         <> NoCommit w (Json false 500))
  /\ (forall user,
         (List.length (PyStr.split "-" (User.fs_uniquifier user)) < 3)%nat ->
         Recovery.is_key_correct user EmptyString = true)
  /\ (forall email secret_answer new_password db user,
         Query.first (fun u => String.eqb (User.email u) email) (users db) = Some user ->
         (List.length (PyStr.split "-" (User.fs_uniquifier user)) < 3)%nat ->
         Recovery.check_secret_answer check_password_hash user secret_answer = true ->
         Recovery.is_password_strong new_password = true ->
         Recovery.api_reset generate_password_hash check_password_hash
           email secret_answer EmptyString new_password db
         = Commit (Recovery.update_user db
                     (Recovery.set_password generate_password_hash user new_password))
                  (Json true 200)).
Proof.
  assert (Hshort : forall u, (List.length (PyStr.split "-" u) < 3)%nat ->
                             Recovery.partial_key u = Recovery.Value EmptyString).
  { intros u H. apply partial_key_short.
    rewrite PyStrFacts.split_length in H. lia. }
  repeat split.
  - intros u. eexists. apply partial_key_value.
  - rewrite PyStrFacts.split_length. lia.
  - rewrite PyStrFacts.split_length. lia.
  - exact Hshort.
  - intros email ans key pw db w H. unfold Recovery.api_reset in H.
    destruct (Query.first _ (users db)); [|discriminate].
    rewrite partial_key_value in H.
    destruct (negb _ || negb _); [discriminate|].
    destruct (negb _); discriminate.
  - intros user H. unfold Recovery.is_key_correct. now rewrite (Hshort _ H).
  - intros email ans pw db user Hu Hs Ha Hp. unfold Recovery.api_reset.
    rewrite Hu, (Hshort _ Hs), Ha, Hp. reflexivity.
Qed.

Lemma partial_key_never_raises_witness :
  Recovery.api_reset Demo.hash Demo.check
    "eve@example.com" " ReX " EmptyString "N3w!pass" Demo.accounts
  = Commit (Recovery.update_user Demo.accounts
              (Recovery.set_password Demo.hash Demo.short_user "N3w!pass"))
           (Json true 200).
Proof.
  apply (proj2 (proj2 (proj2 (proj2 (proj2 (proj2
           (partial_key_never_raises Demo.hash Demo.check)))))));
    [reflexivity | vm_compute; repeat constructor | reflexivity | reflexivity].
Defined.

(** ** Rows after an update *)

Section UpdateFacts.

Context {A : Type} (id_of : A -> Z).

Lemma get_update_same (k : Z) (f : A -> A) (tbl : list A) :
  (forall r, id_of (f r) = id_of r) ->
  Query.get id_of (Query.update id_of k f tbl) k
  = option_map f (Query.get id_of tbl k).
Proof.
  intros Hf. unfold Query.get, Query.update.
  induction tbl as [|r rest IH]; simpl; [reflexivity|].
  destruct (id_of r =? k) eqn:E.
  - rewrite Hf, E. reflexivity.
  - rewrite E. exact IH.
Qed.

Lemma get_update_other (k k' : Z) (f : A -> A) (tbl : list A) :
  (forall r, id_of (f r) = id_of r) ->
  k' <> k ->
  Query.get id_of (Query.update id_of k f tbl) k' = Query.get id_of tbl k'.
Proof.
  intros Hf Hk. unfold Query.get, Query.update.
  induction tbl as [|r rest IH]; simpl; [reflexivity|].
  destruct (id_of r =? k) eqn:E.
  - rewrite Hf. apply Z.eqb_eq in E.
    destruct (id_of r =? k') eqn:E'; [apply Z.eqb_eq in E'; congruence|exact IH].
  - destruct (id_of r =? k'); [reflexivity|exact IH].
Qed.

Lemma update_absent (k : Z) (f : A -> A) (tbl : list A) :
  (forall r, In r tbl -> id_of r <> k) ->
  Query.update id_of k f tbl = tbl.
Proof.
  intros H. unfold Query.update.
  induction tbl as [|r rest IH]; simpl; [reflexivity|].
  destruct (id_of r =? k) eqn:E.
  - apply Z.eqb_eq in E. exfalso. apply (H r); [left; reflexivity|exact E].
  - f_equal. apply IH. intros r' Hr'. apply H. right. exact Hr'.
Qed.

End UpdateFacts.

(** ** Billing *)

Ltac read_compare H :=
  match type of H with
  | (_ ?= _)%Q = Eq => apply <- Qeq_alt in H
  | (_ ?= _)%Q = Lt => apply <- Qlt_alt in H
  | (_ ?= _)%Q = Gt => apply <- Qgt_alt in H
  end.

(** [round_half_even x] is an integer nearest to [x], and the even one of
    the two when [x] lies half-way between them. *)
Lemma round_half_even_nearest (x : Q) :
  (inject_Z (round_half_even x) - x <= 1 # 2)%Q
  /\ (x - inject_Z (round_half_even x) <= 1 # 2)%Q
  /\ ((x - inject_Z (round_half_even x) == 1 # 2)%Q
      \/ (inject_Z (round_half_even x) - x == 1 # 2)%Q ->
      Z.even (round_half_even x) = true).
Proof.
  unfold round_half_even.
  pose proof (Qfloor_le x) as Hlo. pose proof (Qlt_floor x) as Hhi.
  set (f := Qfloor x) in *.
  assert (Hs : (inject_Z (f + 1) == inject_Z f + 1)%Q)
    by (rewrite inject_Z_plus; reflexivity).
  destruct (Qcompare (x - inject_Z f) (1 # 2)) eqn:E; read_compare E.
  - destruct (Z.even f) eqn:Ev.
    + repeat split; try lra. intros _. exact Ev.
    + repeat split; try lra. intros _.
      replace (f + 1) with (Z.succ f) by lia.
      rewrite Z.even_succ, <- Z.negb_even, Ev. reflexivity.
  - repeat split; try lra; intros [H|H]; exfalso; lra.
  - repeat split; try lra; intros [H|H]; exfalso; lra.
Qed.

Lemma round_half_even_nonneg (x : Q) : (0 <= x)%Q -> 0 <= round_half_even x.
Proof.
  intros Hx. unfold round_half_even.
  assert (0 <= Qfloor x).
  { change 0 with (Qfloor (inject_Z 0)). now apply Qfloor_resp_le. }
  destruct (Qcompare _ _); [destruct (Z.even _)| |]; lia.
Qed.

Lemma magnitude_nonneg (m : positive) (e : Z) : (0 <= PyFloat.magnitude m e)%Q.
Proof.
  unfold PyFloat.magnitude. destruct e as [|p|p].
  - change 0%Q with (inject_Z 0). rewrite <- Zle_Qle. lia.
  - change 0%Q with (inject_Z 0). rewrite <- Zle_Qle.
    apply Z.mul_nonneg_nonneg; [lia|]. apply Z.pow_nonneg. lia.
  - unfold Qle. cbn [Qnum Qden]. lia.
Qed.

(** [math.ceil]: the least integer that is not below the number. *)
Lemma ceil_bounds (x : PyFloat.float) (c : Z) :
  PyFloat.ceil x = Some c ->
  exists h,
    PyFloat.value x = Some h
    /\ (h <= inject_Z c)%Q /\ (inject_Z c - 1 < h)%Q.
Proof.
  unfold PyFloat.ceil. destruct (PyFloat.value x) as [h|]; [|discriminate].
  simpl. intros H. inversion H; subst. exists h. split; [reflexivity|].
  split; [apply Qle_ceiling|].
  pose proof (Qceiling_lt h) as Hlt.
  assert (Hs : (inject_Z (Qceiling h - 1) == inject_Z (Qceiling h) - 1)%Q).
  { unfold Z.sub. rewrite inject_Z_plus. reflexivity. }
  lra.
Qed.

(** [round(x, 2)] of a finite float: with [n] the integer nearest to a
    hundred times its magnitude (the even one at a tie), the signed zero
    when [n] is zero and otherwise the float nearest to [n / 100], with
    the sign of [x]. *)
Lemma round2_finite (s : bool) (m : positive) (e : Z) :
  exists n : Z,
    0 <= n
    /\ (inject_Z n - PyFloat.magnitude m e * inject_Z 100 <= 1 # 2)%Q
    /\ (PyFloat.magnitude m e * inject_Z 100 - inject_Z n <= 1 # 2)%Q
    /\ ((PyFloat.magnitude m e * inject_Z 100 - inject_Z n == 1 # 2)%Q
        \/ (inject_Z n - PyFloat.magnitude m e * inject_Z 100 == 1 # 2)%Q ->
        Z.even n = true)
    /\ PyFloat.round2 (S754_finite s m e)
       = if n =? 0 then S754_zero s
         else SFdiv 53 1024 (S754_finite s (Z.to_pos n) 0)
                            (S754_finite false 100 0).
Proof.
  set (x := (PyFloat.magnitude m e * inject_Z 100)%Q).
  exists (round_half_even x).
  destruct (round_half_even_nearest x) as (H1 & H2 & H3).
  assert (Hx : (0 <= x)%Q).
  { unfold x. apply Qmult_le_0_compat; [apply magnitude_nonneg|].
    unfold Qle. simpl. lia. }
  pose proof (round_half_even_nonneg x Hx) as Hn.
  repeat split; try assumption.
  unfold PyFloat.round2. fold x.
  destruct (round_half_even x) as [|n|n]; [reflexivity|reflexivity|lia].
Qed.

Lemma dt_sub_now (now : Z) (start : datetime) :
  dt_sub (App._now_utc now) (App.as_aware start)
  = Some (now - (wall_us start - match tzinfo start with
                                  | Some off => off
                                  | None => utc
                                  end)).
Proof.
  unfold dt_sub, App.as_aware, App._now_utc, utc.
  destruct (tzinfo start) as [off|] eqn:E; simpl; [rewrite E|]; f_equal; lia.
Qed.

Lemma find_booking_updated (db : DB) (k : Z) (f : Booking.t -> Booking.t) :
  (forall r, Booking.id (f r) = Booking.id r) ->
  App.find_booking (App.update_booking db k f) k
  = option_map f (App.find_booking db k).
Proof. intros Hf. apply (get_update_same Booking.id k f _ Hf). Qed.

Lemma find_booking_set_spot (db : DB) (k : Z) (st : string) (b : Z) :
  App.find_booking (App.set_spot_status db k st) b = App.find_booking db b.
Proof. reflexivity. Qed.

Lemma find_spot_updated (db : DB) (k : Z) (st : string) :
  App.find_spot (App.set_spot_status db k st) k
  = option_map (fun s => ParkingSpot.with_status s st) (App.find_spot db k).
Proof. apply (get_update_same ParkingSpot.id k _ _). reflexivity. Qed.

Lemma find_spot_update_booking (db : DB) (k : Z) f (s : Z) :
  App.find_spot (App.update_booking db k f) s = App.find_spot db s.
Proof. reflexivity. Qed.

(** A release that finds the booking, its spot, the area and the start
    time commits exactly when the cost can be computed, and then stores
    it. *)
Lemma user_release_outcome
      (db : DB) (current_user : User.t) (booking_id now : Z)
      (booking : Booking.t) (spot : ParkingSpot.t) (area : ParkingArea.t)
      (start : datetime) :
  App.find_booking db booking_id = Some booking ->
  App.find_spot db (Booking.spot_id booking) = Some spot ->
  App.find_area db (ParkingSpot.parking_area_id spot) = Some area ->
  Booking.start_time booking = Some start ->
  Booking.user_id booking = User.id current_user ->
  Booking.status booking <> st_completed ->
  let us :=
    now - (wall_us start - match tzinfo start with Some off => off | None => 0 end) in
  match App.cost us (ParkingArea.price_per_hour area) with
  | Some total =>
      exists db' b',
        App.user_release current_user booking_id now db
        = Commit db' (match PyFloat.stored total with
                      | Some _ => Redirect "success"
                      | None => Abort 500
                      end)
        /\ App.find_booking db' booking_id = Some b'
        /\ Booking.status b' = st_completed
        /\ Booking.end_time b' = Some (App._now_utc now)
        /\ Booking.total_cost b' = PyFloat.stored total
  | None =>
      exists w, App.user_release current_user booking_id now db
                = NoCommit w (Abort 500)
  end.
Proof.
  intros Hb Hs Ha Hst Hu Hc. cbv zeta. unfold App.user_release.
  rewrite Hb, Hu, Z.eqb_refl. simpl negb. cbv iota.
  apply String.eqb_neq in Hc. rewrite Hc, Hs, Hst. simpl option_map. cbv iota.
  rewrite Ha, dt_sub_now. cbv iota. unfold utc.
  destruct (App.cost _ _) as [total|]; [|eauto].
  eexists. eexists. split; [reflexivity|]. split.
  - rewrite find_booking_updated by reflexivity.
    rewrite find_booking_set_spot.
    rewrite find_booking_updated by reflexivity.
    rewrite Hb. reflexivity.
  - simpl. repeat split.
Qed.

Lemma admin_release_outcome
      (db : DB) (booking_id now : Z)
      (booking : Booking.t) (spot : ParkingSpot.t) (area : ParkingArea.t)
      (start : datetime) :
  App.find_booking db booking_id = Some booking ->
  App.find_spot db (Booking.spot_id booking) = Some spot ->
  App.find_area db (ParkingSpot.parking_area_id spot) = Some area ->
  Booking.start_time booking = Some start ->
  Booking.status booking = st_active ->
  let us :=
    now - (wall_us start - match tzinfo start with Some off => off | None => 0 end) in
  match App.cost us (ParkingArea.price_per_hour area) with
  | Some total =>
      exists db' b',
        App.admin_offline_release booking_id now db
        = Commit db' (Redirect "success")
        /\ App.find_booking db' booking_id = Some b'
        /\ Booking.status b' = st_completed
        /\ Booking.end_time b' = Some (App._now_utc now)
        /\ Booking.total_cost b' = PyFloat.stored total
  | None =>
      exists w, App.admin_offline_release booking_id now db
                = NoCommit w (Abort 500)
  end.
Proof.
  intros Hb Hs Ha Hst Hact. cbv zeta.
  pose proof (get_id _ _ _ _ Hb) as [_ Hid].
  unfold App.admin_offline_release, App._complete_booking.
  rewrite Hb, Hact. simpl negb. cbv iota. simpl (String.eqb _ _). cbv iota.
  rewrite Hs, Hst. simpl option_map. cbv iota.
  rewrite Ha, dt_sub_now. cbv iota. unfold utc.
  destruct (App.cost _ _) as [total|]; [|eauto].
  eexists. eexists. split; [reflexivity|]. split.
  - rewrite Hid.
    rewrite find_booking_updated by reflexivity.
    rewrite find_booking_set_spot.
    rewrite find_booking_updated by reflexivity.
    rewrite Hb. reflexivity.
  - simpl. repeat split.
Qed.

(** The cost as the computation of the handlers: defined exactly when the
    seconds and the ceiling of the hours are. *)
Lemma cost_defined (us : Z) (price total : PyFloat.float) :
  App.cost us price = Some total <->
  exists seconds c,
    PyFloat.int_truediv us 1000000 = Some seconds
    /\ PyFloat.ceil (SFdiv 53 1024 seconds (PyFloat.of_int 3600)) = Some c
    /\ total = PyFloat.round2
                 (SFmul 53 1024 (PyFloat.of_int (Z.max 1 c)) price).
Proof.
  unfold App.cost, total_seconds, App.billed_hours, PyFloat.div, PyFloat.mul.
  change PyFloat.prec with 53. change PyFloat.emax with 1024. split.
  - destruct (PyFloat.int_truediv us 1000000) as [seconds|]; [|discriminate].
    cbv zeta.
    destruct (PyFloat.ceil (SFdiv 53 1024 seconds (PyFloat.of_int 3600)))
      as [c|] eqn:Hc; [|discriminate].
    simpl. intros H. inversion H. exists seconds, c. auto.
  - intros (seconds & c & -> & Hc & ->). cbv zeta. rewrite Hc. reflexivity.
Qed.

(** C1. A booking that has a spot and a start time and is completed, by
    the user's release or by the admin's release of an active booking,
    gets [round(max(1, ceil(seconds / 3600)) * price_per_hour, 2)] as its
    total cost, computed on floats as Python computes it: [seconds] is the
    time from the start, read as UTC when it is naive, to the moment of the
    release, in microseconds and divided by [10**6]; the quotient by 3600
    and the product with the price are the correctly rounded ones.  The
    release commits when these numbers exist, and only then.  At least one
    hour is billed, the billed hours are the hours rounded up to a whole
    number, and the cost is the float nearest to a whole number of
    hundredths, the one nearest to the product (the even one at a tie):
    four and a half hours at 0.025 an hour, a product of 0.125, cost 0.12.
    The column holds the cost as SQLite stores a float. *)
Theorem completed_booking_cost
        (db : DB) (current_user : User.t) (booking_id now : Z)
        (booking : Booking.t) (spot : ParkingSpot.t) (area : ParkingArea.t)
        (start : datetime) :
  App.find_booking db booking_id = Some booking ->
  App.find_spot db (Booking.spot_id booking) = Some spot ->
  App.find_area db (ParkingSpot.parking_area_id spot) = Some area ->
  Booking.start_time booking = Some start ->
  let start_utc :=
    wall_us start - match tzinfo start with Some off => off | None => 0 end in
  let hours_of (seconds : PyFloat.float) :=
    SFdiv 53 1024 seconds (PyFloat.of_int 3600) in
  let product_of (c : Z) :=
    SFmul 53 1024 (PyFloat.of_int (Z.max 1 c)) (ParkingArea.price_per_hour area) in
  let billed_at (seconds : PyFloat.float) (c : Z) (total : PyFloat.float) :=
    PyFloat.int_truediv (now - start_utc) 1000000 = Some seconds
    /\ PyFloat.ceil (hours_of seconds) = Some c
    /\ total = PyFloat.round2 (product_of c) in
  let completed_with_cost (db' : DB) (total : PyFloat.float) :=
    exists b',
      App.find_booking db' booking_id = Some b'
      /\ Booking.status b' = st_completed
      /\ Booking.end_time b' = Some (App._now_utc now)
      /\ Booking.total_cost b' = PyFloat.stored total in
  (forall seconds c total,
      billed_at seconds c total ->
      (Booking.user_id booking = User.id current_user ->
       Booking.status booking <> st_completed ->
       exists db',
         App.user_release current_user booking_id now db
         = Commit db' (match PyFloat.stored total with
                       | Some _ => Redirect "success"
                       | None => Abort 500
                       end)
         /\ completed_with_cost db' total)
      /\ (Booking.status booking = st_active ->
          exists db',
            App.admin_offline_release booking_id now db
            = Commit db' (Redirect "success")
            /\ completed_with_cost db' total))
  /\ (forall db' r,
         App.user_release current_user booking_id now db = Commit db' r
         \/ App.admin_offline_release booking_id now db = Commit db' r ->
         exists seconds c total,
           billed_at seconds c total /\ completed_with_cost db' total)
  /\ (forall seconds c,
         PyFloat.ceil (hours_of seconds) = Some c ->
         1 <= Z.max 1 c
         /\ exists h,
              PyFloat.value (hours_of seconds) = Some h
              /\ (h <= inject_Z (Z.max 1 c))%Q
              /\ (1 < Z.max 1 c -> (inject_Z (Z.max 1 c) - 1 < h)%Q))
  /\ (forall c s m e,
         product_of c = S754_finite s m e ->
         exists n : Z,
           0 <= n
           /\ (inject_Z n - PyFloat.magnitude m e * inject_Z 100 <= 1 # 2)%Q
           /\ (PyFloat.magnitude m e * inject_Z 100 - inject_Z n <= 1 # 2)%Q
           /\ ((PyFloat.magnitude m e * inject_Z 100 - inject_Z n == 1 # 2)%Q
               \/ (inject_Z n - PyFloat.magnitude m e * inject_Z 100 == 1 # 2)%Q ->
               Z.even n = true)
           /\ PyFloat.round2 (product_of c)
              = if n =? 0 then S754_zero s
                else SFdiv 53 1024 (S754_finite s (Z.to_pos n) 0)
                                   (S754_finite false 100 0))
  /\ (forall c s,
         product_of c = S754_infinity s ->
         PyFloat.round2 (product_of c) = S754_infinity s)
  /\ App.cost 16200000000 (S754_finite false 7205759403792794 (-58))
     = Some (S754_finite false 8646911284551352 (-56)).
Proof.
  intros Hb Hs Ha Hst start_utc hours_of product_of billed_at completed_with_cost.
  split; [|split; [|split; [|split; [|split; [|vm_compute; reflexivity]]]]].
  - intros seconds c total (Hsec & Hceil & Htotal).
    assert (Hcost : App.cost (now - start_utc) (ParkingArea.price_per_hour area)
                    = Some total).
    { apply cost_defined. exists seconds, c. auto. }
    split.
    + intros Hu Hc.
      pose proof (user_release_outcome db current_user booking_id now booking
                    spot area start Hb Hs Ha Hst Hu Hc) as H.
      cbv zeta in H. fold start_utc in H. rewrite Hcost in H.
      destruct H as (db' & b' & H1 & H2 & H3 & H4 & H5).
      exists db'. split; [exact H1|]. exists b'. auto.
    + intros Hact.
      pose proof (admin_release_outcome db booking_id now booking
                    spot area start Hb Hs Ha Hst Hact) as H.
      cbv zeta in H. fold start_utc in H. rewrite Hcost in H.
      destruct H as (db' & b' & H1 & H2 & H3 & H4 & H5).
      exists db'. split; [exact H1|]. exists b'. auto.
  - intros db' r [Hrel|Hrel].
    + assert (Hu : Booking.user_id booking = User.id current_user).
      { unfold App.user_release in Hrel. rewrite Hb in Hrel.
        destruct (Booking.user_id booking =? User.id current_user) eqn:E;
          [now apply Z.eqb_eq|discriminate Hrel]. }
      assert (Hc : Booking.status booking <> st_completed).
      { unfold App.user_release in Hrel. rewrite Hb, Hu, Z.eqb_refl in Hrel.
        simpl negb in Hrel. cbv iota in Hrel.
        destruct (String.eqb (Booking.status booking) st_completed) eqn:E;
          [discriminate Hrel|now apply String.eqb_neq]. }
      pose proof (user_release_outcome db current_user booking_id now booking
                    spot area start Hb Hs Ha Hst Hu Hc) as H.
      cbv zeta in H. fold start_utc in H.
      destruct (App.cost (now - start_utc) (ParkingArea.price_per_hour area))
        as [total|] eqn:Hcost.
      * destruct H as (db1 & b' & H1 & H2 & H3 & H4 & H5).
        rewrite Hrel in H1. inversion H1; subst db1.
        apply cost_defined in Hcost as (seconds & c & Hsec & Hceil & Htotal).
        exists seconds, c, total. split; [repeat split; assumption|].
        exists b'. auto.
      * destruct H as (w & H). rewrite Hrel in H. discriminate H.
    + assert (Hact : Booking.status booking = st_active).
      { unfold App.admin_offline_release in Hrel. rewrite Hb in Hrel.
        destruct (String.eqb (Booking.status booking) st_active) eqn:E;
          [now apply String.eqb_eq|discriminate Hrel]. }
      pose proof (admin_release_outcome db booking_id now booking
                    spot area start Hb Hs Ha Hst Hact) as H.
      cbv zeta in H. fold start_utc in H.
      destruct (App.cost (now - start_utc) (ParkingArea.price_per_hour area))
        as [total|] eqn:Hcost.
      * destruct H as (db1 & b' & H1 & H2 & H3 & H4 & H5).
        rewrite Hrel in H1. inversion H1; subst db1.
        apply cost_defined in Hcost as (seconds & c & Hsec & Hceil & Htotal).
        exists seconds, c, total. split; [repeat split; assumption|].
        exists b'. auto.
      * destruct H as (w & H). rewrite Hrel in H. discriminate H.
  - intros seconds c Hceil. split; [lia|].
    destruct (ceil_bounds _ c Hceil) as (h & Hh & Hle & Hlt).
    exists h. split; [exact Hh|]. split.
    + apply Qle_trans with (inject_Z c); [exact Hle|].
      rewrite <- Zle_Qle. lia.
    + intros H1. replace (Z.max 1 c) with c by lia. exact Hlt.
  - intros c s m e Hp. rewrite Hp. apply round2_finite.
  - intros c s Hp. now rewrite Hp.
Qed.

Lemma completed_booking_cost_witness :
  exists db',
    App.user_release Demo.user 1 4200000000 Demo.parked
    = Commit db' (Redirect "success")
    /\ exists b',
         App.find_booking db' 1 = Some b'
         /\ Booking.status b' = st_completed
         /\ Booking.end_time b' = Some (App._now_utc 4200000000)
         /\ Booking.total_cost b' = Some (PyFloat.of_int 40).
Proof.
  assert (Hbilled :
            PyFloat.int_truediv (4200000000 - (0 - 0)) 1000000
            = Some (PyFloat.of_int 4200)
            /\ PyFloat.ceil (SFdiv 53 1024 (PyFloat.of_int 4200) (PyFloat.of_int 3600))
               = Some 2
            /\ PyFloat.of_int 40
               = PyFloat.round2
                   (SFmul 53 1024 (PyFloat.of_int (Z.max 1 2)) (PyFloat.of_int 20)))
    by (repeat split; vm_compute; reflexivity).
  apply (proj1 (proj1 (completed_booking_cost Demo.parked Demo.user 1 4200000000
                         _ _ _ _ eq_refl eq_refl eq_refl eq_refl)
                      (PyFloat.of_int 4200) 2 (PyFloat.of_int 40) Hbilled));
    [reflexivity | discriminate].
Defined.

(** The floats of the computation are those of the code: four and a half
    hours at 0.025 an hour give the product 0.125, half-way between twelve
    and thirteen hundredths, and the cost is 0.12; fifty-nine minutes at
    twenty an hour cost 20.0. *)
Example cost_of_four_and_a_half_hours :
  App.cost 16200000000 (S754_finite false 7205759403792794 (-58))
  = Some (S754_finite false 8646911284551352 (-56))
  /\ PyFloat.int_truediv 25 1000 = Some (S754_finite false 7205759403792794 (-58))
  /\ PyFloat.int_truediv 12 100 = Some (S754_finite false 8646911284551352 (-56))
  /\ App.cost 3540000000 (PyFloat.of_int 20) = Some (PyFloat.of_int 20).
Proof. repeat split; vm_compute; reflexivity. Qed.

(** ** Approval *)

(** C5. Approving a pending booking commits: the booking becomes active
    with the time of approval as its start time, and the spot it refers to
    becomes occupied. *)
Theorem approve_pending_booking
        (db : DB) (booking_id now : Z) (b : Booking.t) :
  App.find_booking db booking_id = Some b ->
  Booking.status b = st_pending ->
  exists db' r b',
    App.admin_request_approve booking_id now db = Commit db' r
    /\ App.find_booking db' booking_id = Some b'
    /\ Booking.status b' = st_active
    /\ Booking.start_time b' = Some (App._now_utc now)
    /\ Booking.spot_id b' = Booking.spot_id b
    /\ Booking.car_id b' = Booking.car_id b
    /\ (forall s,
           App.find_spot db (Booking.spot_id b) = Some s ->
           App.find_spot db' (Booking.spot_id b)
           = Some (ParkingSpot.with_status s st_occupied)).
Proof.
  intros Hb Hp. unfold App.admin_request_approve. rewrite Hb, Hp.
  simpl negb. cbv iota.
  set (db1 := App.update_booking db booking_id _).
  assert (Hb1 : forall k st,
             App.find_booking (App.set_spot_status db1 k st) booking_id
             = Some (Booking.with_start_time (Booking.with_status b st_active)
                       (Some (App._now_utc now)))).
  { intros k st. rewrite find_booking_set_spot. unfold db1.
    rewrite find_booking_updated by reflexivity. now rewrite Hb. }
  destruct (App.find_spot db (Booking.spot_id b)) as [s|] eqn:Es.
  - pose proof (get_id _ _ _ _ Es) as [_ Hid].
    assert (Hs' : App.find_spot (App.set_spot_status db1 (ParkingSpot.id s) st_occupied)
                    (Booking.spot_id b)
                  = Some (ParkingSpot.with_status s st_occupied)).
    { rewrite Hid, find_spot_updated. unfold db1.
      rewrite find_spot_update_booking, Es. reflexivity. }
    destruct (App.find_user db (Booking.user_id b));
      eexists; eexists; eexists; (split; [reflexivity|]);
      (split; [apply Hb1|]); repeat split;
      intros s0 Hs0; inversion Hs0; subst; exact Hs'.
  - assert (Hb0 : App.find_booking db1 booking_id
                  = Some (Booking.with_start_time (Booking.with_status b st_active)
                            (Some (App._now_utc now)))).
    { unfold db1. rewrite find_booking_updated by reflexivity. now rewrite Hb. }
    destruct (App.find_user db (Booking.user_id b));
      eexists; eexists; eexists; (split; [reflexivity|]);
      (split; [apply Hb0|]); repeat split; intros s0 Hs0; discriminate.
Qed.

Lemma approve_pending_booking_witness :
  exists db' r b',
    App.admin_request_approve 1 7000000 Demo.booked = Commit db' r
    /\ App.find_booking db' 1 = Some b'
    /\ Booking.status b' = st_active
    /\ Booking.start_time b' = Some (App._now_utc 7000000)
    /\ Booking.spot_id b' = 1
    /\ Booking.car_id b' = 1
    /\ (forall s,
           App.find_spot Demo.booked 1 = Some s ->
           App.find_spot db' 1 = Some (ParkingSpot.with_status s st_occupied)).
Proof.
  apply (approve_pending_booking Demo.booked 1 7000000 _ eq_refl eq_refl).
Defined.

(** ** The order of strings and the first row of an ordered query *)

Lemma ascii_compare_lt_trans (x y z : ascii) :
  Ascii.compare x y = Lt -> Ascii.compare y z = Lt -> Ascii.compare x z = Lt.
Proof.
  unfold Ascii.compare. rewrite !N.compare_lt_iff. lia.
Qed.

Lemma ascii_compare_refl (x : ascii) : Ascii.compare x x = Eq.
Proof. unfold Ascii.compare. apply N.compare_refl. Qed.

Lemma string_compare_trans (a b c : string) :
  String.compare a b <> Gt -> String.compare b c <> Gt ->
  String.compare a c <> Gt.
Proof.
  revert b c. induction a as [|x a IH]; intros [|y b] [|z c]; simpl;
    try congruence.
  destruct (Ascii.compare x y) eqn:E1; destruct (Ascii.compare y z) eqn:E2;
    try congruence.
  - apply Ascii.compare_eq_iff in E1, E2. subst.
    rewrite ascii_compare_refl. apply IH.
  - apply Ascii.compare_eq_iff in E1. subst. rewrite E2. congruence.
  - apply Ascii.compare_eq_iff in E2. subst. rewrite E1. congruence.
  - rewrite (ascii_compare_lt_trans _ _ _ E1 E2). congruence.
Qed.

Lemma string_leb_trans (a b c : string) :
  String.leb a b = true -> String.leb b c = true -> String.leb a c = true.
Proof.
  unfold String.leb. intros Hab Hbc.
  pose proof (string_compare_trans a b c) as H.
  destruct (String.compare a b); destruct (String.compare b c);
    destruct (String.compare a c); try reflexivity; try discriminate;
    exfalso; apply H; congruence.
Qed.

Section OrderBy.

Context {A : Type} (leb : A -> A -> bool).
Hypothesis leb_total : forall x y, leb x y = true \/ leb y x = true.
Hypothesis leb_trans :
  forall x y z, leb x y = true -> leb y z = true -> leb x z = true.

Lemma insert_sorted_In (x y : A) (l : list A) :
  In y (Query.insert_sorted leb x l) <-> y = x \/ In y l.
Proof.
  induction l as [|h t IH]; simpl.
  - intuition.
  - destruct (leb x h); simpl; [intuition|]. rewrite IH. intuition.
Qed.

Lemma order_by_In (y : A) (l : list A) :
  In y (Query.order_by leb l) <-> In y l.
Proof.
  induction l as [|x l IH]; simpl; [reflexivity|].
  rewrite insert_sorted_In, IH. intuition.
Qed.

Lemma order_by_head_least (l : list A) (h : A) :
  hd_error (Query.order_by leb l) = Some h ->
  In h l /\ forall y, In y l -> leb h y = true.
Proof.
  intros H. split.
  { apply order_by_In. destruct (Query.order_by leb l); inversion H. now left. }
  revert h H. induction l as [|x l IH]; intros h H y Hy; [destruct Hy|].
  simpl in H. destruct (Query.order_by leb l) as [|h' t] eqn:E.
  - assert (l = []) as ->.
    { destruct l as [|z l']; [reflexivity|].
      assert (Hz : In z (Query.order_by leb (z :: l')))
        by (apply order_by_In; now left).
      rewrite E in Hz. destruct Hz. }
    simpl in H. inversion H; subst. destruct Hy as [->|[]].
    destruct (leb_total y y); assumption.
  - simpl in H. specialize (IH h' eq_refl).
    destruct (leb x h') eqn:Ex; inversion H; subst.
    + destruct Hy as [->|Hy].
      * destruct (leb_total y y); assumption.
      * apply (leb_trans _ h'); [exact Ex|apply IH, Hy].
    + destruct Hy as [->|Hy].
      * destruct (leb_total h y) as [Hh|Hh]; [exact Hh|congruence].
      * apply IH, Hy.
Qed.

Lemma order_by_head_exists (l : list A) :
  l <> [] -> exists h, hd_error (Query.order_by leb l) = Some h.
Proof.
  intros Hl. destruct l as [|x l]; [congruence|].
  destruct (Query.order_by leb (x :: l)) as [|h t] eqn:E; [|simpl; eauto].
  assert (Hx : In x (Query.order_by leb (x :: l)))
    by (apply order_by_In; now left).
  rewrite E in Hx. destruct Hx.
Qed.

End OrderBy.

(** What the spot query returns: an available spot of the area whose
    identifier precedes or equals, as a string, that of every available
    spot of the area; and it returns one whenever there is one. *)
Lemma first_available_spot_least (db : DB) (area_id : Z) (s : ParkingSpot.t) :
  App.first_available_spot db area_id = Some s ->
  In s (spots db)
  /\ ParkingSpot.parking_area_id s = area_id
  /\ ParkingSpot.status s = st_available
  /\ forall s',
       In s' (spots db) ->
       ParkingSpot.parking_area_id s' = area_id ->
       ParkingSpot.status s' = st_available ->
       String.leb (ParkingSpot.spot_identifier s)
                  (ParkingSpot.spot_identifier s') = true.
Proof.
  unfold App.first_available_spot. intros H.
  apply (order_by_head_least _) in H.
  - destruct H as [Hin Hmin]. apply filter_In in Hin as [Hin Hp].
    apply andb_true_iff in Hp as [Ha Hs].
    apply Z.eqb_eq in Ha. apply String.eqb_eq in Hs.
    repeat split; auto.
    intros s' Hin' Ha' Hs'. apply Hmin. apply filter_In. split; [exact Hin'|].
    rewrite Ha', Hs', Z.eqb_refl. reflexivity.
  - intros x y. apply String.leb_total.
  - intros x y z. apply string_leb_trans.
Qed.

Lemma first_available_spot_exists (db : DB) (area_id : Z) (s : ParkingSpot.t) :
  In s (spots db) ->
  ParkingSpot.parking_area_id s = area_id ->
  ParkingSpot.status s = st_available ->
  exists s0, App.first_available_spot db area_id = Some s0.
Proof.
  intros Hin Ha Hs. unfold App.first_available_spot.
  apply order_by_head_exists. intros E.
  assert (Hf : In s (filter
                       (fun s => (ParkingSpot.parking_area_id s =? area_id)
                                 && String.eqb (ParkingSpot.status s) st_available)
                       (spots db))).
  { apply filter_In. split; [exact Hin|].
    rewrite Ha, Hs, Z.eqb_refl. reflexivity. }
  rewrite E in Hf. destruct Hf.
Qed.

(** ** Spot selection *)

(** C2 (as the code has it). A booking request that is accepted, the
    user's or the admin's walk-in one, takes the spot the spot query
    returns: an available spot of the requested area whose identifier
    precedes or equals, in plain character-by-character string order, the
    identifier of every available spot of that area; the spot and the new
    booking are written together.  Ten walk-ins into an area with the spots
    [A-1 .. A-10] therefore take [A-1], [A-10], [A-2], ..., [A-9]. *)
Theorem booking_takes_least_identifier :
  (forall current_user area_id car_id now db db' r,
      App.user_book current_user area_id car_id now db = Commit db' r ->
      exists a c s,
        area_id = Some a /\ car_id = Some c
        /\ App.first_available_spot db a = Some s
        /\ db' = App.add_booking
                   (App.set_spot_status db (ParkingSpot.id s) st_reserved)
                   (User.id current_user) c (ParkingSpot.id s)
                   None None st_pending None (App._now_utc now)
        /\ In s (spots db)
        /\ ParkingSpot.parking_area_id s = a
        /\ ParkingSpot.status s = st_available
        /\ forall s',
             In s' (spots db) ->
             ParkingSpot.parking_area_id s' = a ->
             ParkingSpot.status s' = st_available ->
             String.leb (ParkingSpot.spot_identifier s)
                        (ParkingSpot.spot_identifier s') = true)
  /\ (forall license_plate area_id now db db' r,
         App.admin_offline_book license_plate area_id now db = Commit db' r ->
         exists a car db1 s,
           area_id = Some a
           /\ spots db1 = spots db
           /\ App.first_available_spot db a = Some s
           /\ db' = App.add_booking
                      (App.set_spot_status db1 (ParkingSpot.id s) st_occupied)
                      (Car.user_id car) (Car.id car) (ParkingSpot.id s)
                      (Some (App._now_utc now)) None st_active None
                      (App._now_utc now)
           /\ In s (spots db)
           /\ ParkingSpot.parking_area_id s = a
           /\ ParkingSpot.status s = st_available
           /\ forall s',
                In s' (spots db) ->
                ParkingSpot.parking_area_id s' = a ->
                ParkingSpot.status s' = st_available ->
                String.leb (ParkingSpot.spot_identifier s)
                           (ParkingSpot.spot_identifier s') = true)
  /\ Demo.spots_taken (fold_left Demo.walk_in Demo.plates Demo.garage)
     = map Some ["A-1"; "A-10"; "A-2"; "A-3"; "A-4";
                 "A-5"; "A-6"; "A-7"; "A-8"; "A-9"]%string.
Proof.
  split; [|split].
  - intros cu area_id car_id now db db' r H. unfold App.user_book in H.
    destruct (User.has_role cu "admin"); [discriminate|].
    destruct area_id as [a|]; [|discriminate].
    destruct car_id as [c|]; [|discriminate].
    destruct ((a =? 0) || (c =? 0)); [discriminate|].
    destruct (App.find_car db c) as [car|]; [|discriminate].
    destruct (negb (Car.user_id car =? User.id cu)); [discriminate|].
    destruct (App.existing_for_car db c); [discriminate|].
    destruct (App.first_available_spot db a) as [s|] eqn:Es; [|discriminate].
    inversion H; subst. exists a, c, s.
    destruct (first_available_spot_least _ _ _ Es) as (H1 & H2 & H3 & H4).
    repeat split; auto.
  - intros plate area_id now db db' r H. unfold App.admin_offline_book in H.
    destruct area_id as [a|]; [|discriminate].
    destruct (negb _ || (a =? 0)); [discriminate|].
    destruct (App.find_area db a) as [area|] eqn:Ea; [|discriminate].
    apply get_id in Ea as [_ Hid]. rewrite Hid in H.
    match type of H with
    | match ?found with _ => _ end = _ =>
        assert (Hsp : forall car db1, found = Some (car, db1) -> spots db1 = spots db);
        [|destruct found as [[car db1]|] eqn:Ef; [|discriminate]]
    end.
    { intros car db1 Hf.
      destruct (Query.first _ (cars db)); [now inversion Hf|].
      destruct (Query.first _ (users db)); [now inversion Hf|discriminate]. }
    specialize (Hsp car db1 eq_refl).
    destruct (App.existing_for_car db1 (Car.id car)); [discriminate|].
    assert (Hq : App.first_available_spot db1 a = App.first_available_spot db a)
      by (unfold App.first_available_spot; now rewrite Hsp).
    rewrite Hq in H.
    destruct (App.first_available_spot db a) as [s|] eqn:Es; [|discriminate].
    inversion H; subst. exists (ParkingArea.id area), car, db1, s.
    destruct (first_available_spot_least _ _ _ Es) as (H1 & H2 & H3 & H4).
    repeat split; auto.
  - vm_compute. reflexivity.
Qed.

Lemma booking_takes_least_identifier_witness :
  exists a c s,
    Some 1 = Some a /\ Some 2 = Some c
    /\ App.first_available_spot Demo.booked a = Some s
    /\ fst (run (App.user_book Demo.user (Some 1) (Some 2) 5) Demo.booked)
       = App.add_booking
           (App.set_spot_status Demo.booked (ParkingSpot.id s) st_reserved)
           (User.id Demo.user) c (ParkingSpot.id s)
           None None st_pending None (App._now_utc 5)
    /\ In s (spots Demo.booked)
    /\ ParkingSpot.parking_area_id s = a
    /\ ParkingSpot.status s = st_available
    /\ forall s',
         In s' (spots Demo.booked) ->
         ParkingSpot.parking_area_id s' = a ->
         ParkingSpot.status s' = st_available ->
         String.leb (ParkingSpot.spot_identifier s)
                    (ParkingSpot.spot_identifier s') = true.
Proof.
  apply (proj1 booking_takes_least_identifier
               Demo.user (Some 1) (Some 2) 5 Demo.booked _ (Redirect "info")).
  reflexivity.
Defined.

(** C2 (as stated, refuted). With [A-1] taken and [A-2 .. A-10] available,
    the next request is given [A-10], which is not the numeric-aware first
    of the available spots: that is [A-2]. *)
Lemma second_request_takes_A10 :
  exists chosen db',
    App.user_book Demo.user (Some 1) (Some 2) 5 Demo.booked
    = Commit db' (Redirect "info")
    /\ App.first_available_spot Demo.booked 1 = Some chosen
    /\ ParkingSpot.spot_identifier chosen = "A-10"%string
    /\ option_map Booking.spot_id (App.find_booking db' 2)
       = Some (ParkingSpot.id chosen)
    /\ ~ Lifecycle.natural_first Demo.booked 1 chosen
    /\ exists s2,
         Lifecycle.natural_first Demo.booked 1 s2
         /\ ParkingSpot.spot_identifier s2 = "A-2"%string.
Proof.
  eexists. eexists. split; [vm_compute; reflexivity|].
  split; [vm_compute; reflexivity|].
  split; [reflexivity|]. split; [reflexivity|]. split.
  - intros (_ & _ & _ & Hmin).
    apply (Hmin (ParkingSpot.mk 2 "A-2" st_available 1)).
    + vm_compute. tauto.
    + reflexivity.
    + reflexivity.
    + vm_compute. reflexivity.
  - exists (ParkingSpot.mk 2 "A-2" st_available 1).
    split; [|reflexivity]. repeat split.
    + vm_compute. tauto.
    + intros s' Hin Ha Hs. unfold Demo.booked in Hin. simpl in Hin.
      repeat (destruct Hin as [<-|Hin]; [try discriminate Hs; vm_compute; discriminate|]).
      destruct Hin.
Qed.

(** ** Refusals *)

Lemma get_of_In {A : Type} (id_of : A -> Z) (tbl : list A) (r : A) :
  In r tbl -> exists r', Query.get id_of tbl (id_of r) = Some r'.
Proof.
  intros Hin. unfold Query.get.
  destruct (find (fun x => id_of x =? id_of r) tbl) as [r'|] eqn:E; [eauto|].
  exfalso. pose proof (find_none _ _ E r Hin) as Hn. simpl in Hn.
  rewrite Z.eqb_refl in Hn. discriminate.
Qed.

Lemma no_available_spot (db : DB) (a : Z) :
  (forall s, In s (spots db) -> ParkingSpot.parking_area_id s = a ->
             ParkingSpot.status s <> st_available) ->
  App.first_available_spot db a = None.
Proof.
  intros H. destruct (App.first_available_spot db a) as [s|] eqn:E; [|reflexivity].
  destruct (first_available_spot_least _ _ _ E) as (Hin & Ha & Hs & _).
  exfalso. exact (H s Hin Ha Hs).
Qed.

(** A booking request for an area without an available spot, the user's
    or the admin's walk-in one, is refused and changes nothing. *)
Lemma booking_without_spot_is_refused (db : DB) (a now : Z) :
  (forall s, In s (spots db) -> ParkingSpot.parking_area_id s = a ->
             ParkingSpot.status s <> st_available) ->
  (forall u c,
      is_rejection (Lifecycle.response (Lifecycle.UserBook u (Some a) c) now db)
      = true
      /\ Lifecycle.step (Lifecycle.UserBook u (Some a) c) now db = db)
  /\ (forall plate,
         is_rejection
           (Lifecycle.response (Lifecycle.AdminOfflineBook plate (Some a)) now db)
         = true
         /\ Lifecycle.step (Lifecycle.AdminOfflineBook plate (Some a)) now db = db).
Proof.
  intros Hnone. pose proof (no_available_spot db a Hnone) as Hq.
  unfold Lifecycle.response, Lifecycle.step, run. simpl Lifecycle.handle. split.
  - intros u c. unfold App.user_book.
    destruct (User.has_role u "admin"); [split; reflexivity|].
    destruct c as [c|]; [|split; reflexivity].
    destruct ((a =? 0) || (c =? 0)); [split; reflexivity|].
    destruct (App.find_car db c) as [car|]; [|split; reflexivity].
    destruct (negb (Car.user_id car =? User.id u)); [split; reflexivity|].
    destruct (App.existing_for_car db c); [split; reflexivity|].
    rewrite Hq. split; reflexivity.
  - intros plate. unfold App.admin_offline_book.
    destruct (negb _ || (a =? 0)); [split; reflexivity|].
    destruct (App.find_area db a) as [area|] eqn:Ea; [|split; reflexivity].
    apply get_id in Ea as [_ Hid]. rewrite Hid.
    destruct (Query.first _ (cars db)) as [car|].
    + destruct (App.existing_for_car db (Car.id car)); [split; reflexivity|].
      rewrite Hq. split; reflexivity.
    + destruct (Query.first _ (users db)) as [off|]; [|split; reflexivity].
      match goal with
      | |- context [App.existing_for_car ?d ?k] =>
          destruct (App.existing_for_car d k); [split; reflexivity|]
      end.
      match goal with
      | |- context [App.first_available_spot ?d a] =>
          change (App.first_available_spot d a)
            with (App.first_available_spot db a)
      end.
      rewrite Hq. split; reflexivity.
Qed.

(** A booking request for a car that has an active or pending booking is
    refused and changes nothing. *)
Lemma booking_for_busy_car_is_refused
      (db : DB) (u : User.t) (a : option Z) (c now : Z) (b : Booking.t) :
  App.existing_for_car db c = Some b ->
  is_rejection (Lifecycle.response (Lifecycle.UserBook u a (Some c)) now db) = true
  /\ Lifecycle.step (Lifecycle.UserBook u a (Some c)) now db = db.
Proof.
  intros Hex. unfold Lifecycle.response, Lifecycle.step, run.
  simpl Lifecycle.handle. unfold App.user_book.
  destruct (User.has_role u "admin"); [split; reflexivity|].
  destruct a as [a|]; [|split; reflexivity].
  destruct ((a =? 0) || (c =? 0)); [split; reflexivity|].
  destruct (App.find_car db c) as [car|]; [|split; reflexivity].
  destruct (negb (Car.user_id car =? User.id u)); [split; reflexivity|].
  rewrite Hex. split; reflexivity.
Qed.

(** The working copy of a refused walk-in request does hold the car row it
    flushed; the database after the request does not. *)
Example refused_walk_in_drops_flushed_car :
  exists w,
    App.admin_offline_book (Some "new 77"%string) (Some 1) 9 Demo.full
    = NoCommit w (Json false 400)
    /\ List.length (cars w) = S (List.length (cars Demo.full))
    /\ cars (fst (run (App.admin_offline_book (Some "new 77"%string) (Some 1) 9)
                      Demo.full))
       = cars Demo.full.
Proof. eexists. split; [vm_compute; reflexivity|]. split; reflexivity. Qed.

(** ** Transition guards *)

(** The guards as the handlers have them: approval, rejection and
    cancellation refuse a booking that is not pending, the admin's release
    one that is not active, the user's release one that is completed; each
    refusal leaves the database as it was. *)
Lemma transition_guards (db : DB) (k now : Z) (b : Booking.t) (u : User.t) :
  App.find_booking db k = Some b ->
  (Booking.status b <> st_pending ->
   App.admin_request_approve k now db = NoCommit db (Redirect "warning")
   /\ App.admin_request_reject k db = NoCommit db (Redirect "warning")
   /\ App.user_cancel_pending u k db = NoCommit db (Abort 403))
  /\ (Booking.status b <> st_active ->
      App.admin_offline_release k now db = NoCommit db (Redirect "warning"))
  /\ (Booking.status b = st_completed ->
      Booking.user_id b = User.id u ->
      App.user_release u k now db = NoCommit db (Redirect "warning")).
Proof.
  intros Hb. split; [|split].
  - intros H. apply String.eqb_neq in H. split; [|split].
    + unfold App.admin_request_approve. now rewrite Hb, H.
    + unfold App.admin_request_reject. now rewrite Hb, H.
    + unfold App.user_cancel_pending. rewrite Hb, H. simpl.
      now rewrite orb_true_r.
  - intros H. apply String.eqb_neq in H.
    unfold App.admin_offline_release. now rewrite Hb, H.
  - intros H Hu. unfold App.user_release.
    rewrite Hb, Hu, Z.eqb_refl, H. reflexivity.
Qed.

(** C3 (the code at the failing input). Booking 1 is pending and belongs
    to the user.  The user's release does not refuse it: the booking is
    completed and billed and its reserved spot is freed, whereas the
    admin's release of the same booking is refused and changes nothing.
    Likewise the user's release of a rejected booking is carried out, and
    frees a spot that by then carries another car's active booking. *)
Theorem user_release_accepts_pending :
  option_map Booking.status (App.find_booking Demo.booked 1) = Some st_pending
  /\ (exists db',
         App.user_release Demo.user 1 3600000000 Demo.booked
         = Commit db' (Redirect "success")
         /\ option_map Booking.status (App.find_booking db' 1) = Some st_completed
         /\ option_map Booking.total_cost (App.find_booking db' 1)
            = Some (Some (PyFloat.of_int 20))
         /\ option_map ParkingSpot.status (App.find_spot Demo.booked 1)
            = Some st_reserved
         /\ option_map ParkingSpot.status (App.find_spot db' 1)
            = Some st_available)
  /\ App.admin_offline_release 1 3600000000 Demo.booked
     = NoCommit Demo.booked (Redirect "warning")
  /\ option_map Booking.status (App.find_booking Demo.reassigned 1)
     = Some st_rejected
  /\ (exists db',
         App.user_release Demo.user 1 30 Demo.reassigned
         = Commit db' (Redirect "success")
         /\ option_map Booking.status (App.find_booking db' 1) = Some st_completed
         /\ map Booking.status (Lifecycle.active_on_spot db' 1) = [st_active]
         /\ option_map ParkingSpot.status (App.find_spot db' 1)
            = Some st_available).
Proof.
  split; [reflexivity|]. split.
  - eexists. split; [vm_compute; reflexivity|]. repeat split.
  - split; [reflexivity|]. split; [reflexivity|].
    eexists. split; [vm_compute; reflexivity|]. repeat split.
Qed.

(** C6 (the code at the failing input). Booking 1 of [Demo.booked], a
    state reached through the web routes in which every booking has its
    start time, its spot and its user, is pending and belongs to the user:
    the precondition of a release, that the booking is active, fails.  The
    admin's release refuses it and changes nothing.  The user's release
    does not refuse it: it answers success and commits a database in which
    the booking row is rewritten (completed) and the spot row too (freed).
    The other preconditions of the lifecycle are enforced in every state:
    a booking request for an area without an available spot, or for a car
    with an active or pending booking, and an approval, rejection or
    cancellation of a booking that is not pending, are refused and leave
    the database as it was. *)
Theorem release_precondition_is_not_enforced :
  Lifecycle.reachable Lifecycle.web_request Demo.booked
  /\ Lifecycle.well_formed Demo.booked = true
  /\ option_map Booking.status (App.find_booking Demo.booked 1) = Some st_pending
  /\ option_map Booking.user_id (App.find_booking Demo.booked 1)
     = Some (User.id Demo.user)
  /\ (is_rejection
        (Lifecycle.response (Lifecycle.AdminOfflineRelease 1) 3600000000 Demo.booked)
      = true
      /\ Lifecycle.step (Lifecycle.AdminOfflineRelease 1) 3600000000 Demo.booked
         = Demo.booked)
  /\ (is_rejection
        (Lifecycle.response (Lifecycle.UserRelease Demo.user 1) 3600000000 Demo.booked)
      = false
      /\ Lifecycle.step (Lifecycle.UserRelease Demo.user 1) 3600000000 Demo.booked
         <> Demo.booked
      /\ option_map Booking.status
           (App.find_booking
              (Lifecycle.step (Lifecycle.UserRelease Demo.user 1) 3600000000
                 Demo.booked) 1)
         = Some st_completed
      /\ option_map ParkingSpot.status (App.find_spot Demo.booked 1)
         = Some st_reserved
      /\ option_map ParkingSpot.status
           (App.find_spot
              (Lifecycle.step (Lifecycle.UserRelease Demo.user 1) 3600000000
                 Demo.booked) 1)
         = Some st_available)
  /\ (forall db a now,
         (forall s, In s (spots db) -> ParkingSpot.parking_area_id s = a ->
                    ParkingSpot.status s <> st_available) ->
         (forall u c,
             is_rejection
               (Lifecycle.response (Lifecycle.UserBook u (Some a) c) now db) = true
             /\ Lifecycle.step (Lifecycle.UserBook u (Some a) c) now db = db)
         /\ (forall plate,
                is_rejection
                  (Lifecycle.response (Lifecycle.AdminOfflineBook plate (Some a))
                     now db) = true
                /\ Lifecycle.step (Lifecycle.AdminOfflineBook plate (Some a)) now db
                   = db))
  /\ (forall db u a c now b,
         App.existing_for_car db c = Some b ->
         is_rejection (Lifecycle.response (Lifecycle.UserBook u a (Some c)) now db)
         = true
         /\ Lifecycle.step (Lifecycle.UserBook u a (Some c)) now db = db)
  /\ (forall db k now b u,
         App.find_booking db k = Some b ->
         Booking.status b <> st_pending ->
         App.admin_request_approve k now db = NoCommit db (Redirect "warning")
         /\ App.admin_request_reject k db = NoCommit db (Redirect "warning")
         /\ App.user_cancel_pending u k db = NoCommit db (Abort 403)).
Proof.
  split; [|split; [|split; [|split; [|split; [|split; [|split; [|split]]]]]]].
  - replace Demo.booked
      with (Lifecycle.step (Lifecycle.UserBook Demo.user (Some 1) (Some 1)) 0
              Demo.garage) by (vm_compute; reflexivity).
    apply Lifecycle.reach_step; [|exact I].
    apply Lifecycle.reach_init. reflexivity.
  - vm_compute. reflexivity.
  - reflexivity.
  - reflexivity.
  - split; reflexivity.
  - assert (Hst : option_map Booking.status
                    (App.find_booking
                       (Lifecycle.step (Lifecycle.UserRelease Demo.user 1)
                          3600000000 Demo.booked) 1)
                  = Some st_completed) by (vm_compute; reflexivity).
    split; [vm_compute; reflexivity|].
    split; [intros E; rewrite E in Hst; discriminate Hst|].
    split; [exact Hst|]. split; [reflexivity|vm_compute; reflexivity].
  - exact booking_without_spot_is_refused.
  - intros db u a c now b. apply booking_for_busy_car_is_refused.
  - intros db k now b u Hb Hp.
    exact (proj1 (transition_guards db k now b u Hb) Hp).
Qed.

(** ** The effect of each request on bookings and spots *)

Lemma update_update {A : Type} (id_of : A -> Z) (k : Z) (f1 f2 : A -> A)
      (tbl : list A) :
  (forall r, id_of (f1 r) = id_of r) ->
  Query.update id_of k f2 (Query.update id_of k f1 tbl)
  = Query.update id_of k (fun r => f2 (f1 r)) tbl.
Proof.
  intros Hf. unfold Query.update. rewrite map_map. apply map_ext.
  intros r. destruct (id_of r =? k) eqn:E; [|now rewrite E].
  now rewrite Hf, E.
Qed.

Lemma status_pending_of_guard (b : Booking.t) :
  negb (String.eqb (Booking.status b) st_pending) = false ->
  Booking.status b = st_pending.
Proof.
  intros H. apply negb_false_iff in H. now apply String.eqb_eq.
Qed.

Lemma user_book_effect (strict : bool) (u : User.t) (a c : option Z)
      (now : Z) (db : DB) :
  Lifecycle.effect strict db (fst (run (App.user_book u a c now) db)).
Proof.
  unfold run, App.user_book.
  destruct (User.has_role u "admin"); [now apply Lifecycle.eff_none|].
  destruct a as [a|]; [|now apply Lifecycle.eff_none].
  destruct c as [c|]; [|now apply Lifecycle.eff_none].
  destruct ((a =? 0) || (c =? 0)); [now apply Lifecycle.eff_none|].
  destruct (App.find_car db c) as [car|]; [|now apply Lifecycle.eff_none].
  destruct (negb (Car.user_id car =? User.id u)); [now apply Lifecycle.eff_none|].
  destruct (App.existing_for_car db c) eqn:Ex; [now apply Lifecycle.eff_none|].
  destruct (App.first_available_spot db a) as [s|] eqn:Es;
    [|now apply Lifecycle.eff_none].
  destruct (first_available_spot_least _ _ _ Es) as (Hin & _ & Hav & _).
  simpl fst.
  eapply (Lifecycle.eff_book strict _ _ s _ st_reserved);
    [exact Hin|exact Hav| | | |discriminate|reflexivity|reflexivity].
  - exact Ex.
  - reflexivity.
  - reflexivity.
Qed.

Lemma admin_offline_book_effect (strict : bool) (plate : option string)
      (a : option Z) (now : Z) (db : DB) :
  Lifecycle.effect strict db (fst (run (App.admin_offline_book plate a now) db)).
Proof.
  unfold run, App.admin_offline_book.
  destruct a as [a|]; [|now apply Lifecycle.eff_none].
  destruct (negb _ || (a =? 0)); [now apply Lifecycle.eff_none|].
  destruct (App.find_area db a) as [area|]; [|now apply Lifecycle.eff_none].
  match goal with
  | |- context [match ?found with Some _ => _ | None => NoCommit db (Json false 500) end] =>
      assert (Hsame : forall car db1, found = Some (car, db1) ->
                        spots db1 = spots db /\ bookings db1 = bookings db);
      [|destruct found as [[car db1]|] eqn:Ef; [|now apply Lifecycle.eff_none]]
  end.
  { intros car db1 Hf.
    destruct (Query.first _ (cars db)); [inversion Hf; auto|].
    destruct (Query.first _ (users db)); [inversion Hf; auto|discriminate]. }
  destruct (Hsame car db1 eq_refl) as [Hsp Hbk].
  destruct (App.existing_for_car db1 (Car.id car)) eqn:Ex;
    [now apply Lifecycle.eff_none|].
  destruct (App.first_available_spot db1 (ParkingArea.id area)) as [s|] eqn:Es;
    [|now apply Lifecycle.eff_none].
  destruct (first_available_spot_least _ _ _ Es) as (Hin & _ & Hav & _).
  simpl fst. rewrite Hsp in Hin.
  eapply (Lifecycle.eff_book strict _ _ s _ st_occupied);
    [exact Hin|exact Hav| | | |discriminate
    |simpl; rewrite Hbk; reflexivity
    |simpl; rewrite Hsp; reflexivity].
  - unfold App.existing_for_car in *. rewrite <- Hbk. exact Ex.
  - reflexivity.
  - reflexivity.
Qed.

Lemma approve_effect (strict : bool) (k now : Z) (db : DB) :
  Lifecycle.effect strict db (fst (run (App.admin_request_approve k now) db)).
Proof.
  unfold run, App.admin_request_approve.
  destruct (App.find_booking db k) as [b|] eqn:Hb; [|now apply Lifecycle.eff_none].
  destruct (negb (String.eqb (Booking.status b) st_pending)) eqn:Hp;
    [now apply Lifecycle.eff_none|].
  apply status_pending_of_guard in Hp.
  set (g := fun r => Booking.with_start_time (Booking.with_status r st_active)
                       (Some (App._now_utc now))).
  assert (Hg : Lifecycle.keeps_refs g) by (intros r; repeat split).
  destruct (App.find_user db (Booking.user_id b));
    destruct (App.find_spot db (Booking.spot_id b)) as [s|] eqn:Es; simpl fst;
    apply (Lifecycle.eff_approve strict _ _ k b g Hb Hp Hg);
    try reflexivity; rewrite Es; reflexivity.
Qed.

Lemma reject_effect (strict : bool) (k : Z) (db : DB) :
  Lifecycle.effect strict db (fst (run (App.admin_request_reject k) db)).
Proof.
  unfold run, App.admin_request_reject.
  destruct (App.find_booking db k) as [b|] eqn:Hb; [|now apply Lifecycle.eff_none].
  destruct (negb (String.eqb (Booking.status b) st_pending)) eqn:Hp;
    [now apply Lifecycle.eff_none|].
  apply status_pending_of_guard in Hp.
  set (g := fun r => Booking.with_status r st_rejected).
  assert (Hg : Lifecycle.keeps_refs g) by (intros r; repeat split).
  destruct (App.find_spot db (Booking.spot_id b)) as [s|] eqn:Es; simpl fst;
    apply (Lifecycle.eff_close strict _ _ k b g Hb Hg);
    try reflexivity; try (intros _; now rewrite Hp).
  - right. exists s. split; [exact Es|reflexivity].
  - left. reflexivity.
Qed.

Lemma cancel_effect (strict : bool) (u : User.t) (k : Z) (db : DB) :
  Lifecycle.effect strict db (fst (run (App.user_cancel_pending u k) db)).
Proof.
  unfold run, App.user_cancel_pending.
  destruct (App.find_booking db k) as [b|] eqn:Hb; [|now apply Lifecycle.eff_none].
  destruct (negb (Booking.user_id b =? User.id u)); simpl orb;
    [now apply Lifecycle.eff_none|].
  destruct (negb (String.eqb (Booking.status b) st_pending)) eqn:Hp;
    [now apply Lifecycle.eff_none|].
  apply status_pending_of_guard in Hp.
  set (g := fun r => Booking.with_status r st_rejected).
  assert (Hg : Lifecycle.keeps_refs g) by (intros r; repeat split).
  destruct (App.find_spot db (Booking.spot_id b)) as [s|] eqn:Es; simpl fst;
    apply (Lifecycle.eff_close strict _ _ k b g Hb Hg);
    try reflexivity; try (intros _; now rewrite Hp).
  - right. exists s. split; [exact Es|reflexivity].
  - left. reflexivity.
Qed.

Lemma user_release_effect (strict : bool) (u : User.t) (k now : Z) (db : DB) :
  (strict = true ->
   forall b, App.find_booking db k = Some b -> Booking.status b = st_active) ->
  Lifecycle.effect strict db (fst (run (App.user_release u k now) db)).
Proof.
  intros Hguard. unfold run, App.user_release.
  destruct (App.find_booking db k) as [b|] eqn:Hb; [|now apply Lifecycle.eff_none].
  destruct (negb (Booking.user_id b =? User.id u)); [now apply Lifecycle.eff_none|].
  destruct (String.eqb (Booking.status b) st_completed);
    [now apply Lifecycle.eff_none|].
  assert (Hlive : strict = true -> active_or_pending (Booking.status b) = true).
  { intros Hs. now rewrite (Hguard Hs b eq_refl). }
  set (g1 := fun r => Booking.with_end_time (Booking.with_status r st_completed)
                        (Some (App._now_utc now))).
  assert (Hg1 : Lifecycle.keeps_refs g1) by (intros r; repeat split).
  destruct (App.find_spot db (Booking.spot_id b)) as [s|] eqn:Es.
  - destruct (Booking.start_time b) as [start|]; simpl option_map; cbv iota.
    + destruct (App.find_area db (ParkingSpot.parking_area_id s)) as [area|];
        [|now apply Lifecycle.eff_none].
      rewrite dt_sub_now.
      destruct (App.cost _ _) as [c|]; [|now apply Lifecycle.eff_none].
      simpl fst.
      set (g := fun r => Booking.with_total_cost (g1 r) (PyFloat.stored c)).
      assert (Hg : Lifecycle.keeps_refs g) by (intros r; repeat split).
      apply (Lifecycle.eff_close strict _ _ k b g Hb Hg); try reflexivity;
        try exact Hlive.
      * simpl. apply (update_update Booking.id k g1). reflexivity.
      * right. exists s. split; [exact Es|reflexivity].
    + simpl fst.
      apply (Lifecycle.eff_close strict _ _ k b g1 Hb Hg1); try reflexivity;
        try exact Hlive.
      left. reflexivity.
  - simpl option_map. simpl fst.
    apply (Lifecycle.eff_close strict _ _ k b g1 Hb Hg1); try reflexivity;
      try exact Hlive.
    left. reflexivity.
Qed.

Lemma admin_release_effect (strict : bool) (k now : Z) (db : DB) :
  Lifecycle.effect strict db (fst (run (App.admin_offline_release k now) db)).
Proof.
  unfold run, App.admin_offline_release.
  destruct (App.find_booking db k) as [b|] eqn:Hb; [|now apply Lifecycle.eff_none].
  destruct (String.eqb (Booking.status b) st_active) eqn:Ea;
    [|now apply Lifecycle.eff_none].
  apply String.eqb_eq in Ea. simpl negb. cbv iota.
  pose proof (get_id _ _ _ _ Hb) as [_ Hk].
  assert (Hlive : strict = true -> active_or_pending (Booking.status b) = true)
    by (intros _; now rewrite Ea).
  set (g1 := fun r => Booking.with_end_time (Booking.with_status r st_completed)
                        (Some (App._now_utc now))).
  assert (Hg1 : Lifecycle.keeps_refs g1) by (intros r; repeat split).
  unfold App._complete_booking. rewrite Ea, Hk.
  simpl (String.eqb _ _). cbv iota.
  destruct (App.find_spot db (Booking.spot_id b)) as [s|] eqn:Es.
  - destruct (Booking.start_time b) as [start|]; simpl option_map; cbv iota.
    + destruct (App.find_area db (ParkingSpot.parking_area_id s)) as [area|];
        [|now apply Lifecycle.eff_none].
      rewrite dt_sub_now.
      destruct (App.cost _ _) as [c|]; [|now apply Lifecycle.eff_none].
      simpl fst.
      set (g := fun r => Booking.with_total_cost (g1 r) (PyFloat.stored c)).
      assert (Hg : Lifecycle.keeps_refs g) by (intros r; repeat split).
      apply (Lifecycle.eff_close strict _ _ k b g Hb Hg); try reflexivity;
        try exact Hlive.
      * simpl. apply (update_update Booking.id k g1). reflexivity.
      * right. exists s. split; [exact Es|reflexivity].
    + simpl fst.
      apply (Lifecycle.eff_close strict _ _ k b g1 Hb Hg1); try reflexivity;
        try exact Hlive.
      right. exists s. split; [exact Es|reflexivity].
  - simpl fst.
    apply (Lifecycle.eff_close strict _ _ k b g1 Hb Hg1); try reflexivity;
      try exact Hlive.
    left. reflexivity.
Qed.

(** Every route of [app.py] has one of the four effects; with the user's
    release asked for active bookings only, a closed booking was live. *)
Lemma step_effect (strict : bool) (req : Lifecycle.Request) (now : Z) (db : DB) :
  (if strict then Lifecycle.guarded_request db req
   else Lifecycle.web_request db req) ->
  Lifecycle.effect strict db (Lifecycle.step req now db).
Proof.
  intros Hreq. unfold Lifecycle.step.
  destruct req; simpl Lifecycle.handle.
  - apply user_book_effect.
  - apply admin_offline_book_effect.
  - apply approve_effect.
  - apply reject_effect.
  - apply cancel_effect.
  - apply user_release_effect. intros ->. exact Hreq.
  - apply admin_release_effect.
  - destruct strict; destruct Hreq.
Qed.

(** ** Counting rows *)

Section Counting.

Context {A : Type}.

Lemma filter_map_length_le (p : A -> bool) (h : A -> A) (l : list A) :
  (forall r, In r l -> p (h r) = true -> p r = true) ->
  (List.length (filter p (map h l)) <= List.length (filter p l))%nat.
Proof.
  induction l as [|x l IH]; intros H; simpl; [lia|].
  assert (IH' := IH (fun r Hr => H r (or_intror Hr))).
  destruct (p (h x)) eqn:E.
  - rewrite (H x (or_introl eq_refl) E). simpl. lia.
  - destruct (p x); simpl; lia.
Qed.

Lemma first_none_filter (p : A -> bool) (l : list A) :
  Query.first p l = None -> filter p l = [].
Proof.
  unfold Query.first. induction l as [|x l IH]; simpl; [reflexivity|].
  destruct (p x); [discriminate|exact IH].
Qed.

Lemma two_members (l : list A) (x y : A) :
  In x l -> In y l -> x <> y -> (2 <= List.length l)%nat.
Proof.
  destruct l as [|a [|b l]]; simpl; intros Hx Hy Hne; try lia.
  destruct Hx as [<-|[]]. destruct Hy as [<-|[]]. congruence.
Qed.

Lemma in_update (id_of : A -> Z) (k : Z) (g : A -> A) (l : list A) (r' : A) :
  In r' (Query.update id_of k g l) ->
  exists r, In r l /\ r' = if id_of r =? k then g r else r.
Proof.
  unfold Query.update. intros H. apply in_map_iff in H as (r & <- & Hr).
  exists r. auto.
Qed.

Lemma update_ids (id_of : A -> Z) (k : Z) (g : A -> A) (l : list A) :
  (forall r, id_of (g r) = id_of r) ->
  map id_of (Query.update id_of k g l) = map id_of l.
Proof.
  intros Hg. unfold Query.update. rewrite map_map. apply map_ext.
  intros r. destruct (id_of r =? k); [apply Hg|reflexivity].
Qed.

Lemma get_unique (id_of : A -> Z) (l : list A) (k : Z) (b r : A) :
  NoDup (map id_of l) ->
  Query.get id_of l k = Some b ->
  In r l -> id_of r = k -> r = b.
Proof.
  unfold Query.get. induction l as [|x l IH]; simpl; intros Hnd Hb Hr Hk;
    [destruct Hr|].
  inversion Hnd as [|? ? Hnotin Hnd']; subst.
  destruct (id_of x =? id_of r) eqn:E.
  - inversion Hb; subst. destruct Hr as [->|Hr]; [reflexivity|].
    exfalso. apply Hnotin. apply Z.eqb_eq in E. rewrite E.
    now apply in_map.
  - destruct Hr as [->|Hr]; [rewrite Z.eqb_refl in E; discriminate|].
    now apply IH.
Qed.

Lemma fold_max_bound (l : list Z) (x : Z) :
  In x l -> x <= fold_right Z.max 0 l.
Proof.
  induction l as [|y l IH]; simpl; intros H; [destruct H|].
  destruct H as [->|H]; [lia|]. specialize (IH H). lia.
Qed.

Lemma next_id_fresh (id_of : A -> Z) (l : list A) :
  ~ In (Query.next_id id_of l) (map id_of l).
Proof.
  unfold Query.next_id. intros H. apply fold_max_bound in H. lia.
Qed.

End Counting.

(** ** Invariants of the lifecycle *)

Lemma effect_unique_ids (strict : bool) (db db' : DB) :
  Lifecycle.effect strict db db' ->
  Lifecycle.unique_ids db -> Lifecycle.unique_ids db'.
Proof.
  unfold Lifecycle.unique_ids.
  intros [->|s row st _ _ _ Hid _ _ Hbk _|k b g _ _ Hg _ Hbk _|k b g _ Hg _ Hbk _ _] Hnd.
  - exact Hnd.
  - rewrite Hbk, map_app. simpl.
    apply NoDup_app; [exact Hnd|constructor; [intros []|constructor]|].
    intros x Hx [<-|[]]. rewrite Hid in Hx.
    exact (next_id_fresh _ _ Hx).
  - rewrite Hbk, update_ids; [exact Hnd|apply Hg].
  - rewrite Hbk, update_ids; [exact Hnd|apply Hg].
Qed.

Lemma effect_one_live_per_car (strict : bool) (db db' : DB) :
  Lifecycle.effect strict db db' ->
  Lifecycle.unique_ids db ->
  Lifecycle.one_live_booking_per_car db ->
  Lifecycle.one_live_booking_per_car db'.
Proof.
  intros Heff Hnd Hinv c. unfold Lifecycle.live_for_car.
  destruct Heff as [->|s row st _ _ Hex _ _ _ Hbk _
                   |k b g Hb Hp Hg Hact Hbk _|k b g Hb Hg Hdead Hbk _ _].
  - apply Hinv.
  - rewrite Hbk, filter_app, length_app. simpl.
    destruct (Booking.car_id row =? c) eqn:E.
    + apply Z.eqb_eq in E. subst c.
      unfold App.existing_for_car in Hex.
      rewrite (first_none_filter _ _ Hex). simpl.
      destruct (active_or_pending (Booking.status row)); simpl; lia.
    + simpl. specialize (Hinv c). unfold Lifecycle.live_for_car in Hinv. lia.
  - rewrite Hbk. unfold Query.update.
    eapply Nat.le_trans; [apply filter_map_length_le|apply (Hinv c)].
    intros r Hr H. destruct (Booking.id r =? k) eqn:E; [|exact H].
    apply Z.eqb_eq in E.
    assert (r = b) as ->
        by (apply (get_unique Booking.id (bookings db) k b r Hnd Hb Hr E)).
    destruct (Hg b) as (_ & Hcar & _). rewrite Hcar, Hact in H.
    rewrite Hp. exact H.
  - rewrite Hbk. unfold Query.update.
    eapply Nat.le_trans; [apply filter_map_length_le|apply (Hinv c)].
    intros r Hr H. destruct (Booking.id r =? k) eqn:E; [|exact H].
    rewrite Hdead, andb_false_r in H. discriminate.
Qed.

Lemma reachable_web_invariant (db : DB) :
  Lifecycle.reachable Lifecycle.web_request db ->
  Lifecycle.unique_ids db /\ Lifecycle.one_live_booking_per_car db.
Proof.
  induction 1 as [db Hinit|db req now _ [Hnd Hinv] Hreq].
  - unfold Lifecycle.unique_ids, Lifecycle.one_live_booking_per_car,
      Lifecycle.live_for_car. rewrite Hinit. simpl.
    split; [constructor|intros _; lia].
  - pose proof (step_effect false req now db Hreq) as Heff. split.
    + exact (effect_unique_ids _ _ _ Heff Hnd).
    + exact (effect_one_live_per_car _ _ _ Heff Hnd Hinv).
Qed.

(** C4 (as the code has it). In every state reached through the routes of
    [app.py] (booking request, walk-in booking, approval, rejection,
    cancellation and both releases) each car has at most one active or
    pending booking, and each of these routes keeps it so.  The admin API's
    [POST /bookings] stores the row it is given without this check and is
    not among them. *)
Theorem one_live_booking_per_car_on_web_routes :
  (forall db,
      Lifecycle.reachable Lifecycle.web_request db ->
      Lifecycle.one_live_booking_per_car db)
  /\ (forall db req now,
         Lifecycle.web_request db req ->
         Lifecycle.unique_ids db ->
         Lifecycle.one_live_booking_per_car db ->
         Lifecycle.one_live_booking_per_car (Lifecycle.step req now db)).
Proof.
  split.
  - intros db H. apply (reachable_web_invariant db H).
  - intros db req now Hreq Hnd Hinv.
    exact (effect_one_live_per_car _ _ _ (step_effect false req now db Hreq) Hnd Hinv).
Qed.

Lemma one_live_booking_per_car_on_web_routes_witness :
  Lifecycle.one_live_booking_per_car
    (Lifecycle.step (Lifecycle.AdminApprove 1) 0
       (Lifecycle.step (Lifecycle.UserBook Demo.user (Some 1) (Some 1)) 0
          Demo.garage)).
Proof.
  apply (proj1 one_live_booking_per_car_on_web_routes).
  apply Lifecycle.reach_step; [|exact I].
  apply Lifecycle.reach_step; [|exact I].
  apply Lifecycle.reach_init. reflexivity.
Defined.

(** C4 (as stated, refuted). Two inserts through the admin API leave car 1
    with two active bookings, in a state every request may reach. *)
Lemma api_insert_breaks_one_live_per_car :
  Lifecycle.reachable Lifecycle.any_request Demo.inserted_twice
  /\ List.length (Lifecycle.live_for_car Demo.inserted_twice 1) = 2%nat
  /\ ~ Lifecycle.one_live_booking_per_car Demo.inserted_twice.
Proof.
  split; [|split].
  - unfold Demo.inserted_twice.
    apply Lifecycle.reach_step; [|exact I].
    apply Lifecycle.reach_step; [|exact I].
    apply Lifecycle.reach_init. reflexivity.
  - reflexivity.
  - intros H. specialize (H 1).
    change (List.length (Lifecycle.live_for_car Demo.inserted_twice 1))
      with 2%nat in H. lia.
Qed.

Lemma live_on_spot_In (db : DB) (sigma : Z) (b : Booking.t) :
  In b (Lifecycle.live_on_spot db sigma) <->
  In b (bookings db) /\ Booking.spot_id b = sigma
  /\ active_or_pending (Booking.status b) = true.
Proof.
  unfold Lifecycle.live_on_spot. rewrite filter_In, andb_true_iff, Z.eqb_eq.
  tauto.
Qed.

Lemma effect_spot_invariant (db db' : DB) :
  Lifecycle.effect true db db' ->
  Lifecycle.unique_ids db ->
  Lifecycle.one_live_booking_per_spot db ->
  Lifecycle.live_spots_taken db ->
  Lifecycle.one_live_booking_per_spot db' /\ Lifecycle.live_spots_taken db'.
Proof.
  intros Heff Hnd Hone Htaken.
  destruct Heff as [->|s row st Hs Hav _ _ Hrow Hst Hbk Hsp
                   |k b g Hb Hp Hg Hact Hbk Hsp|k b g Hb Hg Hdead Hbk Hsp Hlive].
  - split; assumption.
  - (* a new booking on an available spot *)
    assert (Hfree : forall b2, In b2 (bookings db) ->
                      active_or_pending (Booking.status b2) = true ->
                      Booking.spot_id b2 <> ParkingSpot.id s).
    { intros b2 Hin Hl Heq. exact (Htaken b2 s Hin Hl Hs (eq_sym Heq) Hav). }
    split.
    + intros sigma. unfold Lifecycle.live_on_spot.
      rewrite Hbk, filter_app, length_app. simpl.
      destruct (Booking.spot_id row =? sigma) eqn:E.
      * apply Z.eqb_eq in E.
        assert (Hnil : Lifecycle.live_on_spot db sigma = []).
        { destruct (Lifecycle.live_on_spot db sigma) as [|x l] eqn:El;
            [reflexivity|].
          assert (Hx : In x (Lifecycle.live_on_spot db sigma))
            by (rewrite El; now left).
          apply live_on_spot_In in Hx as (Hin & Hsig & Hl).
          exfalso. apply (Hfree x Hin Hl). congruence. }
        unfold Lifecycle.live_on_spot in Hnil. rewrite Hnil. simpl.
        destruct (active_or_pending (Booking.status row)); simpl; lia.
      * simpl. specialize (Hone sigma).
        unfold Lifecycle.live_on_spot in Hone. lia.
    + intros b2 sp Hb2 Hl Hsp2 Hid. rewrite Hsp in Hsp2.
      apply in_update in Hsp2 as (x & Hx & ->).
      destruct (ParkingSpot.id x =? ParkingSpot.id s) eqn:E; [exact Hst|].
      rewrite Hbk in Hb2. apply in_app_or in Hb2 as [Hb2|[<-|[]]].
      * exact (Htaken b2 x Hb2 Hl Hx Hid).
      * rewrite Hrow, Z.eqb_neq in *. congruence.
  - (* the activation of a pending booking *)
    assert (Hsame : forall r, In r (bookings db) ->
              let r' := if Booking.id r =? k then g r else r in
              active_or_pending (Booking.status r') = true ->
              active_or_pending (Booking.status r) = true
              /\ Booking.spot_id r' = Booking.spot_id r).
    { intros r Hr. cbv zeta. destruct (Booking.id r =? k) eqn:E; [|auto].
      apply Z.eqb_eq in E.
      assert (r = b) as -> by (apply (get_unique Booking.id (bookings db) k b r Hnd Hb Hr E)).
      intros _. rewrite Hp. split; [reflexivity|apply Hg]. }
    split.
    + intros sigma. unfold Lifecycle.live_on_spot. rewrite Hbk.
      unfold Query.update.
      eapply Nat.le_trans; [apply filter_map_length_le|apply (Hone sigma)].
      intros r Hr H. apply andb_true_iff in H as [H1 H2].
      destruct (Hsame r Hr H2) as [Hl Hspot].
      rewrite Hspot in H1. now rewrite H1, Hl.
    + intros b2 sp Hb2 Hl Hsp2 Hid. rewrite Hbk in Hb2.
      apply in_update in Hb2 as (r & Hr & ->).
      destruct (Hsame r Hr Hl) as [Hlr Hspot]. rewrite Hspot in Hid.
      destruct (App.find_spot db (Booking.spot_id b)) as [s|].
      * rewrite Hsp in Hsp2. apply in_update in Hsp2 as (x & Hx & ->).
        destruct (ParkingSpot.id x =? ParkingSpot.id s); [discriminate|].
        exact (Htaken r x Hr Hlr Hx Hid).
      * rewrite Hsp in Hsp2. exact (Htaken r sp Hr Hlr Hsp2 Hid).
  - (* the closing of a live booking *)
    pose proof (get_id _ _ _ _ Hb) as [Hbin Hbk_id].
    split.
    + intros sigma. unfold Lifecycle.live_on_spot. rewrite Hbk.
      unfold Query.update.
      eapply Nat.le_trans; [apply filter_map_length_le|apply (Hone sigma)].
      intros r Hr H. destruct (Booking.id r =? k); [|exact H].
      rewrite Hdead, andb_false_r in H. discriminate.
    + intros b2 sp Hb2 Hl Hsp2 Hid. rewrite Hbk in Hb2.
      apply in_update in Hb2 as (r & Hr & ->).
      destruct (Booking.id r =? k) eqn:E; [rewrite Hdead in Hl; discriminate|].
      destruct Hsp as [Hsp|(s & Hfs & Hsp)]; rewrite Hsp in Hsp2.
      * exact (Htaken r sp Hr Hl Hsp2 Hid).
      * apply in_update in Hsp2 as (x & Hx & ->).
        destruct (ParkingSpot.id x =? ParkingSpot.id s) eqn:Ex;
          [|exact (Htaken r x Hr Hl Hx Hid)].
        exfalso. apply Z.eqb_eq in Ex. simpl in Hid.
        apply get_id in Hfs as [_ Hsid].
        assert (Hspot : Booking.spot_id r = Booking.spot_id b) by congruence.
        assert (Hne : r <> b).
        { intros ->. rewrite Hbk_id, Z.eqb_refl in E. discriminate. }
        pose proof (two_members (Lifecycle.live_on_spot db (Booking.spot_id b)) r b)
          as Htwo.
        specialize (Hone (Booking.spot_id b)).
        assert (2 <= List.length (Lifecycle.live_on_spot db (Booking.spot_id b)))%nat.
        { apply Htwo; [| |exact Hne]; apply live_on_spot_In; auto. }
        lia.
Qed.

Lemma filter_length_le_impl {A : Type} (p q : A -> bool) (l : list A) :
  (forall x, p x = true -> q x = true) ->
  (List.length (filter p l) <= List.length (filter q l))%nat.
Proof.
  intros H. induction l as [|x l IH]; simpl; [lia|].
  destruct (p x) eqn:E.
  - rewrite (H x E). simpl. lia.
  - destruct (q x); simpl; lia.
Qed.

Lemma one_live_one_active (db : DB) :
  Lifecycle.one_live_booking_per_spot db ->
  Lifecycle.one_active_booking_per_spot db.
Proof.
  intros H sigma. eapply Nat.le_trans; [|apply (H sigma)].
  apply filter_length_le_impl. intros b Hb.
  apply andb_true_iff in Hb as [H1 H2]. apply String.eqb_eq in H2.
  rewrite H1, H2. reflexivity.
Qed.

Lemma reachable_guarded_invariant (db : DB) :
  Lifecycle.reachable Lifecycle.guarded_request db ->
  Lifecycle.unique_ids db
  /\ Lifecycle.one_live_booking_per_spot db
  /\ Lifecycle.live_spots_taken db.
Proof.
  induction 1 as [db Hinit|db req now _ (Hnd & Hone & Htaken) Hreq].
  - unfold Lifecycle.unique_ids, Lifecycle.one_live_booking_per_spot,
      Lifecycle.live_spots_taken, Lifecycle.live_on_spot.
    rewrite Hinit. simpl.
    split; [constructor|]. split; [intros _; lia|intros b sp []].
  - pose proof (step_effect true req now db Hreq) as Heff.
    split; [exact (effect_unique_ids _ _ _ Heff Hnd)|].
    exact (effect_spot_invariant _ _ Heff Hnd Hone Htaken).
Qed.

(** C7 (as the code has it). In every state reached through the routes of
    [app.py], with the user's release asked for active bookings only, at
    most one booking of a spot is active (indeed at most one is active or
    pending, and the spot of such a booking is not available); each of
    these requests keeps it so.  The admin API's [POST /bookings], which
    stores the row it is given, is not among them. *)
Theorem one_active_booking_per_spot_on_guarded_routes :
  (forall db,
      Lifecycle.reachable Lifecycle.guarded_request db ->
      Lifecycle.one_active_booking_per_spot db)
  /\ (forall db req now,
         Lifecycle.guarded_request db req ->
         Lifecycle.unique_ids db ->
         Lifecycle.one_live_booking_per_spot db ->
         Lifecycle.live_spots_taken db ->
         Lifecycle.one_live_booking_per_spot (Lifecycle.step req now db)
         /\ Lifecycle.live_spots_taken (Lifecycle.step req now db)
         /\ Lifecycle.one_active_booking_per_spot (Lifecycle.step req now db)).
Proof.
  split.
  - intros db H. apply one_live_one_active.
    apply (reachable_guarded_invariant db H).
  - intros db req now Hreq Hnd Hone Htaken.
    destruct (effect_spot_invariant _ _ (step_effect true req now db Hreq)
                Hnd Hone Htaken) as [H1 H2].
    repeat split; try assumption. now apply one_live_one_active.
Qed.

Lemma one_active_booking_per_spot_on_guarded_routes_witness :
  Lifecycle.one_active_booking_per_spot
    (Lifecycle.step (Lifecycle.UserRelease Demo.user 1) 4200000000
       (Lifecycle.step (Lifecycle.AdminApprove 1) 0
          (Lifecycle.step (Lifecycle.UserBook Demo.user (Some 1) (Some 1)) 0
             Demo.garage))).
Proof.
  apply (proj1 one_active_booking_per_spot_on_guarded_routes).
  apply Lifecycle.reach_step.
  - apply Lifecycle.reach_step; [|exact I].
    apply Lifecycle.reach_step; [|exact I].
    apply Lifecycle.reach_init. reflexivity.
  - intros b Hb. vm_compute in Hb. inversion Hb. reflexivity.
Defined.

(** C7 (as stated, refuted). Two inserts through the admin API leave spot
    1 with two active bookings, in a state every request may reach. *)
Lemma api_insert_breaks_one_active_per_spot :
  Lifecycle.reachable Lifecycle.any_request Demo.inserted_twice
  /\ map Booking.status (Lifecycle.active_on_spot Demo.inserted_twice 1)
     = [st_active; st_active]
  /\ ~ Lifecycle.one_active_booking_per_spot Demo.inserted_twice.
Proof.
  split; [|split].
  - unfold Demo.inserted_twice.
    apply Lifecycle.reach_step; [|exact I].
    apply Lifecycle.reach_step; [|exact I].
    apply Lifecycle.reach_init. reflexivity.
  - reflexivity.
  - intros H. specialize (H 1).
    change (List.length (Lifecycle.active_on_spot Demo.inserted_twice 1))
      with 2%nat in H. lia.
Qed.

(** The routes of [app.py] alone also reach two active bookings on one
    spot, through the user's release of a rejected booking. *)
Example release_of_rejected_booking_double_parks :
  Lifecycle.reachable Lifecycle.web_request Demo.double_parked
  /\ map (fun b => (Booking.id b, Booking.status b))
         (Lifecycle.active_on_spot Demo.double_parked 1)
     = [(2, st_active); (3, st_active)].
Proof.
  split; [|vm_compute; reflexivity].
  unfold Demo.double_parked.
  repeat (apply Lifecycle.reach_step; [|exact I]).
  apply Lifecycle.reach_init. reflexivity.
Qed.

(* ================================================================== *)
(** * Further properties of the code *)
(* ================================================================== *)

(** ** The natural sort of the spot-status endpoint *)



















(** ** Cancel, reject and the way back to an available spot *)

(** X3. For the owner of a pending booking, cancelling it writes exactly
    what the admin's rejection writes; anyone else is answered 403 and
    nothing changes. *)
Theorem cancel_is_reject_for_owner
        (u : User.t) (k : Z) (db : DB) (b : Booking.t) :
  App.find_booking db k = Some b ->
  (Booking.user_id b = User.id u ->
   Booking.status b = st_pending ->
   exists db',
     App.user_cancel_pending u k db = Commit db' (Redirect "info")
     /\ App.admin_request_reject k db = Commit db' (Redirect "info")
     /\ option_map Booking.status (App.find_booking db' k) = Some st_rejected)
  /\ (Booking.user_id b <> User.id u ->
      App.user_cancel_pending u k db = NoCommit db (Abort 403)).
Proof.
  intros Hb. split.
  - intros Hu Hp. unfold App.user_cancel_pending, App.admin_request_reject.
    rewrite Hb, Hu, Hp, Z.eqb_refl. simpl.
    eexists. split; [reflexivity|]. split; [reflexivity|].
    rewrite find_booking_updated by reflexivity.
    destruct (App.find_spot db (Booking.spot_id b));
      [rewrite find_booking_set_spot|]; rewrite Hb; reflexivity.
  - intros Hu. apply Z.eqb_neq in Hu.
    unfold App.user_cancel_pending. now rewrite Hb, Hu.
Qed.

Lemma cancel_is_reject_for_owner_witness :
  exists db',
    App.user_cancel_pending Demo.user 1 Demo.booked = Commit db' (Redirect "info")
    /\ App.admin_request_reject 1 Demo.booked = Commit db' (Redirect "info")
    /\ option_map Booking.status (App.find_booking db' 1) = Some st_rejected.
Proof.
  apply (proj1 (cancel_is_reject_for_owner Demo.user 1 Demo.booked _ eq_refl));
    reflexivity.
Defined.

Lemma user_book_commits_on_first_spot
      (u : User.t) (area_id car_id : option Z) (now : Z) (db db' : DB)
      (r : Response) :
  App.user_book u area_id car_id now db = Commit db' r ->
  exists a c s,
    area_id = Some a /\ car_id = Some c
    /\ App.first_available_spot db a = Some s
    /\ db' = App.add_booking
               (App.set_spot_status db (ParkingSpot.id s) st_reserved)
               (User.id u) c (ParkingSpot.id s)
               None None st_pending None (App._now_utc now)
    /\ In s (spots db)
    /\ ParkingSpot.parking_area_id s = a
    /\ ParkingSpot.status s = st_available
    /\ App.existing_for_car db c = None
    /\ (exists car, App.find_car db c = Some car /\ Car.user_id car = User.id u)
    /\ User.has_role u "admin" = false
    /\ r = Redirect "info".
Proof.
  intros H. unfold App.user_book in H.
  destruct (User.has_role u "admin") eqn:Hadm; [discriminate|].
  destruct area_id as [a|]; [|discriminate].
  destruct car_id as [c|]; [|discriminate].
  destruct ((a =? 0) || (c =? 0)); [discriminate|].
  destruct (App.find_car db c) as [car|] eqn:Hcar; [|discriminate].
  destruct (negb (Car.user_id car =? User.id u)) eqn:Hown; [discriminate|].
  destruct (App.existing_for_car db c) eqn:Hex; [discriminate|].
  destruct (App.first_available_spot db a) as [s|] eqn:Es; [|discriminate].
  inversion H; subst. exists a, c, s.
  destruct (first_available_spot_least _ _ _ Es) as (H1 & H2 & H3 & _).
  apply negb_false_iff, Z.eqb_eq in Hown.
  repeat split; auto. exists car. auto.
Qed.

Lemma get_app_fresh {A : Type} (id_of : A -> Z) (l : list A) (row : A) :
  ~ In (id_of row) (map id_of l) ->
  Query.get id_of (l ++ [row]) (id_of row) = Some row.
Proof.
  intros H. unfold Query.get. induction l as [|x l IH]; simpl.
  - now rewrite Z.eqb_refl.
  - destruct (id_of x =? id_of row) eqn:E.
    + exfalso. apply H. left. now apply Z.eqb_eq.
    + apply IH. intros Hin. apply H. now right.
Qed.

Lemma get_app_found {A : Type} (id_of : A -> Z) (l l' : list A) (k : Z) (r : A) :
  Query.get id_of l k = Some r -> Query.get id_of (l ++ l') k = Some r.
Proof.
  unfold Query.get. induction l as [|x l IH]; simpl; [discriminate|].
  destruct (id_of x =? k); [auto|exact IH].
Qed.

Lemma update_fixed {A : Type} (id_of : A -> Z) (k : Z) (f : A -> A) (l : list A) :
  (forall r, In r l -> id_of r = k -> f r = r) ->
  Query.update id_of k f l = l.
Proof.
  intros H. unfold Query.update. rewrite <- (map_id l) at 2.
  apply map_ext_in. intros r Hr.
  destruct (id_of r =? k) eqn:E; [|reflexivity].
  apply H; [exact Hr|now apply Z.eqb_eq].
Qed.

Lemma update_app {A : Type} (id_of : A -> Z) (k : Z) (f : A -> A) (l l' : list A) :
  Query.update id_of k f (l ++ l')
  = Query.update id_of k f l ++ Query.update id_of k f l'.
Proof. unfold Query.update. apply map_app. Qed.

Lemma spot_status_back (s : ParkingSpot.t) (st : string) :
  ParkingSpot.status s = st_available ->
  ParkingSpot.with_status (ParkingSpot.with_status s st) st_available = s.
Proof. destruct s; simpl; intros ->; reflexivity. Qed.

(** X4. A booking request that is cancelled by its user (or rejected by
    the admin) before approval gives the spot back: with unique spot keys,
    the spots table is again what it was before the request, and the
    bookings table has gained one rejected booking. *)
Theorem book_then_cancel_restores_spots
        (u : User.t) (a c : option Z) (now : Z) (db db1 : DB) :
  NoDup (map ParkingSpot.id (spots db)) ->
  App.user_book u a c now db = Commit db1 (Redirect "info") ->
  exists db2 row,
    App.user_cancel_pending u (Query.next_id Booking.id (bookings db)) db1
    = Commit db2 (Redirect "info")
    /\ App.admin_request_reject (Query.next_id Booking.id (bookings db)) db1
       = Commit db2 (Redirect "info")
    /\ spots db2 = spots db
    /\ bookings db2 = bookings db ++ [row]
    /\ Booking.id row = Query.next_id Booking.id (bookings db)
    /\ Booking.status row = st_rejected
    /\ cars db2 = cars db.
Proof.
  intros Hnd Hbook.
  destruct (user_book_commits_on_first_spot u a c now db db1 _ Hbook)
    as (a0 & c0 & s & -> & -> & Hq & -> & Hin & _ & Hav & _).
  set (k := Query.next_id Booking.id (bookings db)).
  set (row := {| Booking.id := k; Booking.user_id := User.id u;
                 Booking.car_id := c0; Booking.spot_id := ParkingSpot.id s;
                 Booking.start_time := Some (App._now_utc now);
                 Booking.end_time := None; Booking.status := st_pending;
                 Booking.total_cost := None |}).
  set (db0 := App.set_spot_status db (ParkingSpot.id s) st_reserved).
  assert (Hfind : App.find_booking
                    (App.add_booking db0 (User.id u) c0 (ParkingSpot.id s)
                       None None st_pending None (App._now_utc now)) k
                  = Some row).
  { unfold App.find_booking, App.add_booking. simpl.
    apply (get_app_fresh Booking.id (bookings db) row).
    apply next_id_fresh. }
  destruct (get_of_In ParkingSpot.id _ _ Hin) as [s0 Hs0].
  assert (s0 = s) as ->.
  { symmetry. apply (get_unique ParkingSpot.id (spots db) (ParkingSpot.id s) s0 s Hnd Hs0 Hin).
    reflexivity. }
  assert (Hspot : App.find_spot
                    (App.add_booking db0 (User.id u) c0 (ParkingSpot.id s)
                       None None st_pending None (App._now_utc now))
                    (ParkingSpot.id s)
                  = Some (ParkingSpot.with_status s st_reserved)).
  { change (App.find_spot db0 (ParkingSpot.id s)
            = Some (ParkingSpot.with_status s st_reserved)).
    unfold db0. rewrite find_spot_updated. unfold App.find_spot. now rewrite Hs0. }
  assert (Hcancel :
            App.user_cancel_pending u k
              (App.add_booking db0 (User.id u) c0 (ParkingSpot.id s)
                 None None st_pending None (App._now_utc now))
            = App.admin_request_reject k
                (App.add_booking db0 (User.id u) c0 (ParkingSpot.id s)
                   None None st_pending None (App._now_utc now))).
  { unfold App.user_cancel_pending, App.admin_request_reject.
    rewrite Hfind. simpl. now rewrite Z.eqb_refl. }
  rewrite Hcancel. unfold App.admin_request_reject. rewrite Hfind.
  change (Booking.spot_id row) with (ParkingSpot.id s). rewrite Hspot.
  simpl negb. cbv iota.
  eexists. exists (Booking.with_status row st_rejected).
  split; [reflexivity|]. split; [reflexivity|]. split; [|split; [|auto]].
  - simpl. rewrite (update_update ParkingSpot.id) by reflexivity.
    apply update_fixed. intros r Hr Hid.
    assert (r = s) as ->
        by (apply (get_unique ParkingSpot.id (spots db) (ParkingSpot.id s) s r Hnd Hs0 Hr Hid)).
    now apply spot_status_back.
  - simpl. rewrite update_app. f_equal.
    + apply update_absent. intros r Hr Hid.
      apply (next_id_fresh Booking.id (bookings db)).
      fold k. rewrite <- Hid. now apply in_map.
    + simpl. unfold k. now rewrite Z.eqb_refl.
Qed.

Lemma book_then_cancel_restores_spots_witness :
  exists db2 row,
    App.user_cancel_pending Demo.user
      (Query.next_id Booking.id (bookings Demo.garage)) Demo.booked
    = Commit db2 (Redirect "info")
    /\ App.admin_request_reject
         (Query.next_id Booking.id (bookings Demo.garage)) Demo.booked
       = Commit db2 (Redirect "info")
    /\ spots db2 = spots Demo.garage
    /\ bookings db2 = bookings Demo.garage ++ [row]
    /\ Booking.id row = Query.next_id Booking.id (bookings Demo.garage)
    /\ Booking.status row = st_rejected
    /\ cars db2 = cars Demo.garage.
Proof.
  apply (book_then_cancel_restores_spots Demo.user (Some 1) (Some 1) 0
           Demo.garage Demo.booked).
  - repeat (constructor; [simpl; intuition discriminate|]). constructor.
  - reflexivity.
Defined.

(** ** What no route changes *)

Lemma final_update (db : DB) (k0 k : Z) (g : Booking.t -> Booking.t)
      (b : Booking.t) :
  App.find_booking db k = Some b ->
  k <> k0 ->
  (forall r, Booking.id (g r) = Booking.id r) ->
  App.find_booking (App.update_booking db k0 g) k = Some b.
Proof.
  intros Hb Hne Hg. unfold App.find_booking, App.update_booking. simpl.
  rewrite (get_update_other Booking.id k0 k g _ Hg Hne). exact Hb.
Qed.

Lemma final_add (db : DB) (k : Z) (b : Booking.t) u c s st en status cost t :
  App.find_booking db k = Some b ->
  App.find_booking (App.add_booking db u c s st en status cost t) k = Some b.
Proof.
  intros Hb. unfold App.find_booking, App.add_booking. simpl.
  now apply get_app_found.
Qed.

Ltac final_step Hb Hne :=
  repeat first
    [ rewrite find_booking_set_spot
    | apply final_update; [|exact Hne|reflexivity]
    | apply final_add ];
  try exact Hb.

(** X5. A completed booking is final: whatever request is served next,
    through the routes of [app.py] or the admin API's insert, the booking
    found under its key is the same row, with the same end time and cost. *)
Theorem completed_booking_is_final
        (req : Lifecycle.Request) (now : Z) (db : DB) (k : Z) (b : Booking.t) :
  App.find_booking db k = Some b ->
  Booking.status b = st_completed ->
  App.find_booking (Lifecycle.step req now db) k = Some b.
Proof.
  intros Hb Hc.
  assert (Hother : forall k0 b0,
             App.find_booking db k0 = Some b0 ->
             Booking.status b0 <> st_completed -> k <> k0).
  { intros k0 b0 H0 Hn ->. rewrite Hb in H0. inversion H0; subst. auto. }
  unfold Lifecycle.step, run. destruct req; simpl Lifecycle.handle.
  - (* user_book *)
    unfold App.user_book.
    destruct (User.has_role current_user "admin"); [exact Hb|].
    destruct area_id as [a|]; [|exact Hb]. destruct car_id as [c|]; [|exact Hb].
    destruct ((a =? 0) || (c =? 0)); [exact Hb|].
    destruct (App.find_car db c) as [car|]; [|exact Hb].
    destruct (negb _); [exact Hb|].
    destruct (App.existing_for_car db c); [exact Hb|].
    destruct (App.first_available_spot db a); [|exact Hb].
    simpl fst. apply final_add. rewrite find_booking_set_spot. exact Hb.
  - (* admin_offline_book *)
    unfold App.admin_offline_book.
    destruct area_id as [a|]; [|exact Hb].
    destruct (negb _ || (a =? 0)); [exact Hb|].
    destruct (App.find_area db a) as [area|]; [|exact Hb].
    destruct (Query.first _ (cars db)) as [car|].
    + destruct (App.existing_for_car db (Car.id car)); [exact Hb|].
      destruct (App.first_available_spot db (ParkingArea.id area)); [|exact Hb].
      simpl fst. apply final_add. rewrite find_booking_set_spot. exact Hb.
    + destruct (Query.first _ (users db)) as [off|]; [|exact Hb].
      match goal with
      | |- context [App.existing_for_car ?d ?c] =>
          destruct (App.existing_for_car d c); [exact Hb|]
      end.
      match goal with
      | |- context [App.first_available_spot ?d ?a] =>
          destruct (App.first_available_spot d a); [|exact Hb]
      end.
      simpl fst. apply final_add. rewrite find_booking_set_spot. exact Hb.
  - (* admin_request_approve *)
    unfold App.admin_request_approve.
    destruct (App.find_booking db booking_id) as [b0|] eqn:H0; [|exact Hb].
    destruct (String.eqb (Booking.status b0) st_pending) eqn:Hp; [|exact Hb].
    apply String.eqb_eq in Hp. simpl negb. cbv iota.
    assert (Hne : k <> booking_id)
      by (apply (Hother _ _ H0); rewrite Hp; discriminate).
    destruct (App.find_user db (Booking.user_id b0));
      destruct (App.find_spot db (Booking.spot_id b0)); simpl fst;
      final_step Hb Hne.
  - (* admin_request_reject *)
    unfold App.admin_request_reject.
    destruct (App.find_booking db booking_id) as [b0|] eqn:H0; [|exact Hb].
    destruct (String.eqb (Booking.status b0) st_pending) eqn:Hp; [|exact Hb].
    apply String.eqb_eq in Hp. simpl negb. cbv iota.
    assert (Hne : k <> booking_id)
      by (apply (Hother _ _ H0); rewrite Hp; discriminate).
    destruct (App.find_spot db (Booking.spot_id b0)); simpl fst;
      final_step Hb Hne.
  - (* user_cancel_pending *)
    unfold App.user_cancel_pending.
    destruct (App.find_booking db booking_id) as [b0|] eqn:H0; [|exact Hb].
    destruct (negb (Booking.user_id b0 =? User.id current_user)); [exact Hb|].
    destruct (String.eqb (Booking.status b0) st_pending) eqn:Hp; [|exact Hb].
    apply String.eqb_eq in Hp. simpl.
    assert (Hne : k <> booking_id)
      by (apply (Hother _ _ H0); rewrite Hp; discriminate).
    destruct (App.find_spot db (Booking.spot_id b0)); simpl fst;
      final_step Hb Hne.
  - (* user_release *)
    unfold App.user_release.
    destruct (App.find_booking db booking_id) as [b0|] eqn:H0; [|exact Hb].
    destruct (negb (Booking.user_id b0 =? User.id current_user)); [exact Hb|].
    destruct (String.eqb (Booking.status b0) st_completed) eqn:Hp; [exact Hb|].
    apply String.eqb_neq in Hp.
    assert (Hne : k <> booking_id) by (apply (Hother _ _ H0 Hp)).
    destruct (App.find_spot db (Booking.spot_id b0)) as [s|];
      destruct (Booking.start_time b0) as [start|]; simpl option_map; cbv iota;
      try (simpl fst; final_step Hb Hne).
    destruct (App.find_area db (ParkingSpot.parking_area_id s)); [|exact Hb].
    rewrite dt_sub_now. destruct (App.cost _ _); [|exact Hb].
    simpl fst. final_step Hb Hne.
  - (* admin_offline_release *)
    unfold App.admin_offline_release.
    destruct (App.find_booking db booking_id) as [b0|] eqn:H0; [|exact Hb].
    destruct (String.eqb (Booking.status b0) st_active) eqn:Hp; [|exact Hb].
    apply String.eqb_eq in Hp. simpl negb. cbv iota.
    assert (Hne : k <> booking_id)
      by (apply (Hother _ _ H0); rewrite Hp; discriminate).
    pose proof (get_id _ _ _ _ H0) as [_ Hk0].
    unfold App._complete_booking. rewrite Hp, Hk0.
    simpl (String.eqb _ _). cbv iota.
    destruct (App.find_spot db (Booking.spot_id b0)) as [s|];
      [|simpl fst; final_step Hb Hne].
    destruct (Booking.start_time b0) as [start|]; simpl option_map; cbv iota;
      [|simpl fst; final_step Hb Hne].
    destruct (App.find_area db (ParkingSpot.parking_area_id s)); [|exact Hb].
    rewrite dt_sub_now. destruct (App.cost _ _); [|exact Hb].
    simpl fst. final_step Hb Hne.
  - (* BookingListAPI.post *)
    unfold ApiAdmin.BookingListAPI.post. simpl fst. apply final_add.
    destruct (App.find_spot db _);
      [destruct (String.eqb _ st_active)|]; try rewrite find_booking_set_spot;
      exact Hb.
Qed.

Lemma completed_booking_is_final_witness :
  App.find_booking
    (Lifecycle.step (Lifecycle.UserRelease Demo.user 1) 99
       (Lifecycle.step (Lifecycle.UserRelease Demo.user 1) 4200000000 Demo.parked))
    1
  = App.find_booking
      (Lifecycle.step (Lifecycle.UserRelease Demo.user 1) 4200000000 Demo.parked) 1.
Proof.
  apply (completed_booking_is_final (Lifecycle.UserRelease Demo.user 1) 99
           (Lifecycle.step (Lifecycle.UserRelease Demo.user 1) 4200000000 Demo.parked)
           1 _ eq_refl eq_refl).
Defined.

(** ** Ownership *)

(** X6. The user routes act on the caller's own rows only: releasing or
    cancelling another user's booking, or requesting a spot for another
    user's car, is answered 403 and changes nothing; so is a booking
    request made by an admin account. *)
Theorem user_routes_check_ownership (u : User.t) (now : Z) (db : DB) :
  (forall k b,
      App.find_booking db k = Some b ->
      Booking.user_id b <> User.id u ->
      run (App.user_release u k now) db = (db, Abort 403)
      /\ run (App.user_cancel_pending u k) db = (db, Abort 403))
  /\ (forall a c car,
         User.has_role u "admin" = false ->
         a <> 0 -> c <> 0 ->
         App.find_car db c = Some car ->
         Car.user_id car <> User.id u ->
         run (App.user_book u (Some a) (Some c) now) db = (db, Abort 403))
  /\ (forall a c,
         User.has_role u "admin" = true ->
         run (App.user_book u a c now) db = (db, Abort 403)).
Proof.
  split; [|split].
  - intros k b Hb Hu. apply Z.eqb_neq in Hu.
    unfold run, App.user_release, App.user_cancel_pending.
    rewrite Hb, Hu. split; reflexivity.
  - intros a c car Hadm Ha Hc Hcar Hu.
    apply Z.eqb_neq in Ha, Hc, Hu.
    unfold run, App.user_book. rewrite Hadm, Ha, Hc, Hcar, Hu. reflexivity.
  - intros a c Hadm. unfold run, App.user_book. now rewrite Hadm.
Qed.

Lemma user_routes_check_ownership_witness :
  run (App.user_release Demo.short_user 1 7) Demo.parked
  = (Demo.parked, Abort 403)
  /\ run (App.user_cancel_pending Demo.short_user 1) Demo.parked
     = (Demo.parked, Abort 403).
Proof.
  apply (proj1 (user_routes_check_ownership Demo.short_user 7 Demo.parked)
               1 _ eq_refl).
  discriminate.
Defined.

(** ** Creating an area through the admin API *)

Lemma upper_char_dash (c : ascii) :
  Ascii.eqb (PyStr.upper_char c) "-" = Ascii.eqb c "-".
Proof.
  destruct c as [[] [] [] [] [] [] [] []]; vm_compute; reflexivity.
Qed.

Lemma upper_keeps_dashes (s : string) :
  PyStr.contains "-" (PyStr.upper s) = PyStr.contains "-" s.
Proof.
  unfold PyStr.upper. induction s as [|c s IH]; simpl; [reflexivity|].
  now rewrite upper_char_dash, IH.
Qed.

Lemma filter_none {A : Type} (p : A -> bool) (l : list A) :
  (forall x, In x l -> p x = false) -> filter p l = [].
Proof.
  induction l as [|x l IH]; intros H; simpl; [reflexivity|].
  rewrite (H x (or_introl eq_refl)). apply IH. intros y Hy. apply H. now right.
Qed.

Lemma filter_all {A : Type} (p : A -> bool) (l : list A) :
  (forall x, In x l -> p x = true) -> filter p l = l.
Proof.
  induction l as [|x l IH]; intros H; simpl; [reflexivity|].
  rewrite (H x (or_introl eq_refl)). f_equal. apply IH.
  intros y Hy. apply H. now right.
Qed.

Lemma first_app_hit {A : Type} (p : A -> bool) (l : list A) (x : A) :
  p x = true -> exists y, Query.first p (l ++ [x]) = Some y.
Proof.
  intros Hx. unfold Query.first. induction l as [|z l IH]; simpl.
  - rewrite Hx. eauto.
  - destruct (p z); eauto.
Qed.

Lemma new_spots_area (code : string) (a first n : Z) (s : ParkingSpot.t) :
  In s (ApiAdmin.ParkingAreaListAPI.new_spots code a first n) ->
  ParkingSpot.parking_area_id s = a
  /\ ParkingSpot.status s = st_available
  /\ exists i, 1 <= i <= n
               /\ ParkingSpot.spot_identifier s
                  = (code ++ String "-" (ApiAdmin.str_int i))%string.
Proof.
  unfold ApiAdmin.ParkingAreaListAPI.new_spots. intros H.
  apply in_map_iff in H as (k & <- & Hk). apply in_seq in Hk. simpl.
  repeat split. exists (1 + Z.of_nat k). split; [lia|reflexivity].
Qed.

Lemma new_area_reads_back (db : DB) (name location : string) (price : PyFloat.float)
      (code : string) (n : Z) :
  PyStr.contains "-" code = false ->
  1 <= n ->
  (forall s, In s (spots db) ->
             exists a, App.find_area db (ParkingSpot.parking_area_id s) = Some a) ->
  let new_id := Query.next_id ParkingArea.id (areas db) in
  let db' := AdminViews.with_new_area db name location price code n in
  (exists area,
      App.find_area db' new_id = Some area
      /\ ParkingArea.name area = name
      /\ ParkingArea.price_per_hour area = price)
  /\ App.area_code db' new_id = Some code
  /\ List.length (App.area_spots db' new_id) = Z.to_nat n
  /\ (forall s, In s (App.area_spots db' new_id) ->
        ParkingSpot.status s = st_available
        /\ exists i, 1 <= i <= n
                     /\ ParkingSpot.spot_identifier s
                        = (code ++ String "-" (ApiAdmin.str_int i))%string)
  /\ (forall a, a <> new_id -> App.area_spots db' a = App.area_spots db a)
  /\ bookings db' = bookings db.
Proof.
  intros Hdash Hn Hfk. cbv zeta. unfold AdminViews.with_new_area.
  set (new_id := Query.next_id ParkingArea.id (areas db)).
  set (area := {| ParkingArea.id := new_id;
                  ParkingArea.name := name;
                  ParkingArea.location_description := location;
                  ParkingArea.price_per_hour := price |}).
  set (created := ApiAdmin.ParkingAreaListAPI.new_spots code new_id
                    (Query.next_id ParkingSpot.id (spots db)) n).
  change (with_spots (with_areas db (areas db ++ [area]))
            (spots (with_areas db (areas db ++ [area])) ++
             ApiAdmin.ParkingAreaListAPI.new_spots code (ParkingArea.id area)
               (Query.next_id ParkingSpot.id
                  (spots (with_areas db (areas db ++ [area])))) n))
    with (with_spots (with_areas db (areas db ++ [area])) (spots db ++ created)).
  set (db1 := with_spots (with_areas db (areas db ++ [area])) (spots db ++ created)).
  assert (Hold : forall s, In s (spots db) ->
                   (ParkingSpot.parking_area_id s =? new_id) = false).
  { intros s Hs. destruct (Hfk s Hs) as [a Ha].
    apply get_id in Ha as [Hin Hid]. apply Z.eqb_neq. intros E.
    apply (next_id_fresh ParkingArea.id (areas db)).
    fold new_id. rewrite <- E, <- Hid. now apply in_map. }
  assert (Hspots : forall a,
             App.area_spots db1 a
             = App.area_spots db a
               ++ filter (fun s => ParkingSpot.parking_area_id s =? a) created).
  { intros a. unfold App.area_spots, db1. simpl. apply filter_app. }
  assert (Hnew : App.area_spots db1 new_id = created).
  { rewrite Hspots. unfold App.area_spots at 1.
    rewrite (filter_none _ _ Hold). simpl. apply filter_all.
    intros s Hs. apply new_spots_area in Hs as (Ha & _). rewrite Ha.
    apply Z.eqb_refl. }
  split; [|split; [|split; [|split; [|split]]]].
  - exists area. split; [|split; reflexivity].
    unfold App.find_area, db1. simpl.
    apply (get_app_fresh ParkingArea.id (areas db) area). apply next_id_fresh.
  - unfold App.area_code. rewrite Hnew.
    unfold created, ApiAdmin.ParkingAreaListAPI.new_spots.
    destruct (Z.to_nat n) as [|m] eqn:Em; [lia|].
    simpl. rewrite PyStrFacts.split_app_sep; [reflexivity|exact Hdash].
  - rewrite Hnew. unfold created, ApiAdmin.ParkingAreaListAPI.new_spots.
    now rewrite length_map, length_seq.
  - rewrite Hnew. intros s Hs.
    apply new_spots_area in Hs as (_ & Hst & Hi). auto.
  - intros a Ha. rewrite Hspots.
    rewrite filter_none; [apply app_nil_r|].
    intros s Hs. apply new_spots_area in Hs as (Hs & _). rewrite Hs.
    apply Z.eqb_neq. congruence.
  - reflexivity.
Qed.

Lemma api_post_builds_new_area
      (data : ApiAdmin.ParkingAreaListAPI.payload) (db db' : DB) (r : Response) :
  ApiAdmin.ParkingAreaListAPI.post data db = Commit db' r ->
  exists price,
    PyFloat.stored (ApiAdmin.ParkingAreaListAPI.price_per_hour data) = Some price
    /\ db' = AdminViews.with_new_area db
               (ApiAdmin.ParkingAreaListAPI.name data)
               (ApiAdmin.ParkingAreaListAPI.location_description data)
               price
               (PyStr.upper (ApiAdmin.ParkingAreaListAPI.area_code data))
               (ApiAdmin.ParkingAreaListAPI.num_spots data)
    /\ Query.first
         (fun s => String.prefix
                     (PyStr.upper (ApiAdmin.ParkingAreaListAPI.area_code data) ++ "-")%string
                     (ParkingSpot.spot_identifier s))
         (spots db) = None.
Proof.
  unfold ApiAdmin.ParkingAreaListAPI.post. intros H.
  destruct (Query.first _ (areas db)); [discriminate|].
  destruct (Query.first _ (spots db)); [discriminate|].
  destruct (PyFloat.stored _) as [price|]; [|discriminate].
  inversion H. exists price. repeat split.
Qed.

(** X9. Creating an area through the admin API and reading its code back:
    when the request is accepted, the code has no dash, at least one spot is
    asked for and every existing spot belongs to an existing area, the new
    area has exactly the requested number of spots, all available and named
    [CODE-i] with [1 <= i <= n]; its derived code is the submitted code in
    upper case; the spots of the other areas are untouched; and sending the
    same request again is refused with 409. *)
Theorem created_area_reads_back
        (data : ApiAdmin.ParkingAreaListAPI.payload) (db db' : DB) (r : Response) :
  ApiAdmin.ParkingAreaListAPI.post data db = Commit db' r ->
  PyStr.contains "-" (ApiAdmin.ParkingAreaListAPI.area_code data) = false ->
  1 <= ApiAdmin.ParkingAreaListAPI.num_spots data ->
  (forall s, In s (spots db) ->
             exists a, App.find_area db (ParkingSpot.parking_area_id s) = Some a) ->
  let new_id := Query.next_id ParkingArea.id (areas db) in
  let code := PyStr.upper (ApiAdmin.ParkingAreaListAPI.area_code data) in
  (exists area,
      App.find_area db' new_id = Some area
      /\ ParkingArea.name area = ApiAdmin.ParkingAreaListAPI.name data
      /\ Some (ParkingArea.price_per_hour area)
         = PyFloat.stored (ApiAdmin.ParkingAreaListAPI.price_per_hour data))
  /\ App.area_code db' new_id = Some code
  /\ List.length (App.area_spots db' new_id)
     = Z.to_nat (ApiAdmin.ParkingAreaListAPI.num_spots data)
  /\ (forall s, In s (App.area_spots db' new_id) ->
        ParkingSpot.status s = st_available
        /\ exists i, 1 <= i <= ApiAdmin.ParkingAreaListAPI.num_spots data
                     /\ ParkingSpot.spot_identifier s
                        = (code ++ String "-" (ApiAdmin.str_int i))%string)
  /\ (forall a, a <> new_id -> App.area_spots db' a = App.area_spots db a)
  /\ ApiAdmin.ParkingAreaListAPI.post data db' = NoCommit db' (Json false 409).
Proof.
  intros Hpost Hdash Hn Hfk. cbv zeta.
  destruct (api_post_builds_new_area _ _ _ _ Hpost) as (price & Hprice & -> & _).
  rewrite <- upper_keeps_dashes in Hdash.
  destruct (new_area_reads_back db
              (ApiAdmin.ParkingAreaListAPI.name data)
              (ApiAdmin.ParkingAreaListAPI.location_description data)
              price _ _ Hdash Hn Hfk)
    as (H1 & H2 & H3 & H4 & H5 & _).
  split.
  { destruct H1 as (area & Ha & Hname & Hp). exists area.
    split; [exact Ha|]. split; [exact Hname|]. now rewrite Hp, Hprice. }
  repeat (split; [assumption|]).
  unfold ApiAdmin.ParkingAreaListAPI.post, AdminViews.with_new_area.
  simpl areas.
  match goal with
  | |- context [Query.first ?p (areas db ++ [?x])] =>
      destruct (first_app_hit p (areas db) x) as [y Hy];
      [apply String.eqb_refl|rewrite Hy]
  end.
  reflexivity.
Qed.

Lemma created_area_reads_back_witness :
  App.area_code Demo.garage (Query.next_id ParkingArea.id (areas Demo.before_areas))
  = Some (PyStr.upper (ApiAdmin.ParkingAreaListAPI.area_code Demo.lot1)).
Proof.
  apply (created_area_reads_back Demo.lot1 Demo.before_areas Demo.garage
           (Json true 201) eq_refl eq_refl).
  - discriminate.
  - intros s [].
Defined.

(** ** Creating an area through the admin form *)

Lemma alpha_is_no_dash (c : ascii) :
  Forms.is_alpha c = true -> Ascii.eqb c "-" = false.
Proof.
  destruct c as [[] [] [] [] [] [] [] []]; vm_compute; congruence.
Qed.

Lemma isalpha_no_dash (s : string) :
  Forms.isalpha s = true -> PyStr.contains "-" s = false.
Proof.
  unfold Forms.isalpha. intros H. apply andb_true_iff in H as [_ H].
  induction s as [|c s IH]; simpl in *; [reflexivity|].
  apply andb_true_iff in H as [Hc Hs].
  now rewrite (alpha_is_no_dash _ Hc), (IH Hs).
Qed.

Lemma map_string_length (f : ascii -> ascii) (s : string) :
  String.length (PyStr.map_string f s) = String.length s.
Proof. induction s as [|c s IH]; simpl; [reflexivity|now rewrite IH]. Qed.

(** X10. An area created through the admin form, its text fields being
    ASCII, always reads back: the
    form admits only a code of three letters and between 1 and 1000 spots,
    so, every existing spot belonging to an existing area, the new area's
    derived code is the three-letter code in upper case and it has exactly
    the requested spots, all available.  Unlike the API, the form does not
    look the code up: a valid form with an unused name is accepted whatever
    spots exist already. *)
Theorem form_created_area_reads_back
        (form : Forms.ParkingLotForm) (db : DB) :
  PyStr.isascii (Forms.prime_location_name form) = true ->
  PyStr.isascii (Forms.area_code form) = true ->
  PyStr.isascii (Forms.address form) = true ->
  let new_id := Query.next_id ParkingArea.id (areas db) in
  let code := PyStr.upper (Forms.area_code form) in
  (forall db' r,
      AdminViews.admin_area_new form db = Commit db' r ->
      (forall s, In s (spots db) ->
                 exists a, App.find_area db (ParkingSpot.parking_area_id s) = Some a) ->
      exists n,
        Forms.max_spots form = Some n
        /\ 1 <= n <= 1000
        /\ String.length code = 3%nat
        /\ App.area_code db' new_id = Some code
        /\ List.length (App.area_spots db' new_id) = Z.to_nat n
        /\ (forall s, In s (App.area_spots db' new_id) ->
              ParkingSpot.status s = st_available)
        /\ (forall a, a <> new_id -> App.area_spots db' a = App.area_spots db a)
        /\ bookings db' = bookings db)
  /\ (Forms.validate_lot form = true ->
      Query.first (fun a => String.eqb (ParkingArea.name a)
                                       (Forms.prime_location_name form))
                  (areas db) = None ->
      exists db', AdminViews.admin_area_new form db = Commit db' (Redirect "success")).
Proof.
  intros _ _ _. cbv zeta. split.
  - intros db' r H Hfk. unfold AdminViews.admin_area_new in H.
    destruct (Forms.validate_lot form) eqn:Hv; [|discriminate].
    destruct (Forms.price_per_hour form) as [price|] eqn:Hprice; [|discriminate].
    destruct (Forms.max_spots form) as [n|] eqn:Hmax; [|discriminate].
    destruct (Query.first _ (areas db)); [discriminate|].
    inversion H; subst. clear H.
    unfold Forms.validate_lot in Hv. rewrite Hprice, Hmax in Hv.
    repeat (apply andb_true_iff in Hv as [Hv ?]).
    assert (Hn : 1 <= n <= 1000) by lia.
    assert (Hdash : PyStr.contains "-" (PyStr.upper (Forms.area_code form)) = false)
      by (rewrite upper_keeps_dashes; now apply isalpha_no_dash).
    destruct (new_area_reads_back db (Forms.prime_location_name form)
                (Forms.address form) price _ n Hdash (proj1 Hn) Hfk)
      as (_ & Ra & Rb & Rc & Rd & Re).
    exists n. repeat split; try assumption; try lia.
    + unfold PyStr.upper. rewrite map_string_length.
      unfold Forms.length_between in *. lia.
    + intros s Hs. apply (Rc s Hs).
  - intros Hv Hname. unfold AdminViews.admin_area_new. rewrite Hv, Hname.
    unfold Forms.validate_lot in Hv.
    destruct (Forms.price_per_hour form); [|rewrite andb_false_r in Hv; discriminate].
    destruct (Forms.max_spots form); [|rewrite andb_false_r in Hv; discriminate].
    eauto.
Qed.

Lemma form_created_area_reads_back_witness :
  exists n,
    Forms.max_spots Samples.lot2 = Some n
    /\ 1 <= n <= 1000
    /\ String.length (PyStr.upper (Forms.area_code Samples.lot2)) = 3%nat
    /\ App.area_code Samples.two_areas
         (Query.next_id ParkingArea.id (areas Demo.garage))
       = Some (PyStr.upper (Forms.area_code Samples.lot2))
    /\ List.length (App.area_spots Samples.two_areas
                      (Query.next_id ParkingArea.id (areas Demo.garage)))
       = Z.to_nat n
    /\ (forall s, In s (App.area_spots Samples.two_areas
                          (Query.next_id ParkingArea.id (areas Demo.garage))) ->
          ParkingSpot.status s = st_available)
    /\ (forall a, a <> Query.next_id ParkingArea.id (areas Demo.garage) ->
          App.area_spots Samples.two_areas a = App.area_spots Demo.garage a)
    /\ bookings Samples.two_areas = bookings Demo.garage.
Proof.
  apply (proj1 (form_created_area_reads_back Samples.lot2 Demo.garage
                  eq_refl eq_refl eq_refl)
               Samples.two_areas (Redirect "success") eq_refl).
  intros s Hs. unfold Demo.garage in Hs. simpl in Hs.
  repeat (destruct Hs as [<-|Hs]; [eexists; reflexivity|]).
  destruct Hs.
Defined.

(** ** The dashboard's occupancy figures *)

Lemma filter_split_length {A : Type} (p : A -> bool) (l : list A) :
  List.length l
  = (List.length (filter p l) + List.length (filter (fun x => negb (p x)) l))%nat.
Proof.
  induction l as [|x l IH]; simpl; [reflexivity|].
  destruct (p x); simpl; lia.
Qed.

Lemma filter_twice {A : Type} (p q : A -> bool) (l : list A) :
  filter p (filter q l) = filter (fun x => q x && p x) l.
Proof.
  induction l as [|x l IH]; simpl; [reflexivity|].
  destruct (q x); simpl; [destruct (p x); simpl; now rewrite IH|exact IH].
Qed.

Lemma insert_sorted_perm {A : Type} (leb : A -> A -> bool) (x : A) (l : list A) :
  Permutation (Query.insert_sorted leb x l) (x :: l).
Proof.
  induction l as [|y l IH]; simpl; [reflexivity|].
  destruct (leb x y); [reflexivity|].
  rewrite IH. apply perm_swap.
Qed.

Lemma order_by_perm {A : Type} (leb : A -> A -> bool) (l : list A) :
  Permutation (Query.order_by leb l) l.
Proof.
  induction l as [|x l IH]; simpl; [constructor|].
  rewrite insert_sorted_perm. now constructor.
Qed.

(** X11. The dashboard lists every area once, and for each area its
    "available" figure is the number of spots that are not occupied: it
    adds up with "occupied" to the total, and it counts the reserved spots
    along with the available ones. *)
Theorem dashboard_counts_reserved_as_available (db : DB) :
  Permutation (map AdminViews.area (AdminViews.admin_dashboard db)) (areas db)
  /\ forall row,
      In row (AdminViews.admin_dashboard db) ->
      let its_spots := App.area_spots db (ParkingArea.id (AdminViews.area row)) in
      let count p := Z.of_nat (List.length (filter p its_spots)) in
      AdminViews.total row = Z.of_nat (List.length its_spots)
      /\ AdminViews.occupied row + AdminViews.available row = AdminViews.total row
      /\ AdminViews.occupied row
         = count (fun s => String.eqb (ParkingSpot.status s) st_occupied)
      /\ AdminViews.available row
         = count (fun s => String.eqb (ParkingSpot.status s) st_available)
           + count (fun s => negb (String.eqb (ParkingSpot.status s) st_occupied)
                             && negb (String.eqb (ParkingSpot.status s) st_available)).
Proof.
  split.
  - unfold AdminViews.admin_dashboard. rewrite map_map. simpl.
    rewrite map_id. apply order_by_perm.
  - intros row Hrow. unfold AdminViews.admin_dashboard in Hrow.
    apply in_map_iff in Hrow as (a & <- & _). cbv zeta. simpl.
    set (sp := App.area_spots db (ParkingArea.id a)).
    pose proof (filter_split_length
                  (fun s => String.eqb (ParkingSpot.status s) st_occupied) sp) as H1.
    pose proof (filter_split_length
                  (fun s => String.eqb (ParkingSpot.status s) st_available)
                  (filter (fun s => negb (String.eqb (ParkingSpot.status s) st_occupied)) sp))
      as H2.
    rewrite !filter_twice in H2.
    assert (Hav : filter (fun s => negb (String.eqb (ParkingSpot.status s) st_occupied)
                                   && String.eqb (ParkingSpot.status s) st_available) sp
                  = filter (fun s => String.eqb (ParkingSpot.status s) st_available) sp).
    { apply filter_ext. intros s.
      destruct (String.eqb_spec (ParkingSpot.status s) st_available) as [->|];
        [reflexivity|apply andb_false_r]. }
    rewrite Hav in H2. repeat split; lia.
Qed.

Lemma dashboard_counts_reserved_as_available_witness :
  Forall (fun row => AdminViews.total row = 10 /\ AdminViews.occupied row = 0
                     /\ AdminViews.available row = 10)
         (AdminViews.admin_dashboard Demo.booked).
Proof.
  apply Forall_forall. intros row Hrow.
  pose proof (proj2 (dashboard_counts_reserved_as_available Demo.booked) row Hrow)
    as H.
  destruct Hrow as [<-|[]]. repeat split.
Defined.

(** ** Licence plates *)

Lemma plate_unused (plate : string) (l : list Car.t) :
  Query.first (fun c => String.eqb (Car.license_plate c) plate) l = None ->
  ~ In plate (map Car.license_plate l).
Proof.
  unfold Query.first. intros H Hin. apply in_map_iff in Hin as (c & Hc & Hin).
  pose proof (find_none _ _ H c Hin) as Hn. simpl in Hn.
  rewrite Hc, String.eqb_refl in Hn. discriminate.
Qed.

Lemma plates_with_new_car (l : list Car.t) (car : Car.t) :
  NoDup (map Car.license_plate l) ->
  Query.first (fun c => String.eqb (Car.license_plate c) (Car.license_plate car)) l
  = None ->
  NoDup (map Car.license_plate (l ++ [car])).
Proof.
  intros Hnd Hfree. rewrite map_app. simpl.
  apply NoDup_app; [exact Hnd|constructor; [intros []|constructor]|].
  intros x Hx [<-|[]]. exact (plate_unused _ _ Hfree Hx).
Qed.

(** X12. No two cars share a licence plate: each of the three routes that
    add a car (the user's form, the admin API and the walk-in booking)
    looks the plate up first and adds a car only when it is new, so unique
    plates stay unique; the walk-in booking compares the plate stripped and
    in upper case, the other two as typed. *)
Theorem plates_stay_unique (db : DB) :
  NoDup (map Car.license_plate (cars db)) ->
  (forall u form,
      NoDup (map Car.license_plate (cars (fst (run (UserViews.user_cars u form) db)))))
  /\ (forall data,
         NoDup (map Car.license_plate (cars (fst (run (CarListAPI.post data) db)))))
  /\ (forall plate a now,
         NoDup (map Car.license_plate
                    (cars (fst (run (App.admin_offline_book plate a now) db)))))
  /\ (forall plate a now car,
         Query.first
           (fun c => String.eqb (Car.license_plate c)
                       (PyStr.upper (PyStr.strip
                          (match plate with Some p => p | None => EmptyString end))))
           (cars db) = Some car ->
         cars (fst (run (App.admin_offline_book plate a now) db)) = cars db).
Proof.
  intros Hnd. split; [|split; [|split]].
  - intros u form. unfold run, UserViews.user_cars.
    destruct (Forms.validate_car form); [|exact Hnd].
    destruct (Query.first _ (cars db)) eqn:E; [exact Hnd|].
    simpl. now apply plates_with_new_car.
  - intros data. unfold run, CarListAPI.post.
    destruct (Query.first _ (cars db)) eqn:E; [exact Hnd|].
    destruct (App.find_user db _); [|exact Hnd].
    simpl. now apply plates_with_new_car.
  - intros plate a now. unfold run, App.admin_offline_book.
    destruct a as [a|]; [|exact Hnd].
    destruct (negb _ || (a =? 0)); [exact Hnd|].
    destruct (App.find_area db a) as [area|]; [|exact Hnd].
    destruct (Query.first _ (cars db)) as [car|] eqn:E.
    + destruct (App.existing_for_car db (Car.id car)); [exact Hnd|].
      destruct (App.first_available_spot db (ParkingArea.id area)); exact Hnd.
    + destruct (Query.first _ (users db)) as [off|]; [|exact Hnd].
      match goal with
      | |- context [App.existing_for_car ?d ?c] =>
          destruct (App.existing_for_car d c); [exact Hnd|]
      end.
      match goal with
      | |- context [App.first_available_spot ?d ?x] =>
          destruct (App.first_available_spot d x); [|exact Hnd]
      end.
      simpl. now apply plates_with_new_car.
  - intros plate a now car E. unfold run, App.admin_offline_book.
    destruct a as [a|]; [|reflexivity].
    destruct (negb _ || (a =? 0)); [reflexivity|].
    destruct (App.find_area db a) as [area|]; [|reflexivity].
    rewrite E.
    destruct (App.existing_for_car db (Car.id car)); [reflexivity|].
    destruct (App.first_available_spot db (ParkingArea.id area)); reflexivity.
Qed.

Lemma plates_stay_unique_witness :
  NoDup (map Car.license_plate
             (cars (fst (run (App.admin_offline_book (Some " ka09zz0001 "%string)
                                (Some 1) 3) Demo.garage)))).
Proof.
  assert (Hnd : NoDup (map Car.license_plate (cars Demo.garage)))
    by (repeat (constructor; [simpl; intuition discriminate|]); constructor).
  apply (proj1 (proj2 (proj2 (plates_stay_unique Demo.garage Hnd)))).
Defined.

(** ** Deleting an area or a car *)

Lemma key_in_spec {A : Type} (id_of : A -> Z) (k : Z) (rows : list A) :
  AdminViews.key_in id_of k rows = true <->
  exists r, In r rows /\ id_of r = k.
Proof.
  unfold AdminViews.key_in. rewrite existsb_exists.
  split; intros (r & Hr & Hk); exists r; split; auto;
    [now apply Z.eqb_eq|now apply Z.eqb_eq].
Qed.

Lemma find_filter_keep {A : Type} (p q : A -> bool) (l : list A) (s : A) :
  find p l = Some s -> q s = true -> find p (filter q l) = Some s.
Proof.
  induction l as [|x l IH]; simpl; [discriminate|].
  destruct (p x) eqn:Ep.
  - intros H Hq. inversion H; subst. rewrite Hq. simpl. now rewrite Ep.
  - intros H Hq. destruct (q x); simpl; [rewrite Ep|]; now apply IH.
Qed.

Lemma count_positive {A : Type} (p : A -> bool) (l : list A) (x : A) :
  In x l -> p x = true -> (0 <? Z.of_nat (List.length (filter p l))) = true.
Proof.
  intros Hin Hp. apply Z.ltb_lt.
  assert (Hx : In x (filter p l)) by (apply filter_In; auto).
  destruct (filter p l); [destruct Hx|simpl; lia].
Qed.

Lemma count_zero {A : Type} (p : A -> bool) (l : list A) :
  (forall x, In x l -> p x = false) ->
  (0 <? Z.of_nat (List.length (filter p l))) = false.
Proof. intros H. now rewrite (filter_none _ _ H). Qed.

(** X13. Deleting an area is refused only while one of its spots is
    occupied.  Otherwise the area, all its spots and every booking on one
    of them are gone, reserved spots and their pending bookings included;
    what remains was there before and belongs elsewhere, and every
    remaining booking whose spot existed still finds it. *)
Theorem area_delete_cascades (area_id : Z) (db : DB) (a : ParkingArea.t) :
  App.find_area db area_id = Some a ->
  (forall s, In s (spots db) ->
             ParkingSpot.parking_area_id s = area_id ->
             ParkingSpot.status s = st_occupied ->
             run (AdminViews.admin_area_delete area_id) db = (db, Redirect "danger"))
  /\ ((forall s, In s (spots db) ->
                 ParkingSpot.parking_area_id s = area_id ->
                 ParkingSpot.status s <> st_occupied) ->
      exists db',
        AdminViews.admin_area_delete area_id db = Commit db' (Redirect "success")
        /\ App.find_area db' area_id = None
        /\ App.area_spots db' area_id = []
        /\ (forall s, In s (spots db') ->
              In s (spots db) /\ ParkingSpot.parking_area_id s <> area_id)
        /\ (forall b, In b (bookings db') ->
              In b (bookings db)
              /\ forall s, In s (spots db) ->
                           ParkingSpot.parking_area_id s = area_id ->
                           Booking.spot_id b <> ParkingSpot.id s)
        /\ (forall b s, In b (bookings db') ->
              App.find_spot db (Booking.spot_id b) = Some s ->
              App.find_spot db' (Booking.spot_id b) = Some s)
        /\ cars db' = cars db /\ users db' = users db).
Proof.
  intros Ha. pose proof (get_id _ _ _ _ Ha) as [_ Hid].
  unfold run, AdminViews.admin_area_delete. rewrite Ha, Hid.
  set (its_spots := App.area_spots db area_id).
  assert (Hits : forall s, In s its_spots <->
                           In s (spots db) /\ ParkingSpot.parking_area_id s = area_id).
  { intros s. unfold its_spots, App.area_spots.
    rewrite filter_In, Z.eqb_eq. tauto. }
  split.
  - intros s Hs Harea Hocc.
    rewrite (count_positive _ its_spots s); [reflexivity|now apply Hits|].
    rewrite Hocc. reflexivity.
  - intros Hfree. rewrite count_zero.
    2:{ intros s Hs. apply Hits in Hs as [Hs Harea].
        apply String.eqb_neq. now apply Hfree. }
    eexists. split; [reflexivity|]. simpl.
    split; [|split; [|split; [|split; [|split; [|split; reflexivity]]]]].
    + unfold App.find_area, Query.get. simpl.
      destruct (find _ (filter _ (areas db))) as [x|] eqn:E; [|reflexivity].
      apply find_some in E as [Hin Hx]. apply filter_In in Hin as [_ Hne].
      apply Z.eqb_eq in Hx. rewrite Hx, Z.eqb_refl in Hne. discriminate.
    + unfold App.area_spots. simpl. apply filter_none.
      intros s Hs. apply filter_In in Hs as [Hs Hk].
      apply Z.eqb_neq. intros Harea.
      apply negb_true_iff in Hk.
      assert (Hyes : AdminViews.key_in ParkingSpot.id (ParkingSpot.id s) its_spots = true)
        by (apply key_in_spec; exists s; split; [apply Hits|]; auto).
      congruence.
    + intros s Hs. apply filter_In in Hs as [Hs Hk]. split; [exact Hs|].
      intros Harea. apply negb_true_iff in Hk.
      assert (Hyes : AdminViews.key_in ParkingSpot.id (ParkingSpot.id s) its_spots = true)
        by (apply key_in_spec; exists s; split; [apply Hits|]; auto).
      congruence.
    + intros b Hb. apply filter_In in Hb as [Hb Hk]. split; [exact Hb|].
      intros s Hs Harea Hspot. apply negb_true_iff in Hk.
      assert (Hyes : AdminViews.key_in Booking.id (Booking.id b)
                       (filter (fun b0 => AdminViews.key_in ParkingSpot.id
                                            (Booking.spot_id b0) its_spots)
                               (bookings db)) = true).
      { apply key_in_spec. exists b. split; [|reflexivity].
        apply filter_In. split; [exact Hb|].
        apply key_in_spec. exists s. split; [apply Hits; auto|auto]. }
      congruence.
    + intros b s Hb Hs. apply filter_In in Hb as [Hb Hk].
      apply negb_true_iff in Hk.
      unfold App.find_spot, Query.get in *. simpl.
      apply find_filter_keep; [exact Hs|].
      apply negb_true_iff.
      destruct (AdminViews.key_in ParkingSpot.id (ParkingSpot.id s) its_spots) eqn:E;
        [|reflexivity].
      exfalso. apply find_some in Hs as [_ Hsid]. apply Z.eqb_eq in Hsid.
      assert (Hyes : AdminViews.key_in Booking.id (Booking.id b)
                       (filter (fun b0 => AdminViews.key_in ParkingSpot.id
                                            (Booking.spot_id b0) its_spots)
                               (bookings db)) = true).
      { apply key_in_spec. exists b. split; [|reflexivity].
        apply filter_In. split; [exact Hb|]. now rewrite <- Hsid. }
      congruence.
Qed.

Lemma area_delete_cascades_witness :
  exists db',
    AdminViews.admin_area_delete 1 Demo.booked = Commit db' (Redirect "success")
    /\ App.find_area db' 1 = None
    /\ App.area_spots db' 1 = []
    /\ (forall s, In s (spots db') ->
          In s (spots Demo.booked) /\ ParkingSpot.parking_area_id s <> 1)
    /\ (forall b, In b (bookings db') ->
          In b (bookings Demo.booked)
          /\ forall s, In s (spots Demo.booked) ->
                       ParkingSpot.parking_area_id s = 1 ->
                       Booking.spot_id b <> ParkingSpot.id s)
    /\ (forall b s, In b (bookings db') ->
          App.find_spot Demo.booked (Booking.spot_id b) = Some s ->
          App.find_spot db' (Booking.spot_id b) = Some s)
    /\ cars db' = cars Demo.booked /\ users db' = users Demo.booked.
Proof.
  apply (proj2 (area_delete_cascades 1 Demo.booked _ eq_refl)).
  intros s Hs _. unfold Demo.booked in Hs. simpl in Hs.
  repeat (destruct Hs as [<-|Hs]; [discriminate|]). destruct Hs.
Defined.

Lemma unique_key_row {A : Type} (id_of : A -> Z) (l : list A) (x y : A) :
  NoDup (map id_of l) -> In x l -> In y l -> id_of x = id_of y -> x = y.
Proof.
  induction l as [|z l IH]; simpl; intros Hnd Hx Hy E; [destruct Hx|].
  inversion Hnd as [|? ? Hnotin Hnd']; subst.
  destruct Hx as [->|Hx], Hy as [->|Hy]; auto.
  - exfalso. apply Hnotin. rewrite E. now apply in_map.
  - exfalso. apply Hnotin. rewrite <- E. now apply in_map.
Qed.

(** X14. Deleting a car is open to its owner only and refused while the
    car has an active booking.  Otherwise the car and all its bookings go,
    the bookings of other cars stay (booking keys being unique), and the
    spots table is not touched: a spot reserved by a pending booking of the
    car stays reserved although no booking refers to it any more. *)
Theorem car_delete_leaves_spots
        (u : User.t) (car_id : Z) (db : DB) (car : Car.t) :
  App.find_car db car_id = Some car ->
  (Car.user_id car <> User.id u ->
   run (UserViews.user_car_delete u car_id) db = (db, Abort 403))
  /\ (Car.user_id car = User.id u ->
      forall b, In b (bookings db) ->
                Booking.car_id b = car_id ->
                Booking.status b = st_active ->
                run (UserViews.user_car_delete u car_id) db = (db, Redirect "danger"))
  /\ (Car.user_id car = User.id u ->
      Lifecycle.unique_ids db ->
      (forall b, In b (bookings db) ->
                 Booking.car_id b = car_id ->
                 Booking.status b <> st_active) ->
      exists db',
        UserViews.user_car_delete u car_id db = Commit db' (Redirect "success")
        /\ App.find_car db' car_id = None
        /\ spots db' = spots db
        /\ (forall b, In b (bookings db') <->
                      In b (bookings db) /\ Booking.car_id b <> car_id)
        /\ (forall b s,
              In b (bookings db) ->
              Booking.car_id b = car_id ->
              Booking.status b = st_pending ->
              App.find_spot db (Booking.spot_id b) = Some s ->
              App.find_spot db' (Booking.spot_id b) = Some s
              /\ ~ In b (bookings db'))).
Proof.
  intros Hcar. pose proof (get_id _ _ _ _ Hcar) as [_ Hid].
  unfold run, UserViews.user_car_delete. rewrite Hcar, Hid.
  set (its := filter (fun b => Booking.car_id b =? car_id) (bookings db)).
  assert (Hits : forall b, In b its <-> In b (bookings db) /\ Booking.car_id b = car_id).
  { intros b. unfold its. rewrite filter_In, Z.eqb_eq. tauto. }
  split; [|split].
  - intros Hu. apply Z.eqb_neq in Hu. now rewrite Hu.
  - intros Hu b Hb Hc Hact. rewrite Hu, Z.eqb_refl. simpl.
    rewrite (count_positive _ its b); [reflexivity|now apply Hits|].
    now rewrite Hact.
  - intros Hu Hnd Hnone. rewrite Hu, Z.eqb_refl. simpl.
    rewrite count_zero.
    2:{ intros b Hb. apply Hits in Hb as [Hb Hc].
        apply String.eqb_neq. now apply Hnone. }
    assert (Hleft : forall b, In b (filter (fun b0 => negb (AdminViews.key_in Booking.id
                                                      (Booking.id b0) its))
                                           (bookings db)) <->
                              In b (bookings db) /\ Booking.car_id b <> car_id).
    { intros b. rewrite filter_In, negb_true_iff. split.
      - intros [Hb Hk]. split; [exact Hb|]. intros Hc.
        assert (AdminViews.key_in Booking.id (Booking.id b) its = true)
          by (apply key_in_spec; exists b; split; [apply Hits|]; auto).
        congruence.
      - intros [Hb Hc]. split; [exact Hb|].
        destruct (AdminViews.key_in Booking.id (Booking.id b) its) eqn:E;
          [|reflexivity].
        exfalso. apply key_in_spec in E as (x & Hx & Hk).
        apply Hits in Hx as [Hx Hxc].
        assert (x = b) by (apply (unique_key_row Booking.id (bookings db)); auto).
        subst x. auto. }
    eexists. split; [reflexivity|]. simpl.
    split; [|split; [reflexivity|split; [exact Hleft|]]].
    + unfold App.find_car, Query.get. simpl.
      destruct (find _ (filter _ (cars db))) as [x|] eqn:E; [|reflexivity].
      apply find_some in E as [Hin Hx]. apply filter_In in Hin as [_ Hne].
      apply Z.eqb_eq in Hx. rewrite Hx, Z.eqb_refl in Hne. discriminate.
    + intros b s Hb Hc _ Hs. split; [exact Hs|].
      intros Hin. apply Hleft in Hin as [_ Hne]. auto.
Qed.

Lemma car_delete_leaves_spots_witness :
  exists db',
    UserViews.user_car_delete Demo.user 1 Demo.booked
    = Commit db' (Redirect "success")
    /\ App.find_car db' 1 = None
    /\ spots db' = spots Demo.booked
    /\ (forall b, In b (bookings db') <->
                  In b (bookings Demo.booked) /\ Booking.car_id b <> 1)
    /\ (forall b s,
          In b (bookings Demo.booked) ->
          Booking.car_id b = 1 ->
          Booking.status b = st_pending ->
          App.find_spot Demo.booked (Booking.spot_id b) = Some s ->
          App.find_spot db' (Booking.spot_id b) = Some s
          /\ ~ In b (bookings db')).
Proof.
  apply (proj2 (proj2 (car_delete_leaves_spots Demo.user 1 Demo.booked _ eq_refl))).
  - reflexivity.
  - repeat (constructor; [simpl; intuition discriminate|]). constructor.
  - intros b Hb _. unfold Demo.booked in Hb. simpl in Hb.
    destruct Hb as [<-|[]]. discriminate.
Defined.

(** ** The secret answer *)

Lemma lower_of_upper_char (c : ascii) :
  PyStr.lower_char (PyStr.upper_char c) = PyStr.lower_char c.
Proof.
  destruct c as [[] [] [] [] [] [] [] []]; vm_compute; reflexivity.
Qed.

Lemma lower_of_upper (s : string) : PyStr.lower (PyStr.upper s) = PyStr.lower s.
Proof.
  unfold PyStr.lower, PyStr.upper.
  induction s as [|c s IH]; simpl; [reflexivity|].
  now rewrite lower_of_upper_char, IH.
Qed.

Lemma lower_app (a b : string) :
  PyStr.lower (a ++ b) = (PyStr.lower a ++ PyStr.lower b)%string.
Proof.
  unfold PyStr.lower. induction a as [|c a IH]; simpl; [reflexivity|].
  now rewrite IH.
Qed.

Lemma rstrip_trailing_space (a : string) :
  PyStr.rstrip (a ++ " ") = PyStr.rstrip a.
Proof.
  induction a as [|c a IH]; simpl; [reflexivity|]. now rewrite IH.
Qed.

Lemma strip_trailing_space (a : string) :
  PyStr.strip (a ++ " ") = PyStr.strip a.
Proof.
  unfold PyStr.strip. induction a as [|c a IH]; simpl; [reflexivity|].
  destruct (PyStr.is_space c); [exact IH|].
  apply (rstrip_trailing_space (String c a)).
Qed.

(** X15. The secret answer is stored and checked in one normal form, lower
    case without surrounding white space: with a hash that accepts what it
    hashed and is never empty, an answer that was set is accepted again
    whenever it has the same normal form, in particular in upper case or
    padded with blanks; and setting an empty answer changes nothing. *)
Theorem secret_answer_round_trip
        (generate_password_hash : string -> string)
        (check_password_hash : string -> string -> bool) :
  (forall x, check_password_hash (generate_password_hash x) x = true) ->
  (forall x, generate_password_hash x <> EmptyString) ->
  forall u answer,
    answer <> EmptyString ->
    (forall again,
        PyStr.strip (PyStr.lower again) = PyStr.strip (PyStr.lower answer) ->
        Recovery.check_secret_answer check_password_hash
          (Accounts.set_secret_answer generate_password_hash u answer) again
        = true)
    /\ Recovery.check_secret_answer check_password_hash
         (Accounts.set_secret_answer generate_password_hash u answer)
         (String " " (PyStr.upper answer ++ " "))
       = true
    /\ Accounts.set_secret_answer generate_password_hash u EmptyString = u.
Proof.
  intros Hcheck Hne u answer Ha.
  assert (Hset : forall again,
             PyStr.strip (PyStr.lower again) = PyStr.strip (PyStr.lower answer) ->
             Recovery.check_secret_answer check_password_hash
               (Accounts.set_secret_answer generate_password_hash u answer) again
             = true).
  { intros again E. unfold Accounts.set_secret_answer, PyStr.truthy.
    destruct (String.eqb_spec answer EmptyString) as [|_]; [contradiction|].
    simpl negb. cbv iota. unfold Recovery.check_secret_answer. simpl.
    unfold PyStr.truthy.
    destruct (String.eqb_spec
                (generate_password_hash (PyStr.strip (PyStr.lower answer)))
                EmptyString) as [E0|_]; [now apply Hne in E0|].
    simpl. rewrite E. apply Hcheck. }
  split; [exact Hset|]. split; [|reflexivity].
  apply Hset.
  change (String " " (PyStr.upper answer ++ " "))
    with (" " ++ (PyStr.upper answer ++ " "))%string.
  rewrite lower_app. change (PyStr.lower " ") with " "%string.
  simpl append. unfold PyStr.strip at 1. simpl PyStr.lstrip.
  fold (PyStr.strip (PyStr.lower (PyStr.upper answer ++ " "))).
  rewrite lower_app. change (PyStr.lower " ") with " "%string.
  now rewrite strip_trailing_space, lower_of_upper.
Qed.

Lemma demo_hash_checks (x : string) : Demo.check (Demo.hash x) x = true.
Proof. apply String.eqb_refl. Defined.

Lemma demo_hash_nonempty (x : string) : Demo.hash x <> EmptyString.
Proof. unfold Demo.hash. simpl. discriminate. Defined.

Lemma secret_answer_round_trip_witness :
  Recovery.check_secret_answer Demo.check
    (Accounts.set_secret_answer Demo.hash Demo.user "Rex") " REX "
  = true.
Proof.
  assert (H3 : "Rex"%string <> EmptyString) by discriminate.
  apply (proj1 (proj2 (secret_answer_round_trip Demo.hash Demo.check
                         demo_hash_checks demo_hash_nonempty
                         Demo.user "Rex"%string H3))).
Defined.

(** ** Registration, login and the key of the reset *)

Lemma first_app_fresh {A : Type} (p : A -> bool) (l : list A) (x : A) :
  (forall y, In y l -> p y = false) -> p x = true ->
  Query.first p (l ++ [x]) = Some x.
Proof.
  intros Hl Hx. unfold Query.first. induction l as [|z l IH]; simpl.
  - now rewrite Hx.
  - rewrite (Hl z (or_introl eq_refl)). apply IH.
    intros y Hy. apply Hl. now right.
Qed.

Lemma register_commits
      (generate_password_hash : string -> string)
      (role_names : list string) (question_ids : list Z)
      (uuid username email password : string) (qid : Z) (answer : string)
      (db db' : DB) (r : Response) (key : option string) :
  Accounts.RegisterAPI.post generate_password_hash role_names question_ids uuid
    username email password qid answer db = (Commit db' r, key) ->
  exists new_user,
    db' = with_users db (users db ++ [new_user])
    /\ key = Some uuid
    /\ r = Json true 201
    /\ User.username new_user = username
    /\ User.email new_user = email
    /\ User.fs_uniquifier new_user = uuid
    /\ User.password_hash new_user = generate_password_hash password
    /\ User.secret_answer_hash new_user
       = generate_password_hash (PyStr.strip (PyStr.lower answer))
    /\ User.roles new_user = ["user"%string]
    /\ Recovery.is_password_strong password = true
    /\ (forall u, In u (users db) ->
                  User.username u <> username /\ User.email u <> email
                  /\ User.fs_uniquifier u <> uuid).
Proof.
  unfold Accounts.RegisterAPI.post. intros H.
  destruct (Query.first _ (users db)) eqn:Efree; [discriminate|].
  destruct (Recovery.is_password_strong password) eqn:Estrong;
    [|discriminate H].
  destruct (existsb (Z.eqb qid) question_ids); [|discriminate H].
  destruct (existsb (String.eqb "user") role_names); [|discriminate H].
  destruct (PyStr.truthy answer) eqn:Eans; [|discriminate H].
  destruct (existsb (fun u => String.eqb (User.fs_uniquifier u) uuid)
                    (users db)) eqn:Euuid; [discriminate H|].
  cbn [negb orb] in H.
  inversion H; subst. clear H.
  eexists. split; [reflexivity|].
  unfold Accounts.set_secret_answer. rewrite Eans. simpl.
  repeat split.
  - intros E. pose proof (find_none _ _ Efree u H) as Hn. simpl in Hn.
    rewrite E, String.eqb_refl in Hn. discriminate.
  - intros E. pose proof (find_none _ _ Efree u H) as Hn. simpl in Hn.
    rewrite E, String.eqb_refl, orb_true_r in Hn. discriminate.
  - intros E.
    assert (existsb (fun u0 => String.eqb (User.fs_uniquifier u0) (User.fs_uniquifier u))
                    (users db) = true).
    { apply existsb_exists. exists u. split; [exact H|apply String.eqb_refl]. }
    rewrite E in *. congruence.
Qed.

(** X16. A registration through the API that is accepted can be used: the
    password was strong, the key returned is the account's identifier, the
    same name and password log in for that very account (provided no older
    account has that name as its e-mail address, for the login looks up name
    and address alike), and a second registration under the same name or
    the same address is refused with 409. *)
Theorem registered_user_can_log_in
        (generate_password_hash : string -> string)
        (check_password_hash : string -> string -> bool)
        (role_names : list string) (question_ids : list Z)
        (uuid username email password : string) (qid : Z) (answer : string)
        (db db' : DB) (r : Response) (key : option string) :
  (forall x, check_password_hash (generate_password_hash x) x = true) ->
  Accounts.RegisterAPI.post generate_password_hash role_names question_ids uuid
    username email password qid answer db = (Commit db' r, key) ->
  key = Some uuid
  /\ Recovery.is_password_strong password = true
  /\ ((forall u, In u (users db) -> User.email u <> username) ->
      Accounts.LoginAPI.post check_password_hash username password db'
      = (Json true 200, Some uuid))
  /\ ((forall u, In u (users db) -> User.username u <> email) ->
      Accounts.LoginAPI.post check_password_hash email password db'
      = (Json true 200, Some uuid))
  /\ (forall uuid2 email2 password2 qid2 answer2,
         Accounts.RegisterAPI.post generate_password_hash role_names question_ids
           uuid2 username email2 password2 qid2 answer2 db'
         = (NoCommit db' (Json false 409), None))
  /\ (forall uuid2 username2 password2 qid2 answer2,
         Accounts.RegisterAPI.post generate_password_hash role_names question_ids
           uuid2 username2 email password2 qid2 answer2 db'
         = (NoCommit db' (Json false 409), None)).
Proof.
  intros Hcheck Hreg.
  destruct (register_commits _ _ _ _ _ _ _ _ _ _ _ _ _ Hreg)
    as (nu & -> & -> & _ & Hun & Hem & Huid & Hpw & _ & _ & Hstrong & Hold).
  split; [reflexivity|]. split; [exact Hstrong|].
  assert (Hlogin : forall x,
             (x = username \/ x = email) ->
             (forall u, In u (users db) ->
                        User.username u <> x /\ User.email u <> x) ->
             Accounts.LoginAPI.post check_password_hash x password
               (with_users db (users db ++ [nu]))
             = (Json true 200, Some uuid)).
  { intros x Hx Hnone. unfold Accounts.LoginAPI.post. simpl users.
    rewrite (first_app_fresh _ (users db) nu).
    - unfold Accounts.check_password. now rewrite Hpw, Hcheck, Huid.
    - intros u Hu. destruct (Hnone u Hu) as [H1 H2].
      apply String.eqb_neq in H1, H2. now rewrite H1, H2.
    - destruct Hx as [->| ->]; [rewrite Hun|rewrite Hem];
        rewrite String.eqb_refl; [reflexivity|apply orb_true_r]. }
  split; [|split; [|split]].
  - intros Hmail. apply Hlogin; [now left|].
    intros u Hu. split; [apply (Hold u Hu)|now apply Hmail].
  - intros Hname. apply Hlogin; [now right|].
    intros u Hu. split; [now apply Hname|apply (Hold u Hu)].
  - intros. unfold Accounts.RegisterAPI.post. simpl users.
    destruct (first_app_hit
                (fun u => String.eqb (User.username u) username
                          || String.eqb (User.email u) email2)
                (users db) nu) as [y Hy];
      [rewrite Hun, String.eqb_refl; reflexivity|now rewrite Hy].
  - intros. unfold Accounts.RegisterAPI.post. simpl users.
    destruct (first_app_hit
                (fun u => String.eqb (User.username u) username2
                          || String.eqb (User.email u) email)
                (users db) nu) as [y Hy];
      [rewrite Hem, String.eqb_refl; apply orb_true_r|now rewrite Hy].
Qed.

Lemma registered_user_can_log_in_witness :
  Accounts.LoginAPI.post Demo.check "carol" "Str0ng!pw" Samples.with_carol
  = (Json true 200, Some Samples.carol_uuid).
Proof.
  assert (Hreg : Samples.register_carol Demo.accounts
                 = (Commit Samples.with_carol (Json true 201),
                    Some Samples.carol_uuid)) by reflexivity.
  assert (Hmail : forall u, In u (users Demo.accounts) ->
                            User.email u <> "carol"%string).
  { intros u [<-|[<-|[]]]; discriminate. }
  exact (proj1 (proj2 (proj2
           (registered_user_can_log_in Demo.hash Demo.check _ _ _ _ _ _ _ _ _ _ _ _
              demo_hash_checks Hreg))) Hmail).
Defined.

Lemma append_length (s t : string) :
  String.length (s ++ t) = (String.length s + String.length t)%nat.
Proof. induction s as [|c s IH]; simpl; [reflexivity|now rewrite IH]. Qed.

Lemma concat_snoc_length (sep : string) (m : list string) (y : string) :
  (String.length (String.concat sep m)
   <= String.length (String.concat sep (m ++ [y])))%nat.
Proof.
  induction m as [|x m IH]; [simpl; lia|].
  destruct m as [|z m].
  - simpl. rewrite append_length. lia.
  - change (String.concat sep (x :: z :: m))
      with (x ++ sep ++ String.concat sep (z :: m))%string.
    change (String.concat sep ((x :: z :: m) ++ [y]))
      with (x ++ sep ++ String.concat sep ((z :: m) ++ [y]))%string.
    rewrite !append_length. lia.
Qed.

(** The partial key is strictly shorter than the identifier it is cut
    from. *)
Lemma partial_key_shorter (u : string) :
  u <> EmptyString ->
  (String.length (PyStr.join "-" (PyStr.slice 1 (-1) (PyStr.split "-" u)))
   < String.length u)%nat.
Proof.
  intros Hu.
  pose proof (PyStrFacts.join_split "-" u) as Hj.
  pose proof (PyStrFacts.split_nonempty "-" u) as Hne.
  destruct (PyStr.split "-" u) as [|x l]; [congruence|].
  destruct l as [|z l].
  - rewrite PyStrFacts.slice_short by (simpl; lia). simpl.
    destruct u; [congruence|simpl; lia].
  - destruct (exists_last (l := z :: l)) as (m & y & E); [discriminate|].
    rewrite E in *. rewrite PyStrFacts.slice_inner.
    rewrite <- Hj. unfold PyStr.join.
    pose proof (concat_snoc_length "-" m y) as Hm.
    destruct m as [|m0 m].
    + simpl. rewrite append_length. simpl. lia.
    + change (String.concat "-" (x :: (m0 :: m) ++ [y]))
        with (x ++ "-" ++ String.concat "-" ((m0 :: m) ++ [y]))%string.
      rewrite !append_length.
      change (String.length "-") with 1%nat. lia.
Qed.

Lemma partial_key_differs (u : string) :
  u <> EmptyString ->
  String.eqb (PyStr.join "-" (PyStr.slice 1 (-1) (PyStr.split "-" u))) u = false.
Proof.
  intros Hu. apply String.eqb_neq. intros E.
  pose proof (partial_key_shorter u Hu) as H. rewrite E in H. lia.
Qed.

Lemma truthy_nonempty (s : string) : s <> EmptyString -> PyStr.truthy s = true.
Proof.
  intros H. unfold PyStr.truthy. apply negb_true_iff. now apply String.eqb_neq.
Qed.

(** X17. The [secret_key] that an accepted registration through the API
    returns is the whole identifier of the account, and neither reset path
    takes it: the API reset answers 400 and the web reset does not commit,
    whatever the answer and the new password.  What both expect is the
    partial key cut from it, with which (and the registered answer, and a
    strong password) the API reset goes through. *)
Theorem registration_key_is_not_the_reset_key
        (generate_password_hash : string -> string)
        (check_password_hash : string -> string -> bool)
        (role_names : list string) (question_ids : list Z)
        (uuid username email password : string) (qid : Z) (answer : string)
        (db db' : DB) (r : Response) (key : string) :
  (forall x, check_password_hash (generate_password_hash x) x = true) ->
  (forall x, generate_password_hash x <> EmptyString) ->
  uuid <> EmptyString ->
  Accounts.RegisterAPI.post generate_password_hash role_names question_ids uuid
    username email password qid answer db = (Commit db' r, Some key) ->
  (forall answer2 new_password,
      Recovery.api_reset generate_password_hash check_password_hash
        email answer2 key new_password db'
      = NoCommit db' (Json false 400))
  /\ (forall form,
         Recovery.f_secret_key form = key ->
         exists r',
           Recovery.reset_password_verify generate_password_hash
             check_password_hash (Some email) form db'
           = NoCommit db' r')
  /\ (forall new_password,
         Recovery.is_password_strong new_password = true ->
         exists key' db'',
           Recovery.partial_key key = Recovery.Value key'
           /\ Recovery.api_reset generate_password_hash check_password_hash
                email answer key' new_password db'
              = Commit db'' (Json true 200)).
Proof.
  intros Hcheck Hhash Huuid Hreg.
  destruct (register_commits _ _ _ _ _ _ _ _ _ _ _ _ _ Hreg)
    as (nu & -> & Hkey & _ & _ & Hem & Huid & _ & Hans & _ & _ & Hold).
  injection Hkey as ->.
  assert (Hfirst : Query.first (fun u => String.eqb (User.email u) email)
                     (users db ++ [nu]) = Some nu).
  { apply first_app_fresh.
    - intros u Hu. apply String.eqb_neq. apply (Hold u Hu).
    - rewrite Hem. apply String.eqb_refl. }
  split; [|split].
  - intros answer2 new_password. unfold Recovery.api_reset. simpl users.
    rewrite Hfirst. unfold Recovery.partial_key.
    rewrite Huid, (partial_key_differs uuid Huuid). simpl negb.
    now rewrite orb_true_r.
  - intros form Hform. unfold Recovery.reset_password_verify.
    destruct (PyStr.truthy email); simpl negb; cbv iota; [|eauto].
    simpl users. rewrite Hfirst.
    destruct (Recovery.validate_on_submit form); [|eauto].
    unfold Recovery.is_key_correct, Recovery.partial_key.
    rewrite Huid, Hform, (partial_key_differs uuid Huuid), andb_false_r.
    eauto.
  - intros new_password Hstrong.
    exists (PyStr.join "-" (PyStr.slice 1 (-1) (PyStr.split "-" uuid))).
    eexists. split; [reflexivity|].
    unfold Recovery.api_reset. simpl users.
    rewrite Hfirst. unfold Recovery.partial_key.
    rewrite Huid, String.eqb_refl. unfold Recovery.check_secret_answer.
    rewrite Hans, (truthy_nonempty _ (Hhash _)), Hcheck, Hstrong.
    reflexivity.
Qed.

Lemma registration_key_is_not_the_reset_key_witness :
  Recovery.api_reset Demo.hash Demo.check "carol@example.com" "Rex"
    Samples.carol_uuid "N3w!pass" Samples.with_carol
  = NoCommit Samples.with_carol (Json false 400).
Proof.
  assert (Hreg : Samples.register_carol Demo.accounts
                 = (Commit Samples.with_carol (Json true 201),
                    Some Samples.carol_uuid)) by reflexivity.
  assert (Huuid : Samples.carol_uuid <> EmptyString) by discriminate.
  exact (proj1 (registration_key_is_not_the_reset_key Demo.hash Demo.check
                  _ _ _ _ _ _ _ _ _ _ _ _
                  demo_hash_checks demo_hash_nonempty Huuid Hreg)
               "Rex"%string "N3w!pass"%string).
Defined.

(** X18. The web reset does not apply the password rule of the API: when
    the form of [reset_password_verify] is accepted, the API reset given
    the same address, answer, key and password writes the same database if
    the password is strong and is refused with 400 if it is not.  A
    password of six characters is all the web form asks for. *)
Theorem web_reset_skips_strength_check
        (generate_password_hash : string -> string)
        (check_password_hash : string -> string -> bool)
        (email : string) (form : Recovery.ResetPasswordForm)
        (db db' : DB) (r : Response) :
  Recovery.reset_password_verify generate_password_hash check_password_hash
    (Some email) form db = Commit db' r ->
  (6 <= Z.of_nat (String.length (Recovery.f_password form)))
  /\ Recovery.api_reset generate_password_hash check_password_hash email
       (Recovery.f_secret_answer form) (Recovery.f_secret_key form)
       (Recovery.f_password form) db
     = if Recovery.is_password_strong (Recovery.f_password form)
       then Commit db' (Json true 200)
       else NoCommit db (Json false 400).
Proof.
  unfold Recovery.reset_password_verify, Recovery.api_reset,
    Recovery.is_key_correct, Recovery.partial_key.
  intros H.
  destruct (PyStr.truthy email); [|discriminate H].
  cbn [negb] in H.
  destruct (Query.first _ (users db)) as [user|]; [|discriminate H].
  destruct (Recovery.validate_on_submit form) eqn:Ev; [|discriminate H].
  destruct (Recovery.check_secret_answer _ user _); [|discriminate H].
  destruct (String.eqb _ (Recovery.f_secret_key form)); [|discriminate H].
  cbn [negb orb andb] in *. inversion H; subst. split.
  - unfold Recovery.validate_on_submit in Ev.
    repeat (apply andb_true_iff in Ev as [Ev ?]). lia.
  - destruct (Recovery.is_password_strong _); reflexivity.
Qed.

Lemma web_reset_skips_strength_check_witness :
  Recovery.api_reset Demo.hash Demo.check "bob@example.com"
    " REX " "e89b-12d3-a456" "aaaaaa" Demo.accounts
  = NoCommit Demo.accounts (Json false 400).
Proof.
  assert (Hweb : Recovery.reset_password_verify Demo.hash Demo.check
                   (Some "bob@example.com"%string) Samples.weak_reset
                   Demo.accounts
                 = Commit (Recovery.update_user Demo.accounts
                             (Recovery.set_password Demo.hash Demo.user "aaaaaa"))
                          (Redirect "success")) by reflexivity.
  exact (proj2 (web_reset_skips_strength_check Demo.hash Demo.check
                  _ _ _ _ _ Hweb)).
Defined.

(** ** Editing an area *)

Lemma get_replaced {A : Type} (id_of : A -> Z) (k : Z) (row old : A) (l : list A) :
  id_of row = k ->
  Query.get id_of l k = Some old ->
  Query.get id_of (Query.update id_of k (fun _ => row) l) k = Some row.
Proof.
  intros Hrow. unfold Query.get, Query.update.
  induction l as [|x l IH]; simpl; [discriminate|].
  destruct (id_of x =? k) eqn:E; simpl.
  - intros _. now rewrite Hrow, Z.eqb_refl.
  - rewrite E. exact IH.
Qed.

Lemma get_replaced_other {A : Type} (id_of : A -> Z) (k k' : Z) (row : A)
      (l : list A) :
  id_of row = k -> k' <> k ->
  Query.get id_of (Query.update id_of k (fun _ => row) l) k'
  = Query.get id_of l k'.
Proof.
  intros Hrow Hk. unfold Query.get, Query.update.
  induction l as [|x l IH]; simpl; [reflexivity|].
  destruct (id_of x =? k) eqn:E; simpl.
  - apply Z.eqb_eq in E. rewrite Hrow, E.
    destruct (k =? k') eqn:E'; [apply Z.eqb_eq in E'; congruence|exact IH].
  - now rewrite IH.
Qed.

Lemma update_keeps_keys {A : Type} (id_of : A -> Z) (k : Z) (row : A)
      (l : list A) :
  id_of row = k ->
  map id_of (Query.update id_of k (fun _ => row) l) = map id_of l.
Proof.
  intros Hrow. unfold Query.update. rewrite map_map. apply map_ext.
  intros x. destruct (id_of x =? k) eqn:E; [|reflexivity].
  apply Z.eqb_eq in E. congruence.
Qed.

Lemma update_names_unique (k : Z) (row : ParkingArea.t) (l : list ParkingArea.t) :
  ParkingArea.id row = k ->
  NoDup (map ParkingArea.id l) ->
  NoDup (map ParkingArea.name l) ->
  (forall x, In x l -> ParkingArea.id x <> k ->
             ParkingArea.name x <> ParkingArea.name row) ->
  NoDup (map ParkingArea.name (Query.update ParkingArea.id k (fun _ => row) l)).
Proof.
  intros Hrow. induction l as [|x l IH]; simpl; intros Hid Hname Hfree;
    [constructor|].
  inversion Hid as [|? ? Hx Hid']; subst.
  inversion Hname as [|? ? Hn Hname']; subst.
  destruct (ParkingArea.id x =? ParkingArea.id row) eqn:E.
  - apply Z.eqb_eq in E.
    rewrite (update_fixed ParkingArea.id (ParkingArea.id row) (fun _ => row) l).
    + constructor; [|exact Hname'].
      intros Hin. apply in_map_iff in Hin as (y & Hy & Hin).
      apply (Hfree y); [now right| |exact Hy].
      intros Hk. apply Hx. rewrite E, <- Hk. now apply in_map.
    + intros y Hy Hk. exfalso. apply Hx. rewrite E, <- Hk. now apply in_map.
  - apply Z.eqb_neq in E. constructor.
    + intros Hin. apply in_map_iff in Hin as (y & Hy & Hin).
      unfold Query.update in Hin. apply in_map_iff in Hin as (z & Hz & Hin).
      destruct (ParkingArea.id z =? ParkingArea.id row); subst y.
      * apply (Hfree x); [now left|exact E|now symmetry].
      * apply Hn. rewrite <- Hy. now apply in_map.
    + apply IH; [exact Hid'|exact Hname'|].
      intros y Hy. apply Hfree. now right.
Qed.

(** X19. An accepted edit of an area writes the name, the description and
    the price of the form and nothing else: the area keeps its key, every
    other area is as it was, and the spots and the bookings are untouched,
    so the code of the area and its number of spots stay what they were
    whatever the form says of them.  Names that were unique stay unique. *)
Theorem area_edit_keeps_spots_and_code
        (area_id : Z) (form : Forms.ParkingLotForm) (db db' : DB) (r : Response) :
  AdminViews.admin_area_edit area_id form db = Commit db' r ->
  NoDup (map ParkingArea.id (areas db)) ->
  NoDup (map ParkingArea.name (areas db)) ->
  (exists price,
      Forms.price_per_hour form = Some price
      /\ App.find_area db' area_id
         = Some (ParkingArea.mk area_id (Forms.prime_location_name form)
                   (Forms.address form) price))
  /\ (forall k, k <> area_id -> App.find_area db' k = App.find_area db k)
  /\ map ParkingArea.id (areas db') = map ParkingArea.id (areas db)
  /\ NoDup (map ParkingArea.name (areas db'))
  /\ spots db' = spots db
  /\ bookings db' = bookings db
  /\ (forall k, App.area_code db' k = App.area_code db k)
  /\ (forall k, App.area_spots db' k = App.area_spots db k).
Proof.
  unfold AdminViews.admin_area_edit. intros H Hid Hname.
  destruct (App.find_area db area_id) as [a|] eqn:Ea; [|discriminate H].
  destruct (Forms.validate_lot form); [|discriminate H].
  destruct (Forms.price_per_hour form) as [price|]; [|discriminate H].
  destruct (existsb _ (areas db)) eqn:Eclash; [discriminate H|].
  inversion H; subst; clear H.
  unfold App.find_area in *. destruct (get_id _ _ _ _ Ea) as [Hin Hk].
  rewrite Hk in *. simpl areas.
  split; [|split; [|split; [|split]]].
  - exists price. split; [reflexivity|].
    now apply (get_replaced ParkingArea.id area_id _ a).
  - intros k Hne. now apply get_replaced_other.
  - now apply update_keeps_keys.
  - apply update_names_unique; auto.
    intros x Hx Hne E. simpl in E.
    assert (existsb (fun x0 => negb (ParkingArea.id x0 =? area_id)
                               && String.eqb (ParkingArea.name x0)
                                             (Forms.prime_location_name form))
                    (areas db) = true) as Hc; [|congruence].
    apply existsb_exists. exists x. split; [exact Hx|].
    apply Z.eqb_neq in Hne. rewrite Hne, E. simpl. apply String.eqb_refl.
  - repeat split; reflexivity.
Qed.

Lemma area_edit_keeps_spots_and_code_witness :
  App.area_code (fst (run (AdminViews.admin_area_edit 1 Samples.lot1_edit)
                          Samples.two_areas)) 1
  = App.area_code Samples.two_areas 1.
Proof.
  assert (Hid : NoDup (map ParkingArea.id (areas Samples.two_areas))).
  { repeat constructor; simpl; intuition discriminate. }
  assert (Hname : NoDup (map ParkingArea.name (areas Samples.two_areas))).
  { repeat constructor; simpl; intuition discriminate. }
  assert (Hedit : AdminViews.admin_area_edit 1 Samples.lot1_edit Samples.two_areas
                  = Commit (fst (run (AdminViews.admin_area_edit 1 Samples.lot1_edit)
                                     Samples.two_areas))
                           (Redirect "success")) by reflexivity.
  exact (proj1 (proj2 (proj2 (proj2 (proj2 (proj2 (proj2
           (area_edit_keeps_spots_and_code _ _ _ _ _ Hedit Hid Hname)))))))
         1).
Defined.

(** ** The states of the spots *)

Lemma known_set_spot (db : DB) (k : Z) (st : string) :
  st = st_available \/ st = st_reserved \/ st = st_occupied ->
  AdminViews.spot_statuses_known db ->
  AdminViews.spot_statuses_known (App.set_spot_status db k st).
Proof.
  unfold AdminViews.spot_statuses_known, App.set_spot_status, Query.update.
  intros Hst H. simpl. apply Forall_map. revert H. apply Forall_impl.
  intros s Hs. destruct (ParkingSpot.id s =? k); [exact Hst|exact Hs].
Qed.

Lemma known_update_booking (db : DB) (k : Z) (g : Booking.t -> Booking.t) :
  AdminViews.spot_statuses_known db ->
  AdminViews.spot_statuses_known (App.update_booking db k g).
Proof. intros H. exact H. Qed.

Lemma known_add_booking (db : DB) u c s st en status cost t :
  AdminViews.spot_statuses_known db ->
  AdminViews.spot_statuses_known (App.add_booking db u c s st en status cost t).
Proof. intros H. exact H. Qed.

Lemma known_with_cars (db : DB) (l : list Car.t) :
  AdminViews.spot_statuses_known db ->
  AdminViews.spot_statuses_known (with_cars db l).
Proof. intros H. exact H. Qed.

Lemma known_new_area (db : DB) (name location : string) (price : PyFloat.float)
      (code : string) (n : Z) :
  AdminViews.spot_statuses_known db ->
  AdminViews.spot_statuses_known
    (AdminViews.with_new_area db name location price code n).
Proof.
  unfold AdminViews.spot_statuses_known, AdminViews.with_new_area. simpl.
  intros H. apply Forall_app. split; [exact H|].
  unfold ApiAdmin.ParkingAreaListAPI.new_spots. apply Forall_map.
  apply Forall_forall. intros k _. now left.
Qed.

Ltac known_step H :=
  cbn [fst];
  repeat first
    [ exact H
    | apply known_update_booking
    | apply known_add_booking
    | apply known_with_cars
    | apply known_set_spot;
      [first [left; reflexivity
             |right; left; reflexivity
             |right; right; reflexivity]|] ].

Ltac split_handler :=
  cbv zeta;
  repeat match goal with
         | |- context [match ?x with _ => _ end] =>
             lazymatch x with
             | context [match _ with _ => _ end] => fail
             | _ => destruct x; cbv beta iota zeta
             end
         end.

Lemma known_after_request (db : DB) (req : Lifecycle.Request) (now : Z) :
  AdminViews.spot_statuses_known db ->
  AdminViews.spot_statuses_known (Lifecycle.step req now db).
Proof.
  intros H. unfold Lifecycle.step, run.
  destruct req; simpl Lifecycle.handle.
  - unfold App.user_book. split_handler; known_step H.
  - unfold App.admin_offline_book. split_handler; known_step H.
  - unfold App.admin_request_approve. split_handler; known_step H.
  - unfold App.admin_request_reject. split_handler; known_step H.
  - unfold App.user_cancel_pending. split_handler; known_step H.
  - unfold App.user_release. split_handler; known_step H.
  - unfold App.admin_offline_release, App._complete_booking.
    split_handler; known_step H.
  - unfold ApiAdmin.BookingListAPI.post. split_handler; known_step H.
Qed.

Lemma three_way_count (l : list ParkingSpot.t) :
  Forall (fun s => ParkingSpot.status s = st_available
                   \/ ParkingSpot.status s = st_reserved
                   \/ ParkingSpot.status s = st_occupied) l ->
  AdminViews.count_where (fun s => String.eqb (ParkingSpot.status s) st_occupied) l
  + AdminViews.count_where (fun s => String.eqb (ParkingSpot.status s) st_reserved) l
  + AdminViews.count_where (fun s => String.eqb (ParkingSpot.status s) st_available) l
  = Z.of_nat (List.length l).
Proof.
  unfold AdminViews.count_where.
  induction 1 as [|s l Hs _ IH]; [reflexivity|].
  cbn [filter].
  destruct Hs as [E|[E|E]]; rewrite E;
    repeat match goal with
           | |- context [String.eqb ?a ?b] =>
               let v := eval vm_compute in (String.eqb a b) in
               change (String.eqb a b) with v
           end;
    cbv iota; cbn [List.length]; lia.
Qed.

(** X20. The handlers write no spot state but [available], [reserved] and
    [occupied]: when every spot is in one of the three, so it is after any
    request of the booking lifecycle (the admin API's insert included) and
    after an area is created, edited or deleted; and then the three spot
    counts of the admin summary add up to its total. *)
Theorem summary_spot_counts_add_up (db : DB) :
  AdminViews.spot_statuses_known db ->
  (AdminViews.occupied_spots (AdminViews.admin_summary db)
   + AdminViews.reserved_spots (AdminViews.admin_summary db)
   + AdminViews.available_spots (AdminViews.admin_summary db)
   = AdminViews.total_spots (AdminViews.admin_summary db))
  /\ (forall req now,
         AdminViews.spot_statuses_known (Lifecycle.step req now db))
  /\ (forall form,
         AdminViews.spot_statuses_known
           (fst (run (AdminViews.admin_area_new form) db)))
  /\ (forall data,
         AdminViews.spot_statuses_known
           (fst (run (ApiAdmin.ParkingAreaListAPI.post data) db)))
  /\ (forall area_id form,
         AdminViews.spot_statuses_known
           (fst (run (AdminViews.admin_area_edit area_id form) db)))
  /\ (forall area_id,
         AdminViews.spot_statuses_known
           (fst (run (AdminViews.admin_area_delete area_id) db))).
Proof.
  intros H. split; [|split; [|split; [|split; [|split]]]].
  - apply three_way_count. exact H.
  - intros req now. now apply known_after_request.
  - intros form. unfold run, AdminViews.admin_area_new.
    split_handler; cbn [fst]; try exact H. now apply known_new_area.
  - intros data. unfold run, ApiAdmin.ParkingAreaListAPI.post.
    split_handler; cbn [fst]; try exact H.
    apply (known_new_area db (ApiAdmin.ParkingAreaListAPI.name data)
             (ApiAdmin.ParkingAreaListAPI.location_description data)
             (ApiAdmin.ParkingAreaListAPI.price_per_hour data)
             (PyStr.upper (ApiAdmin.ParkingAreaListAPI.area_code data))
             (ApiAdmin.ParkingAreaListAPI.num_spots data) H).
  - intros area_id form. unfold run, AdminViews.admin_area_edit.
    split_handler; cbn [fst]; exact H.
  - intros area_id. unfold run, AdminViews.admin_area_delete.
    split_handler; cbn [fst]; try exact H.
    unfold AdminViews.spot_statuses_known in *. simpl.
    apply Forall_forall. intros s Hs. apply filter_In in Hs as [Hs _].
    revert s Hs. now apply Forall_forall.
Qed.

Lemma summary_spot_counts_add_up_witness :
  AdminViews.occupied_spots (AdminViews.admin_summary Demo.parked)
  + AdminViews.reserved_spots (AdminViews.admin_summary Demo.parked)
  + AdminViews.available_spots (AdminViews.admin_summary Demo.parked)
  = AdminViews.total_spots (AdminViews.admin_summary Demo.parked).
Proof.
  assert (H : AdminViews.spot_statuses_known Demo.parked).
  { unfold AdminViews.spot_statuses_known. simpl.
    repeat (constructor;
            [first [left; reflexivity
                   |right; left; reflexivity
                   |right; right; reflexivity]|]).
    constructor. }
  exact (proj1 (summary_spot_counts_add_up Demo.parked H)).
Defined.
